(** * random-clock-api: the daily scheduling engine of [clock_api.py]

    A shallow embedding of the seeded generator, the daily shuffle, the
    time resolution of the [compose] endpoint, the per-minute endpoint and
    the poem formatter, together with the properties of the schedule that
    the service relies on.

    Python values are modelled as follows: [int] is [Z]; [float] is an
    IEEE-754 binary64 number ([spec_float] at precision 53); [str] is a
    list of Unicode code points; [list] is [list] indexed by [Z] with
    Python's negative indices; an uncaught exception is a [Raise]. *)

From Stdlib Require Import Ascii String.
From Stdlib Require Import ZArith NArith List Bool Lia Permutation.
From Stdlib Require Import Floats.SpecFloat.
Import ListNotations.
Local Open Scope Z_scope.
Local Open Scope list_scope.

(** ** The Python runtime used by the program *)

Module Py.

Inductive exn : Type :=
| IndexError
| ValueError
| OverflowError
| ZeroDivisionError
| TypeError
| AttributeError
| KeyError
| UnicodeEncodeError.

Inductive result (A : Type) : Type :=
| Ok (a : A)
| Raise (e : exn).
Arguments Ok {A} a.
Arguments Raise {A} e.

Definition bind {A B : Type} (c : result A) (k : A -> result B) : result B :=
  match c with
  | Ok a => k a
  | Raise e => Raise e
  end.

Definition is_ok {A : Type} (c : result A) : bool :=
  match c with Ok _ => true | Raise _ => false end.

(** *** float: binary64 *)

Definition prec : Z := 53.
Definition emax : Z := 1024.
Definition float : Type := spec_float.

(** An [int] seen as an unrounded binary number. *)
Definition exact (z : Z) : float :=
  match z with
  | Z0 => S754_zero false
  | Zpos p => S754_finite false p 0
  | Zneg p => S754_finite true p 0
  end.

(** [float(z)], as done implicitly by [float * int]: round to nearest
    even; an [int] beyond the float range raises. *)
Definition int_to_float (z : Z) : result float :=
  match binary_normalize prec emax z 0 false with
  | S754_infinity _ => Raise OverflowError
  | f => Ok f
  end.

(** [a / b] on two [int]s: the quotient of the exact operands, rounded
    once to nearest even. *)
Definition int_truediv (a b : Z) : result float :=
  if b =? 0 then Raise ZeroDivisionError
  else match SFdiv prec emax (exact a) (exact b) with
       | S754_infinity _ => Raise OverflowError
       | f => Ok f
       end.

(** [x * n] for a [float] [x] and an [int] [n]. *)
Definition float_mul_int (x : float) (n : Z) : result float :=
  bind (int_to_float n) (fun y => Ok (SFmul prec emax x y)).

(** [int(x)]: truncation towards zero. *)
Definition float_to_int (x : float) : result Z :=
  match x with
  | S754_zero _ => Ok 0
  | S754_finite s m e => Ok (cond_Zopp s (Z.shiftl (Zpos m) e))
  | S754_infinity _ => Raise OverflowError
  | S754_nan => Raise ValueError
  end.

(** *** list *)

Section Lists.
Context {A : Type}.

Definition len (l : list A) : Z := Z.of_nat (length l).

(** The position a subscript denotes: negative subscripts count from
    the end. *)
Definition index (l : list A) (i : Z) : result nat :=
  let k := if i <? 0 then i + len l else i in
  if (k <? 0) || (len l <=? k) then Raise IndexError
  else Ok (Z.to_nat k).

Fixpoint update (k : nat) (x : A) (l : list A) : list A :=
  match l, k with
  | [], _ => []
  | _ :: t, O => x :: t
  | h :: t, S k' => h :: update k' x t
  end.

(** [l[i]] *)
Definition getitem (l : list A) (i : Z) : result A :=
  bind (index l i) (fun k =>
    match nth_error l k with
    | Some x => Ok x
    | None => Raise IndexError
    end).

(** [l[i] = x] *)
Definition setitem (l : list A) (i : Z) (x : A) : result (list A) :=
  bind (index l i) (fun k => Ok (update k x l)).

(** [l.extend(m)] *)
Definition extend (l m : list A) : list A := l ++ m.
End Lists.

(** [range(start, stop, -1)] *)
Definition range_down (start stop : Z) : list Z :=
  map (fun k => start - Z.of_nat k) (seq 0 (Z.to_nat (start - stop))).

(** *** str: a sequence of code points *)

Definition char : Type := N.
Definition pystr : Type := list char.

(** An ASCII literal of the program. *)
Definition str (s : string) : pystr :=
  map (fun a => N_of_ascii a) (list_ascii_of_string s).

Definition str_eqb (a b : pystr) : bool :=
  if list_eq_dec N.eq_dec a b then true else false.

(** [s.split(sep)] for a one-character separator. *)
Fixpoint split (sep : char) (s : pystr) : list pystr :=
  match s with
  | [] => [[]]
  | c :: t =>
      if N.eqb c sep then [] :: split sep t
      else match split sep t with
           | part :: parts => (c :: part) :: parts
           | [] => [[c]]
           end
  end.

(** [s.replace(old, new)] for a one-character [old]. *)
Definition replace (old : char) (new : pystr) (s : pystr) : pystr :=
  flat_map (fun c => if N.eqb c old then new else [c]) s.

Fixpoint starts_with (p s : pystr) : bool :=
  match p, s with
  | [], _ => true
  | _ :: _, [] => false
  | a :: p', b :: s' => N.eqb a b && starts_with p' s'
  end.

(** [p in s] on two strings. *)
Fixpoint contains (p s : pystr) : bool :=
  starts_with p s ||
  match s with
  | [] => false
  | _ :: s' => contains p s'
  end.

(** Decimal digits of a non-negative [int], most significant first. *)
Fixpoint dec_digits (fuel : nat) (z : Z) (acc : pystr) : pystr :=
  match fuel with
  | O => acc
  | S fuel' =>
      let acc' := Z.to_N (48 + z mod 10) :: acc in
      if z / 10 =? 0 then acc' else dec_digits fuel' (z / 10) acc'
  end.

Definition decimal (z : Z) : pystr :=
  dec_digits (S (Z.to_nat (Z.log2 z))) z [].

(** [f'{z:02d}']: sign-aware zero padding to width 2. *)
Definition format_02d (z : Z) : pystr :=
  if z <? 0 then 45%N :: decimal (- z)
  else match decimal z with
       | [d] => [48%N; d]
       | ds => ds
       end.

(** **** int(s)

    The interpreter first maps a non-ASCII string to ASCII: Unicode
    white space becomes a blank and a Unicode decimal digit its ASCII
    digit; any other non-ASCII character makes the literal invalid.
    The tables are those of Unicode 14.0.0. *)

Definition unicode_isspace (c : char) : bool :=
  existsb (N.eqb c)
    [0x85; 0xa0; 0x1680; 0x2000; 0x2001; 0x2002; 0x2003; 0x2004; 0x2005;
     0x2006; 0x2007; 0x2008; 0x2009; 0x200a; 0x2028; 0x2029; 0x202f;
     0x205f; 0x3000]%N.

(** The first code point of every run of ten decimal digits. *)
Definition unicode_decimal_zeros : list char :=
  [0x660; 0x6f0; 0x7c0; 0x966; 0x9e6; 0xa66; 0xae6; 0xb66; 0xbe6; 0xc66;
   0xce6; 0xd66; 0xde6; 0xe50; 0xed0; 0xf20; 0x1040; 0x1090; 0x17e0;
   0x1810; 0x1946; 0x19d0; 0x1a80; 0x1a90; 0x1b50; 0x1bb0; 0x1c40;
   0x1c50; 0xa620; 0xa8d0; 0xa900; 0xa9d0; 0xa9f0; 0xaa50; 0xabf0;
   0xff10; 0x104a0; 0x10d30; 0x11066; 0x110f0; 0x11136; 0x111d0;
   0x112f0; 0x11450; 0x114d0; 0x11650; 0x116c0; 0x11730; 0x118e0;
   0x11950; 0x11c50; 0x11d50; 0x11da0; 0x16a60; 0x16ac0; 0x16b50;
   0x1d7ce; 0x1d7d8; 0x1d7e2; 0x1d7ec; 0x1d7f6; 0x1e140; 0x1e2f0;
   0x1e950; 0x1fbf0]%N.

Definition unicode_todecimal (c : char) : option N :=
  match find (fun z => N.leb z c && N.ltb c (z + 10)) unicode_decimal_zeros with
  | Some z => Some (c - z)%N
  | None => None
  end.

Definition to_ascii (c : char) : char :=
  if N.ltb c 127 then c
  else if unicode_isspace c then 32%N
  else match unicode_todecimal c with
       | Some d => (48 + d)%N
       | None => 63%N
       end.

Definition ascii_isspace (c : char) : bool :=
  (N.leb 9 c && N.leb c 13) || N.eqb c 32.

Definition ascii_isdigit (c : char) : bool := N.leb 48 c && N.leb c 57.

Fixpoint skip_space (l : pystr) : pystr :=
  match l with
  | c :: t => if ascii_isspace c then skip_space t else l
  | [] => []
  end.

(** The digit loop: digits, single underscores only between digits.
    Returns the value, the number of digits and the unread rest. *)
Fixpoint scan_digits (l : pystr) (prev_underscore : bool) (acc : Z) (count : Z)
  : option (Z * Z * pystr) :=
  match l with
  | c :: t =>
      if ascii_isdigit c then
        scan_digits t false (acc * 10 + (Z.of_N c - 48)) (count + 1)
      else if N.eqb c 95 then
        if prev_underscore then None else scan_digits t true acc count
      else if prev_underscore then None else Some (acc, count, l)
  | [] => if prev_underscore then None else Some (acc, count, [])
  end.

(** [sys.int_info.default_max_str_digits]; strings of at most
    [str_digits_check_threshold] digits are never refused. *)
Definition max_str_digits : Z := 4300.
Definition str_digits_check_threshold : Z := 640.

Definition strip_sign (l : pystr) : bool * pystr :=
  match l with
  | c :: t =>
      if N.eqb c 43 then (false, t)
      else if N.eqb c 45 then (true, t)
      else (false, l)
  | [] => (false, [])
  end.

Definition int (s : pystr) : result Z :=
  let '(negative, l) := strip_sign (skip_space (map to_ascii s)) in
  if starts_with [95%N] l then Raise ValueError
  else
    match scan_digits l false 0 0 with
    | None => Raise ValueError
    | Some (v, count, rest) =>
        if count =? 0 then Raise ValueError
        else if (str_digits_check_threshold <? count) && (0 <? max_str_digits)
                && (max_str_digits <? count) then Raise ValueError
        else match skip_space rest with
             | [] => Ok (if negative then - v else v)
             | _ :: _ => Raise ValueError
             end
    end.

(** **** s.encode(): UTF-8; a surrogate cannot be encoded. *)

Definition byte : Type := Z.

Definition encode_char (c : char) : result (list byte) :=
  let z := Z.of_N c in
  if z <? 0x80 then Ok [z]
  else if z <? 0x800 then Ok [0xC0 + z / 64; 0x80 + z mod 64]
  else if (0xD800 <=? z) && (z <=? 0xDFFF) then Raise UnicodeEncodeError
  else if z <? 0x10000 then
    Ok [0xE0 + z / 4096; 0x80 + (z / 64) mod 64; 0x80 + z mod 64]
  else if z <? 0x110000 then
    Ok [0xF0 + z / 262144; 0x80 + (z / 4096) mod 64;
        0x80 + (z / 64) mod 64; 0x80 + z mod 64]
  else Raise UnicodeEncodeError.

Fixpoint encode (s : pystr) : result (list byte) :=
  match s with
  | [] => Ok []
  | c :: t =>
      bind (encode_char c) (fun b =>
      bind (encode t) (fun bs => Ok (b ++ bs)))
  end.

(** *** datetime: the fields the program reads *)

Record datetime : Type :=
  { year : Z; month : Z; day : Z; hour : Z; minute : Z }.

(** [dt.strftime('%H:%M')] *)
Definition strftime_HM (dt : datetime) : pystr :=
  format_02d (hour dt) ++ str ":" ++ format_02d (minute dt).

(** [int(dt.strftime('%Y%m%d'))], for a four-digit year. *)
Definition strftime_Ymd_int (dt : datetime) : Z :=
  year dt * 10000 + month dt * 100 + day dt.

(** *** Values decoded from JSON

    A [JDict] lists the entries of a dictionary, each key once. *)

#[local] Unset Elimination Schemes.
Inductive json : Type :=
| JNull
| JBool (b : bool)
| JInt (z : Z)
| JFloat (f : float)
| JStr (s : pystr)
| JList (l : list json)
| JDict (d : list (pystr * json)).
#[local] Set Elimination Schemes.

Definition truthy (j : json) : bool :=
  match j with
  | JNull => false
  | JBool b => b
  | JInt z => negb (z =? 0)
  | JFloat (S754_zero _) => false
  | JFloat _ => true
  | JStr [] => false
  | JStr _ => true
  | JList [] => false
  | JList _ => true
  | JDict [] => false
  | JDict _ => true
  end.

(** [key in j] for a string [key] *)
Definition py_in (key : pystr) (j : json) : result bool :=
  match j with
  | JDict d => Ok (existsb (fun kv => str_eqb (fst kv) key) d)
  | JList l => Ok (existsb (fun x => match x with
                                    | JStr s => str_eqb s key
                                    | _ => false
                                    end) l)
  | JStr s => Ok (contains key s)
  | JNull | JBool _ | JInt _ | JFloat _ => Raise TypeError
  end.

(** [j[key]] for a string [key] *)
Definition subscript (j : json) (key : pystr) : result json :=
  match j with
  | JDict d =>
      match find (fun kv => str_eqb (fst kv) key) d with
      | Some kv => Ok (snd kv)
      | None => Raise KeyError
      end
  | _ => Raise TypeError
  end.

End Py.

Import Py.

(** ** hashlib.md5 (RFC 1321) on 32-bit words *)

Module Hashlib.

Definition word (z : Z) : Z := z mod 2 ^ 32.
Definition add32 (a b : Z) : Z := word (a + b).
Definition not32 (a : Z) : Z := Z.lxor a 0xFFFFFFFF.
Definition rotl32 (a : Z) (c : Z) : Z :=
  Z.lor (word (Z.shiftl a c)) (Z.shiftr a (32 - c)).

Definition shift_amounts : list Z :=
  [7; 12; 17; 22; 7; 12; 17; 22; 7; 12; 17; 22; 7; 12; 17; 22;
   5; 9; 14; 20; 5; 9; 14; 20; 5; 9; 14; 20; 5; 9; 14; 20;
   4; 11; 16; 23; 4; 11; 16; 23; 4; 11; 16; 23; 4; 11; 16; 23;
   6; 10; 15; 21; 6; 10; 15; 21; 6; 10; 15; 21; 6; 10; 15; 21].

Definition sine_table : list Z :=
  [0xd76aa478; 0xe8c7b756; 0x242070db; 0xc1bdceee; 0xf57c0faf; 0x4787c62a;
   0xa8304613; 0xfd469501; 0x698098d8; 0x8b44f7af; 0xffff5bb1; 0x895cd7be;
   0x6b901122; 0xfd987193; 0xa679438e; 0x49b40821; 0xf61e2562; 0xc040b340;
   0x265e5a51; 0xe9b6c7aa; 0xd62f105d; 0x02441453; 0xd8a1e681; 0xe7d3fbc8;
   0x21e1cde6; 0xc33707d6; 0xf4d50d87; 0x455a14ed; 0xa9e3e905; 0xfcefa3f8;
   0x676f02d9; 0x8d2a4c8a; 0xfffa3942; 0x8771f681; 0x6d9d6122; 0xfde5380c;
   0xa4beea44; 0x4bdecfa9; 0xf6bb4b60; 0xbebfbc70; 0x289b7ec6; 0xeaa127fa;
   0xd4ef3085; 0x04881d05; 0xd9d4d039; 0xe6db99e5; 0x1fa27cf8; 0xc4ac5665;
   0xf4292244; 0x432aff97; 0xab9423a7; 0xfc93a039; 0x655b59c3; 0x8f0ccc92;
   0xffeff47d; 0x85845dd1; 0x6fa87e4f; 0xfe2ce6e0; 0xa3014314; 0x4e0811a1;
   0xf7537e82; 0xbd3af235; 0x2ad7d2bb; 0xeb86d391].

(** The message followed by 0x80, zeros up to 56 modulo 64, and the bit
    length as a 64-bit little-endian number. *)
Definition le_bytes (n : nat) (z : Z) : list byte :=
  map (fun k => (z / 2 ^ (8 * Z.of_nat k)) mod 256) (seq 0 n).

Definition pad (msg : list byte) : list byte :=
  let n := len msg in
  let zeros := Z.to_nat ((55 - n) mod 64) in
  msg ++ [0x80] ++ repeat 0 zeros ++ le_bytes 8 ((8 * n) mod 2 ^ 64).

Fixpoint le_words (fuel : nat) (bs : list byte) : list Z :=
  match fuel, bs with
  | S fuel', b0 :: b1 :: b2 :: b3 :: rest =>
      (b0 + 256 * b1 + 65536 * b2 + 16777216 * b3) :: le_words fuel' rest
  | _, _ => []
  end.

Record state : Type := { sa : Z; sb : Z; sc : Z; sd : Z }.

Definition init : state :=
  {| sa := 0x67452301; sb := 0xefcdab89; sc := 0x98badcfe; sd := 0x10325476 |}.

Definition round (m : list Z) (st : state) (i : nat) : state :=
  let '(Build_state a b c d) := st in
  let iz := Z.of_nat i in
  let '(f, g) :=
    if iz <? 16 then (Z.lor (Z.land b c) (Z.land (not32 b) d), iz)
    else if iz <? 32 then (Z.lor (Z.land d b) (Z.land (not32 d) c), (5 * iz + 1) mod 16)
    else if iz <? 48 then (Z.lxor b (Z.lxor c d), (3 * iz + 5) mod 16)
    else (Z.lxor c (Z.lor b (not32 d)), (7 * iz) mod 16) in
  let f' := add32 (add32 (add32 f a) (nth i sine_table 0)) (nth (Z.to_nat g) m 0) in
  {| sa := d; sb := add32 b (rotl32 f' (nth i shift_amounts 0)); sc := b; sd := c |}.

Definition block (st : state) (m : list Z) : state :=
  let st' := fold_left (round m) (seq 0 64) st in
  {| sa := add32 (sa st) (sa st'); sb := add32 (sb st) (sb st');
     sc := add32 (sc st) (sc st'); sd := add32 (sd st) (sd st') |}.

Fixpoint blocks (fuel : nat) (st : state) (ws : list Z) : state :=
  match fuel, ws with
  | S fuel', _ :: _ => blocks fuel' (block st (firstn 16 ws)) (skipn 16 ws)
  | _, _ => st
  end.

Definition md5_digest (msg : list byte) : list byte :=
  let bs := pad msg in
  let ws := le_words (length bs) bs in
  let st := blocks (length ws) init ws in
  le_bytes 4 (sa st) ++ le_bytes 4 (sb st) ++ le_bytes 4 (sc st) ++ le_bytes 4 (sd st).

Definition hex_digit (z : Z) : char :=
  Z.to_N (if z <? 10 then 48 + z else 87 + z).

(** [hashlib.md5(msg).hexdigest()] *)
Definition md5_hexdigest (msg : list byte) : pystr :=
  flat_map (fun b => [hex_digit ((b / 16) mod 16); hex_digit (b mod 16)]) (md5_digest msg).

End Hashlib.

Import Hashlib.

Notation "x <- c ;; k" := (bind c (fun x => k))
  (at level 61, c at next level, right associativity).
Notation "' pat <- c ;; k" := (bind c (fun x => match x with pat => k end))
  (at level 61, pat pattern, c at next level, right associativity).

(** ** The program *)

Module ClockApi.

(** [class SeededRandom]: the object is its [seed] attribute. *)
Record SeededRandom : Type := { seed : Z }.

Definition next (self : SeededRandom) : result (float * SeededRandom) :=
  let self' := {| seed := (seed self * 9301 + 49297) mod 233280 |} in
  r <- int_truediv (seed self') 233280 ;;
  Ok (r, self').

Section Shuffle.
Context {A : Type}.

(** [shuffled[i], shuffled[j] = shuffled[j], shuffled[i]] *)
Definition swap (shuffled : list A) (i j : Z) : result (list A) :=
  a <- getitem shuffled j ;;
  b <- getitem shuffled i ;;
  s1 <- setitem shuffled i a ;;
  setitem s1 j b.

(** One turn of the loop of [shuffle_with_seed]. *)
Definition shuffle_step (st : SeededRandom * list A) (i : Z)
  : result (SeededRandom * list A) :=
  let '(rng, shuffled) := st in
  '(r, rng') <- next rng ;;
  x <- float_mul_int r (i + 1) ;;
  j <- float_to_int x ;;
  shuffled' <- swap shuffled i j ;;
  Ok (rng', shuffled').

Fixpoint for_each (body : SeededRandom * list A -> Z -> result (SeededRandom * list A))
         (st : SeededRandom * list A) (idxs : list Z)
  : result (SeededRandom * list A) :=
  match idxs with
  | [] => Ok st
  | i :: rest => st' <- body st i ;; for_each body st' rest
  end.

Definition shuffle_with_seed (array : list A) (seed0 : Z) : result (list A) :=
  let rng := {| seed := seed0 |} in
  let shuffled := array in
  st <- for_each shuffle_step (rng, shuffled) (range_down (len shuffled - 1) 0) ;;
  Ok (snd st).
End Shuffle.

(** *** Module state and request data *)

Record item : Type := { content : pystr; card : json }.

Definition API_KEY : pystr := str "poem.randombook".
Definition REQUIRE_AUTH : bool := false.

Definition en_dash : char := 0x2013%N.
Definition em_dash : char := 0x2014%N.

Inductive http (A : Type) : Type :=
| Status200 (body : A)
| Status400
| Status401.
Arguments Status200 {A} body.
Arguments Status400 {A}.
Arguments Status401 {A}.

(** What a handler reads of the request: the [Authorization] header
    ([''] when absent) and [get_json(force=True, silent=True)]. *)
Record request : Type :=
  { authorization : pystr; get_json : option json }.

Record compose_response : Type :=
  { poemId : pystr; time24 : pystr; poem : pystr;
    preferredFont : pystr; screensaver : bool }.

Record minute_response : Type :=
  { time : pystr; r_content : pystr; r_card : json;
    r_minute : Z; total_minutes : Z }.

(** [request.get_json(force=True, silent=True) or {}] *)
Definition request_body (req : request) : json :=
  match get_json req with
  | Some j => if truthy j then j else JDict []
  | None => JDict []
  end.

Definition generate_poem_id (time24 content : pystr) : result pystr :=
  let combined := time24 ++ str "-" ++ content in
  bs <- encode combined ;;
  Ok (firstn 8 (md5_hexdigest bs)).

(** [hours, mins = map(int, parts)]: the parts are converted one by one
    as the unpacking asks for them, a third one included. *)
Definition unpack2 (parts : list pystr) : result (Z * Z) :=
  match parts with
  | [] => Raise ValueError
  | [a] => _ <- int a ;; Raise ValueError
  | [a; b] => h <- int a ;; m <- int b ;; Ok (h, m)
  | a :: b :: c :: _ => _ <- int a ;; _ <- int b ;; _ <- int c ;; Raise ValueError
  end.

(** [compose], the branch for an explicit ['time24']: "Parse HH:MM to get
    minute of day". *)
Definition explicit_time (time24 : pystr) : result (pystr * Z) :=
  '(hours, mins) <- unpack2 (split 58%N time24) ;;
  let minute := hours * 60 + mins in
  Ok (time24, minute).

Section Service.
(** The content database, the successive readings of the wall clock
    and the library's ISO-8601 parser. *)
Variable ITEMS : list item.
Variable wall_clock : nat -> datetime.
Variable fromisoformat : pystr -> result datetime.

(** The number of clock readings made so far. *)
Definition world : Type := nat.

Definition datetime_now (w : world) : datetime * world := (wall_clock w, S w).

Definition get_today_seed (w : world) : Z * world :=
  let '(now, w) := datetime_now w in
  (strftime_Ymd_int now, w).

Definition generate_daily_schedule (w : world) : result (list item) * world :=
  let '(seed0, w) := get_today_seed w in
  let tripled := fold_left (fun acc it => extend acc [it; it; it]) ITEMS [] in
  (shuffle_with_seed tripled seed0, w).

Definition get_current_minute (w : world) : Z * world :=
  let '(now, w) := datetime_now w in
  (hour now * 60 + minute now, w).

Definition check_auth (req : request) : bool :=
  if negb REQUIRE_AUTH then true
  else str_eqb (authorization req) (str "Bearer " ++ API_KEY).

(** [compose], "Extract time from request". *)
Definition resolve_time (body : json) (w : world) : result (pystr * Z * world) :=
  has_time24 <- py_in (str "time24") body ;;
  if has_time24 then
    v <- subscript body (str "time24") ;;
    match v with
    | JStr time24 =>
        '(time24, minute) <- explicit_time time24 ;;
        Ok (time24, minute, w)
    | _ => Raise AttributeError
    end
  else
    has_geolocate <- py_in (str "geolocate") body ;;
    if has_geolocate then
      v <- subscript body (str "geolocate") ;;
      match v with
      | JStr g =>
          dt <- fromisoformat (replace 90%N (str "+00:00") g) ;;
          Ok (strftime_HM dt, hour dt * 60 + minute dt, w)
      | _ => Raise AttributeError
      end
    else
      let '(now, w) := datetime_now w in
      let time24 := strftime_HM now in
      let '(minute, w) := get_current_minute w in
      Ok (time24, minute, w).

(** [compose], from "Replace en-dashes" to the response. *)
Definition format_poem (time24 : pystr) (current_item : item) : result compose_response :=
  let content := replace en_dash (str "-") (content current_item) in
  let poem := time24 ++ str " " ++ [em_dash] ++ str " " ++ content in
  poem_id <- generate_poem_id time24 poem ;;
  Ok {| poemId := poem_id; time24 := time24; poem := poem;
        preferredFont := str "INTER"; screensaver := false |}.

Definition compose (req : request) (w : world) : result (http compose_response) :=
  if REQUIRE_AUTH && negb (check_auth req) then Ok Status401
  else
    let body := request_body req in
    '(time24, minute, w) <- resolve_time body w ;;
    let '(generated, w) := generate_daily_schedule w in
    schedule <- generated ;;
    current_item <- getitem schedule minute ;;
    response <- format_poem time24 current_item ;;
    Ok (Status200 response).

Definition clock_at_minute (minute : Z) (w : world) : result (http minute_response) :=
  if (minute <? 0) || (minute >=? 1440) then Ok Status400
  else
    let '(generated, w) := generate_daily_schedule w in
    schedule <- generated ;;
    it <- getitem schedule minute ;;
    let hours := minute / 60 in
    let mins := minute mod 60 in
    let time_str := format_02d hours ++ str ":" ++ format_02d mins in
    Ok (Status200 {| time := time_str; r_content := content it; r_card := card it;
                     r_minute := minute; total_minutes := 1440 |}).
End Service.

End ClockApi.

Import ClockApi.

(** ** The schedule builder as the design document words it

    The working sequence is the pool with every item pushed three times in
    a row; the shuffle walks [i] from the last position down to 1, draws
    [j = floor(next() * (i+1))] and exchanges positions [i] and [j]. *)

Module Spec.

Definition working_sequence {A : Type} (pool : list A) : list A :=
  flat_map (fun x => [x; x; x]) pool.

Definition lcg (state : Z) : Z := (state * 9301 + 49297) mod 233280.

(** [state / 233280] as a binary64 number. *)
Definition unit_value (state : Z) : float :=
  SFdiv prec emax (exact state) (exact 233280).

Definition floor (x : float) : Z :=
  match x with
  | S754_finite s m e => Z.shiftl (cond_Zopp s (Zpos m)) e
  | _ => 0
  end.

(** [floor(next() * (i+1))], [state] being the generator's state after
    the call. *)
Definition draw (state : Z) (i : nat) : nat :=
  Z.to_nat (floor (SFmul prec emax (unit_value state)
                         (binary_normalize prec emax (Z.of_nat i + 1) 0 false))).

Definition swap_at {A : Type} (l : list A) (i j : nat) : list A :=
  match nth_error l i, nth_error l j with
  | Some a, Some b => update j a (update i b l)
  | _, _ => l
  end.

Fixpoint fisher_yates {A : Type} (i : nat) (state : Z) (l : list A) : list A :=
  match i with
  | O => l
  | S i' =>
      let state' := lcg state in
      fisher_yates i' state' (swap_at l i (draw state' i))
  end.

Definition buildSchedule {A : Type} (pool : list A) (seed0 : Z) : list A :=
  let working := working_sequence pool in
  fisher_yates (length working - 1) seed0 working.

End Spec.

(** ** Observations the statements are phrased with *)

Module Obs.

(** The largest length of a Python list ([sys.maxsize]). *)
Definition PY_SSIZE_T_MAX : Z := 2 ^ 63 - 1.

(** [0 <= x < 1] for a binary64 number. *)
Definition in_unit_interval (x : float) : Prop :=
  match x with
  | S754_zero _ => True
  | S754_finite false m e => e < 0 /\ Zpos m < 2 ^ (- e)
  | _ => False
  end.

(** [|x - s/233280| < 3 * 2^-53], on integers scaled by [2^70]. *)
Definition near_quotient (x : float) (s : Z) : Prop :=
  match x with
  | S754_zero _ => s = 0
  | S754_finite false m e =>
      -70 <= e /\
      Z.abs (Zpos m * 2 ^ (e + 70) * 233280 - s * 2 ^ 70) < 3 * 233280 * 2 ^ 17
  | _ => False
  end.

(** The first [n] values a generator returns. *)
Fixpoint outputs (n : nat) (rng : SeededRandom) : result (list float) :=
  match n with
  | O => Ok []
  | S n' =>
      '(r, rng') <- next rng ;;
      rest <- outputs n' rng' ;;
      Ok (r :: rest)
  end.

Definition is_hex (c : char) : Prop :=
  (48 <= c <= 57)%N \/ (97 <= c <= 102)%N.

(** A string [encode] accepts. *)
Definition encodable (s : pystr) : Prop := is_ok (encode s) = true.

(** A Unicode scalar value: what UTF-8 encodes. *)
Definition scalar (c : char) : bool :=
  (c <? 0xD800)%N || ((0xDFFF <? c)%N && (c <? 0x110000)%N).

(** A run of ten decimal digits that lies among the scalar values. *)
Definition decimal_run_scalar (z : char) : bool :=
  ((z + 10 <=? 0xD800) || (0xDFFF <? z))%N && (z + 10 <=? 0x110000)%N.

(** An encodable character other than the en-dash. *)
Definition plain (c : char) : Prop := scalar c = true /\ c <> en_dash.


(** [int] reads a two-character label back, and the label has no colon. *)
Definition label_reads_back (h : Z) : bool :=
  match int (format_02d h) with
  | Ok v => (v =? h) && negb (existsb (N.eqb 58) (format_02d h))
            && (length (format_02d h) =? 2)%nat
  | Raise _ => false
  end.

(** Data for worked instances: a pool of ten texts with an en-dash each,
    a clock stopped at 12:34 on 2024-01-01, an ISO parser that refuses
    its input, and a request carrying an explicit label. *)
Definition sample_pool : list item :=
  map (fun k => {| content := str "line " ++ decimal (Z.of_nat k) ++ [en_dash] ++ str "end";
                   card := JInt (Z.of_nat k) |})
      (seq 0 10).

Definition sample_clock (_ : nat) : datetime :=
  {| year := 2024; month := 1; day := 1; hour := 12; minute := 34 |}.

Definition no_instant (_ : pystr) : result datetime := Raise ValueError.

Definition sample_request (label : pystr) : request :=
  {| authorization := []; get_json := Some (JDict [(str "time24", JStr label)]) |}.

End Obs.

Import Obs.

(** ** The other functions of [clock_api.py] *)

Module Handlers.

(** *** Library calls they make *)

(** [j.get(key, default)]: only a dictionary has [get]. *)
Definition dict_get (j : json) (key : pystr) (default : json) : result json :=
match j with
| JDict d =>
    match find (fun kv => str_eqb (fst kv) key) d with
    | Some kv => Ok (snd kv)
    | None => Ok default
    end
| _ => Raise AttributeError
end.

(** [now.strftime('%Y%m%d')]: the year in decimal, month and day on two
  digits. *)
Definition strftime_Ymd (dt : datetime) : pystr :=
decimal (year dt) ++ format_02d (month dt) ++ format_02d (day dt).

(** [num / den] rounded to the nearest integer, ties to even. *)
Definition round_half_even (num den : Z) : Z :=
let q := num / den in
match 2 * (num mod den) ?= den with
| Lt => q
| Gt => q + 1
| Eq => if Z.even q then q else q + 1
end.

(** [f'{x:.1f}']: the decimal with one fractional digit nearest to the
  exact value of [x]. *)
Definition format_1f (x : float) : pystr :=
match x with
| S754_nan => str "nan"
| S754_infinity s => (if s then str "-" else []) ++ str "inf"
| S754_zero s => (if s then str "-" else []) ++ str "0.0"
| S754_finite s m e =>
    let tenths :=
      if 0 <=? e then Zpos m * 2 ^ e * 10
      else round_half_even (Zpos m * 10) (2 ^ (- e)) in
    (if s then str "-" else [])
      ++ decimal (tenths / 10) ++ str "." ++ [Z.to_N (48 + tenths mod 10)]
end.

(** *** Authorization *)

(** [check_auth] with the two settings of the module as arguments. *)
Definition check_auth_with (require_auth : bool) (api_key auth_header : pystr) : bool :=
if negb require_auth then true
else
  let expected := str "Bearer " ++ api_key in
  str_eqb auth_header expected.

(** *** Responses *)

Record device_response : Type :=
{ screenId : json; buildId : json; lastSeen : pystr; seen : Z;
  createdAt : pystr; isClaimed : bool }.

Record status_response : Type :=
{ status_success : bool; device : device_response }.

Record success_response : Type := { success : bool }.

Record clock_response : Type :=
{ c_time : pystr; c_content : pystr; c_card : json; c_minute : Z;
  c_total_minutes : Z; c_timestamp : pystr }.

Record stats_response : Type :=
{ total_items : Z; total_cards : Z; appearances_per_day : Z;
  minutes_per_day : Z; coverage : pystr }.

(** *** Handlers *)

Section Handlers.
(** The content database and the wall clock as before; [utcnow_text n] is
[strftime('%Y-%m-%dT%H:%M:%SZ')] of the [n]-th reading of the UTC clock
and [isoformat n] is [isoformat()] of the [n]-th reading of the wall
clock. *)
Variable ITEMS : list item.
Variable wall_clock : nat -> datetime.
Variable utcnow_text : nat -> pystr.
Variable isoformat : nat -> pystr.

(** [status]; [w] counts the readings of the UTC clock. *)
Definition status (req : request) (w : world) : result (http status_response) :=
  let body := request_body req in
  screen_id <- dict_get body (str "screenId") (JStr (str "unknown")) ;;
  build_id <- dict_get body (str "buildId") JNull ;;
  let now := utcnow_text w in
  Ok (Status200
    {| status_success := true;
       device := {| screenId := screen_id; buildId := build_id;
                    lastSeen := now; seen := 1; createdAt := now;
                    isClaimed := false |} |}).

(** The body shared by [mark_note_seen], [like_poem] and [unlike_poem];
[returned] is what [request.get_json()] returned, [None] included. *)
Definition acknowledge (req : request) (returned : option json)
  : result (http success_response) :=
  if REQUIRE_AUTH && negb (check_auth req) then Ok Status401
  else
screen_id <- match returned with
             | Some body => dict_get body (str "screenId") JNull
             | None => Raise AttributeError
             end ;;
Ok (Status200 {| success := true |}).

Definition mark_note_seen (note_id : pystr) := acknowledge.
Definition like_poem (poem_id : pystr) := acknowledge.
Definition unlike_poem (poem_id : pystr) := acknowledge.

Definition clock_get (w : world) : result (http clock_response) :=
  let '(generated, w) := generate_daily_schedule ITEMS wall_clock w in
  schedule <- generated ;;
  let '(minute, w) := get_current_minute wall_clock w in
  current_item <- getitem schedule minute ;;
  let reading := w in
  let '(now, w) := datetime_now wall_clock w in
  let time24 := strftime_HM now in
  Ok (Status200 {| c_time := time24; c_content := content current_item;
               c_card := card current_item; c_minute := minute;
               c_total_minutes := 1440; c_timestamp := isoformat reading |}).

Definition stats : result (http stats_response) :=
  ratio <- int_truediv (len ITEMS * 3) 1440 ;;
  percent <- float_mul_int ratio 100 ;;
  Ok (Status200 {| total_items := len ITEMS;
               total_cards := len ITEMS / 4;
               appearances_per_day := len ITEMS * 3;
               minutes_per_day := 1440;
               coverage := format_1f percent ++ str "%" |}).
End Handlers.

(** [get_today_seed] on the text that [strftime] produces. *)
Definition get_today_seed_text (now : datetime) : result Z := int (strftime_Ymd now).

End Handlers.

Import Handlers.

(** ** Further observations *)

Module ObsX.

(** The number a string of ASCII digits denotes, read after [acc]. *)
Definition digits_value (ds : pystr) (acc : Z) : Z :=
fold_left (fun a c => a * 10 + (Z.of_N c - 48)) ds acc.

(** A calendar date as [datetime] admits it. *)
Definition calendar_date (dt : datetime) : Prop :=
1 <= year dt <= 9999 /\ 1 <= month dt <= 12 /\ 1 <= day dt <= 31.

(** A time of day as [datetime] admits it. *)
Definition time_of_day (dt : datetime) : Prop :=
0 <= hour dt <= 23 /\ 0 <= minute dt <= 59.

(** [format_02d h] is two ASCII digits whose value is [h]. *)
Definition two_digits (h : Z) : bool :=
match format_02d h with
| [a; b] => ascii_isdigit a && ascii_isdigit b
            && (10 * (Z.of_N a - 48) + (Z.of_N b - 48) =? h)
| _ => false
end.

(** The value returned by call number [k+1] of [next] on a generator. *)
Fixpoint nth_draw (k : nat) (rng : SeededRandom) : result float :=
'(x, rng') <- next rng ;;
match k with
| O => Ok x
| S k' => nth_draw k' rng'
end.

(** The number of state updates after which the generator, started in
  [state], is first in state 0, looking at no more than [fuel] updates;
  [calls] updates have been made before. *)
Fixpoint calls_until_zero (fuel : nat) (state calls : Z) : option Z :=
match fuel with
| O => None
| S fuel' =>
    let state' := Spec.lcg state in
    if state' =? 0 then Some (calls + 1)
    else calls_until_zero fuel' state' (calls + 1)
end.

End ObsX.

Import ObsX.

(** ** The model against the interpreter

    Values computed by CPython 3.11 for the same expressions. *)

Example md5_empty :
  md5_hexdigest [] = str "d41d8cd98f00b204e9800998ecf8427e".
Proof. vm_compute. reflexivity. Qed.

Example md5_abc :
  md5_hexdigest (map Z.of_N (str "abc")) = str "900150983cd24fb0d6963f7d28e17f72".
Proof. vm_compute. reflexivity. Qed.

Example md5_two_blocks :
  md5_hexdigest
    (map Z.of_N
       (str "12345678901234567890123456789012345678901234567890123456789012345678901234567890"))
  = str "57edf4a22be3c955ac49da2e2107b67a".
Proof. vm_compute. reflexivity. Qed.

Example poem_id_hello :
  generate_poem_id (str "12:34") (str "12:34 " ++ [em_dash] ++ str " hello") = Ok (str "3dbab3b4").
Proof. vm_compute. reflexivity. Qed.

Example int_literals :
  map int [str "007"; str " 5 "; str "+5"; str "-0"; str "1_0"; [0x663%N];
           str "1__0"; str "_1"; str "- 5"; str ""; [0x1c; 53]%N; [en_dash]]
  = [Ok 7; Ok 5; Ok 5; Ok 0; Ok 10; Ok 3;
     Raise ValueError; Raise ValueError; Raise ValueError; Raise ValueError;
     Raise ValueError; Raise ValueError].
Proof. vm_compute. reflexivity. Qed.

Example quotient_1178 :
  int_truediv 1178 233280 = Ok (S754_finite false 5821937296068526 (-60)).
Proof. vm_compute. reflexivity. Qed.

(** [int(2106 / 233280 * 1440)] is 12, although [2106 * 1440 // 233280]
    is 13: the draw is the one of floating-point arithmetic. *)
Example draw_is_floating_point :
  (r <- int_truediv 2106 233280 ;; x <- float_mul_int r 1440 ;; float_to_int x) = Ok 12 /\
  2106 * 1440 / 233280 = 13.
Proof. split; vm_compute; reflexivity. Qed.

Example shuffle_two_items :
  shuffle_with_seed (str "AAABBB") 20240101 = Ok (str "BBAABA").
Proof. vm_compute. reflexivity. Qed.

Example shuffle_negative_seed :
  shuffle_with_seed [0; 1; 2; 3; 4; 5; 6; 7; 8; 9; 10; 11] (-7)
  = Ok [8; 0; 3; 7; 5; 6; 4; 1; 2; 10; 9; 11].
Proof. vm_compute. reflexivity. Qed.

(** ** Rounding in binary64 *)

Section Rounding.

Lemma digits2_pos_bounds (p : positive) :
2 ^ (Zpos (digits2_pos p) - 1) <= Zpos p < 2 ^ Zpos (digits2_pos p).
Proof.
induction p as [p IH | p IH | ]; simpl digits2_pos.
- rewrite Pos2Z.inj_succ.
  replace (Z.succ (Zpos (digits2_pos p)) - 1) with (Z.succ (Zpos (digits2_pos p) - 1)) by lia.
  rewrite !Z.pow_succ_r by lia. lia.
- rewrite Pos2Z.inj_succ.
  replace (Z.succ (Zpos (digits2_pos p)) - 1) with (Z.succ (Zpos (digits2_pos p) - 1)) by lia.
  rewrite !Z.pow_succ_r by lia. lia.
- simpl. lia.
Qed.

Lemma digits2_pos_unique (p : positive) (n : Z) :
2 ^ (n - 1) <= Zpos p < 2 ^ n -> Zpos (digits2_pos p) = n.
Proof.
intros [Hlo Hhi].
pose proof (digits2_pos_bounds p) as [Blo Bhi].
assert (0 < n).
{ destruct (Z.ltb_spec 0 n); [assumption|].
  exfalso. destruct (Z.eq_dec n 0) as [->|]; [simpl in Hhi; lia|].
  rewrite Z.pow_neg_r in Hhi by lia. lia. }
destruct (Z.lt_trichotomy (Zpos (digits2_pos p)) n) as [Hlt | [Heq | Hgt]]; [ | assumption | ].
- exfalso.
  assert (2 ^ Zpos (digits2_pos p) <= 2 ^ (n - 1)) by (apply Z.pow_le_mono_r; lia).
  lia.
- exfalso.
  assert (2 ^ n <= 2 ^ (Zpos (digits2_pos p) - 1)) by (apply Z.pow_le_mono_r; lia).
  lia.
Qed.

Lemma shr_1_m (r : shr_record) :
0 <= shr_m r -> shr_m (shr_1 r) = shr_m r / 2 /\ 0 <= shr_m (shr_1 r).
Proof.
destruct r as [m r s]; cbn [shr_m]. intros Hm.
destruct m as [ | [p | p | ] | p ]; cbn [shr_1 shr_m]; try lia.
- split; [reflexivity | lia].
- split; [|lia].
  apply Z.div_unique with (r := 1); lia.
- split; [|lia].
  apply Z.div_unique with (r := 0); lia.
- split; [reflexivity | lia].
Qed.

Lemma iter_shr_1_m (p : positive) : forall r : shr_record,
0 <= shr_m r ->
shr_m (iter_pos shr_1 p r) = shr_m r / 2 ^ Zpos p /\ 0 <= shr_m (iter_pos shr_1 p r).
Proof.
induction p as [p IH | p IH | ]; intros r Hr; simpl iter_pos.
- destruct (shr_1_m r Hr) as [E1 P1].
  destruct (IH _ P1) as [E2 P2].
  destruct (IH _ P2) as [E3 P3].
  split; [|assumption].
  rewrite E3, E2, E1.
  rewrite !Z.div_div by lia.
  f_equal.
  replace (Zpos p~1) with (Zpos p + Zpos p + 1) by lia.
  rewrite !Z.pow_add_r by lia. lia.
- destruct (IH _ Hr) as [E2 P2].
  destruct (IH _ P2) as [E3 P3].
  split; [|assumption].
  rewrite E3, E2.
  rewrite !Z.div_div by lia.
  f_equal.
  replace (Zpos p~0) with (Zpos p + Zpos p) by lia.
  rewrite Z.pow_add_r by lia. reflexivity.
- destruct (shr_1_m r Hr) as [E1 P1]. split; [|assumption].
  rewrite E1. reflexivity.
Qed.

Lemma shr_m_of_loc (m : Z) (l : location) : shr_m (shr_record_of_loc m l) = m.
Proof. destruct l as [ | [ | | ]]; reflexivity. Qed.

Lemma shr_spec (r : shr_record) (e n : Z) :
0 <= shr_m r -> 0 <= n ->
shr_m (fst (shr r e n)) = shr_m r / 2 ^ n /\ snd (shr r e n) = e + n.
Proof.
intros Hr Hn. destruct n as [ | p | p ]; simpl; try lia.
- rewrite Z.div_1_r. lia.
- destruct (iter_shr_1_m p r Hr) as [E _]. rewrite E. split; reflexivity.
Qed.

Lemma round_nearest_even_bounds (m : Z) (l : location) :
m <= round_nearest_even m l <= m + 1.
Proof.
destruct l as [ | [ | | ]]; simpl; try lia.
destruct (Z.even m); lia.
Qed.

Lemma shr_fexp_spec (m e : Z) (l : location) :
0 <= m -> 0 <= fexp prec emax (Zdigits2 m + e) - e ->
shr_m (fst (shr_fexp prec emax m e l)) = m / 2 ^ (fexp prec emax (Zdigits2 m + e) - e) /\
snd (shr_fexp prec emax m e l) = fexp prec emax (Zdigits2 m + e).
Proof.
intros Hm Hn. unfold shr_fexp.
destruct (shr_spec (shr_record_of_loc m l) e
            (fexp prec emax (Zdigits2 m + e) - e)) as [E1 E2];
  rewrite ?shr_m_of_loc in *; try assumption.
rewrite E1, E2. split; [reflexivity | lia].
Qed.

Lemma binary_round_aux_normal (s : bool) (m : positive) (e : Z) (l : location) :
prec <= Zpos (digits2_pos m) ->
emin prec emax <= Zpos (digits2_pos m) + e - prec ->
exists (m' : positive) (e' : Z),
  binary_round_aux prec emax s (Zpos m) e l =
    (if e' <=? emax - prec then S754_finite s m' e' else S754_infinity s) /\
  2 ^ 52 <= Zpos m' < 2 ^ 53 /\
  e + (Zpos (digits2_pos m) - 53) <= e' <= e + (Zpos (digits2_pos m) - 53) + 1 /\
  Zpos m - 2 ^ (Zpos (digits2_pos m) - 53) < Zpos m' * 2 ^ (e' - e)
    <= Zpos m + 2 ^ (Zpos (digits2_pos m) - 53).
Proof.
intros Hd He.
pose proof (digits2_pos_bounds m) as [Blo Bhi].
set (d := Zpos (digits2_pos m)) in *.
set (k := d - 53).
unfold prec in Hd.
assert (Hk : 0 <= k) by (unfold k; lia).
assert (Hfexp : fexp prec emax (Zdigits2 (Zpos m) + e) = e + k).
{ unfold fexp. cbn [Zdigits2]. fold d. unfold prec in *. lia. }
assert (P2k : 0 < 2 ^ k) by (apply Z.pow_pos_nonneg; lia).
assert (Ed : 2 ^ (d - 1) = 2 ^ 52 * 2 ^ k).
{ rewrite <- Z.pow_add_r by lia. f_equal. unfold k. lia. }
assert (Ed' : 2 ^ d = 2 ^ 53 * 2 ^ k).
{ rewrite <- Z.pow_add_r by lia. f_equal. unfold k. lia. }
destruct (shr_fexp_spec (Zpos m) e l) as [E1 E2]; [lia | lia | ].
rewrite Hfexp in E1, E2. replace (e + k - e) with k in E1 by lia.
unfold binary_round_aux.
destruct (shr_fexp prec emax (Zpos m) e l) as [mrs1 e1]. cbn [fst snd] in E1, E2.
subst e1.
pose proof (round_nearest_even_bounds (shr_m mrs1) (loc_of_shr_record mrs1)) as Hr.
set (m2 := round_nearest_even (shr_m mrs1) (loc_of_shr_record mrs1)) in *.
rewrite E1 in Hr.
assert (Hm1 : 2 ^ 52 <= Zpos m / 2 ^ k < 2 ^ 53).
{ split.
  - apply Z.div_le_lower_bound; lia.
  - apply Z.div_lt_upper_bound; lia. }
assert (Hm1' : Zpos m / 2 ^ k * 2 ^ k <= Zpos m < (Zpos m / 2 ^ k + 1) * 2 ^ k).
{ pose proof (Z.mul_div_le (Zpos m) (2 ^ k) P2k).
  pose proof (Z.mul_succ_div_gt (Zpos m) (2 ^ k) P2k). lia. }
destruct (Z.ltb_spec m2 (2 ^ 53)) as [Hlt | Hge].
- (* the rounded mantissa still has 53 digits *)
  destruct m2 as [ | p2 | p2 ] eqn:Em2; try lia.
  assert (Hd2 : Zpos (digits2_pos p2) = 53) by (apply digits2_pos_unique; lia).
  destruct (shr_fexp_spec (Zpos p2) (e + k) loc_Exact) as [F1 F2].
  + lia.
  + unfold fexp. cbn [Zdigits2]. rewrite Hd2. unfold emin, prec, emax in *. lia.
  + assert (Hf2 : fexp prec emax (Zdigits2 (Zpos p2) + (e + k)) = e + k).
    { unfold fexp. cbn [Zdigits2]. rewrite Hd2. unfold emin, prec, emax in *. lia. }
    rewrite Hf2 in F1, F2. replace (e + k - (e + k)) with 0 in F1 by lia.
    rewrite Z.pow_0_r, Z.div_1_r in F1.
    destruct (shr_fexp prec emax (Zpos p2) (e + k) loc_Exact) as [mrs2 e2].
    cbn [fst snd] in F1, F2. rewrite F1. subst e2.
    exists p2, (e + k). split; [reflexivity|].
    split; [lia|]. split; [unfold k; lia|].
    replace (e + k - e) with k by lia. fold k. split; nia.
- (* rounding carried into the next binade *)
  assert (Em2 : m2 = 2 ^ 53) by lia.
  rewrite Em2.
  change (2 ^ 53) with (Zpos (2 ^ 53)%positive).
  assert (Hf2 : fexp prec emax (Zdigits2 (Zpos (2 ^ 53)%positive) + (e + k)) = e + k + 1).
  { unfold fexp. cbn [Zdigits2].
    change (Zpos (digits2_pos (2 ^ 53)%positive)) with 54.
    unfold emin, prec, emax in *. lia. }
  destruct (shr_fexp_spec (Zpos (2 ^ 53)%positive) (e + k) loc_Exact) as [F1 F2].
  + lia.
  + rewrite Hf2. lia.
  + rewrite Hf2 in F1, F2. replace (e + k + 1 - (e + k)) with 1 in F1 by lia.
    change (Zpos (2 ^ 53)%positive / 2 ^ 1) with (Zpos (2 ^ 52)%positive) in F1.
    destruct (shr_fexp prec emax (Zpos (2 ^ 53)%positive) (e + k) loc_Exact) as [mrs2 e2].
    cbn [fst snd] in F1, F2. rewrite F1. subst e2.
    exists (2 ^ 52)%positive, (e + k + 1). split; [reflexivity|].
    split; [change (Zpos (2 ^ 52)%positive) with (2 ^ 52); lia|].
    split; [unfold k; lia|].
    replace (e + k + 1 - e) with (k + 1) by lia. fold k.
    rewrite Z.pow_add_r by lia.
    change (Zpos (2 ^ 52)%positive) with (2 ^ 52). change (2 ^ 1) with 2.
    change (2 ^ 53) with (2 * 2 ^ 52) in *. split; nia.
Qed.

Lemma binary_round_aux_rel (s : bool) (m : positive) (e : Z) (l : location) :
prec <= Zpos (digits2_pos m) ->
emin prec emax <= Zpos (digits2_pos m) + e - prec ->
exists (m' : positive) (e' : Z),
  binary_round_aux prec emax s (Zpos m) e l =
    (if e' <=? emax - prec then S754_finite s m' e' else S754_infinity s) /\
  2 ^ 52 <= Zpos m' < 2 ^ 53 /\
  e + (Zpos (digits2_pos m) - 53) <= e' <= e + (Zpos (digits2_pos m) - 53) + 1 /\
  Zpos m' * 2 ^ (e' - e) * 2 ^ 52 <= Zpos m * (2 ^ 52 + 1).
Proof.
intros Hd He.
destruct (binary_round_aux_normal s m e l Hd He) as (m' & e' & E & Hm' & He' & _ & Hv).
exists m', e'. repeat split; try tauto; try lia.
pose proof (digits2_pos_bounds m) as [Blo _].
unfold prec in Hd.
replace (Zpos (digits2_pos m) - 1) with (52 + (Zpos (digits2_pos m) - 53)) in Blo by lia.
rewrite Z.pow_add_r in Blo by lia.
lia.
Qed.

Lemma iter_xO_pow2 (k p : positive) :
Zpos (Pos.iter xO p k) = Zpos p * 2 ^ Zpos k.
Proof.
induction k as [ | k IH ] using Pos.peano_ind.
- simpl. lia.
- rewrite Pos.iter_succ, Pos2Z.inj_xO, IH, Pos2Z.inj_succ, Z.pow_succ_r by lia. lia.
Qed.

Lemma int_to_float_normal (n : Z) :
0 < n < 2 ^ 63 ->
exists (m' : positive) (e' a : Z),
  binary_normalize prec emax n 0 false = S754_finite false m' e' /\
  2 ^ 52 <= Zpos m' < 2 ^ 53 /\
  0 <= a <= 52 /\ 0 <= e' + a /\ e' <= 11 /\
  Zpos m' * 2 ^ (e' + a) * 2 ^ 52 <= n * 2 ^ a * (2 ^ 52 + 1).
Proof.
intros [Hpos Hlt]. destruct n as [ | p | p ]; try lia.
pose proof (digits2_pos_bounds p) as [Blo Bhi].
set (d := Zpos (digits2_pos p)) in *.
assert (Hd1 : 1 <= d) by (unfold d; lia).
assert (Hd63 : d <= 63).
{ destruct (Z.leb_spec d 63); [assumption|]. exfalso.
  assert (2 ^ 63 <= 2 ^ (d - 1)) by (apply Z.pow_le_mono_r; lia). lia. }
cbn [binary_normalize]. unfold binary_round.
assert (Hf : fexp prec emax (Zpos (digits2_pos p) + 0) = d - 53).
{ unfold fexp, emin, prec, emax. fold d. lia. }
rewrite Hf. unfold shl_align.
destruct (d - 53 - 0) as [ | q | q ] eqn:Eq.
- (* exactly 53 digits *)
  destruct (binary_round_aux_rel false p 0 loc_Exact) as (m' & e' & E & Hm' & He' & Hv).
  + fold d. unfold prec. lia.
  + fold d. unfold emin, prec, emax. lia.
  + fold d in He'. exists m', e', 0.
    assert (Hle : (e' <=? emax - prec) = true) by (apply Z.leb_le; unfold emax, prec; lia).
    rewrite Hle in E. rewrite E. repeat split; try lia.
    rewrite Z.sub_0_r in Hv. rewrite Z.add_0_r, Z.pow_0_r. lia.
- (* more than 53 digits: the conversion rounds *)
  destruct (binary_round_aux_rel false p 0 loc_Exact) as (m' & e' & E & Hm' & He' & Hv).
  + fold d. unfold prec. lia.
  + fold d. unfold emin, prec, emax. lia.
  + fold d in He'. exists m', e', 0.
    assert (Hle : (e' <=? emax - prec) = true) by (apply Z.leb_le; unfold emax, prec; lia).
    rewrite Hle in E. rewrite E. repeat split; try lia.
    rewrite Z.sub_0_r in Hv. rewrite Z.add_0_r, Z.pow_0_r. lia.
- (* fewer than 53 digits: the mantissa is shifted left, exactly *)
  pose proof (iter_xO_pow2 q p) as Hz.
  set (mz := Pos.iter xO p q) in *.
  assert (Hq : Zpos q = 53 - d) by lia.
  assert (P2q : 0 < 2 ^ Zpos q) by (apply Z.pow_pos_nonneg; lia).
  assert (Hdz : Zpos (digits2_pos mz) = 53).
  { apply digits2_pos_unique. rewrite Hz. split.
    - replace (53 - 1) with ((d - 1) + Zpos q) by lia.
      rewrite Z.pow_add_r by lia. nia.
    - replace 53 with (d + Zpos q) by lia.
      rewrite Z.pow_add_r by lia. nia. }
  destruct (binary_round_aux_rel false mz (d - 53) loc_Exact) as (m' & e' & E & Hm' & He' & Hv).
  + rewrite Hdz. unfold prec. lia.
  + rewrite Hdz. unfold emin, prec, emax. lia.
  + rewrite Hdz in He'. exists m', e', (Zpos q).
    assert (Hle : (e' <=? emax - prec) = true) by (apply Z.leb_le; unfold emax, prec; lia).
    rewrite Hle in E. rewrite E. repeat split; try lia.
    replace (e' - (d - 53)) with (e' + Zpos q) in Hv by lia.
    rewrite Hz in Hv. lia.
Qed.

Lemma truediv_modulus (s : Z) :
0 < s < 233280 ->
exists (mx : positive) (ex : Z),
  SFdiv prec emax (exact s) (exact 233280) = S754_finite false mx ex /\
  2 ^ 52 <= Zpos mx < 2 ^ 53 /\
  -70 <= ex <= -53 /\
  Zpos mx * 2 ^ 18 <= (2 ^ 18 - 1) * 2 ^ (- ex) /\
  Z.abs (Zpos mx * 2 ^ (ex + 70) * 233280 - s * 2 ^ 70) < 3 * 233280 * 2 ^ 17.
Proof.
intros [Hpos Hlt]. destruct s as [ | p | p ]; try lia.
pose proof (digits2_pos_bounds p) as [Blo Bhi].
set (d := Zpos (digits2_pos p)) in *.
assert (Hd1 : 1 <= d) by (unfold d; lia).
assert (Hd18 : d <= 18).
{ destruct (Z.leb_spec d 18); [assumption|]. exfalso.
  assert (2 ^ 18 <= 2 ^ (d - 1)) by (apply Z.pow_le_mono_r; lia). lia. }
set (t := 71 - d).
assert (P2t : 0 < 2 ^ t) by (apply Z.pow_pos_nonneg; unfold t; lia).
assert (Ht : 2 ^ 70 <= Zpos p * 2 ^ t < 2 ^ 71).
{ split.
  - replace 70 with ((d - 1) + t) by (unfold t; lia).
    rewrite Z.pow_add_r by (unfold t; lia). nia.
  - replace 71 with (d + t) by (unfold t; lia).
    rewrite Z.pow_add_r by (unfold t; lia). nia. }
cbn [exact SFdiv xorb]. unfold SFdiv_core_binary.
cbn [Zdigits2]. fold d.
change (Zpos (digits2_pos 233280)) with 18.
assert (He' : Z.min (fexp prec emax (d + 0 - (18 + 0))) (0 - 0) = - t).
{ unfold fexp, emin, prec, emax, t. lia. }
rewrite He'.
replace (0 - 0 - - t) with t by lia.
assert (Hsh : match t with
              | 0 => Zpos p
              | Zpos _ => Z.shiftl (Zpos p) t
              | Zneg _ => 0
              end = Zpos p * 2 ^ t).
{ destruct t as [ | tp | tp ] eqn:Et; try (unfold t in *; lia).
  apply Z.shiftl_mul_pow2. lia. }
rewrite Hsh. clear Hsh.
destruct (Z.div_eucl (Zpos p * 2 ^ t) 233280) as [q r] eqn:Ediv.
assert (Hq : q = Zpos p * 2 ^ t / 233280) by (unfold Z.div; rewrite Ediv; reflexivity).
assert (Hq1 : 2 ^ 52 <= q) by (rewrite Hq; apply Z.div_le_lower_bound; lia).
assert (Hq2 : q < 2 ^ 54) by (rewrite Hq; apply Z.div_lt_upper_bound; lia).
assert (Hq3 : q * 233280 <= Zpos p * 2 ^ t < (q + 1) * 233280).
{ rewrite Hq. pose proof (Z.mul_div_le (Zpos p * 2 ^ t) 233280).
  pose proof (Z.mul_succ_div_gt (Zpos p * 2 ^ t) 233280). lia. }
destruct q as [ | qp | qp ]; try lia.
assert (Hdq : Zpos (digits2_pos qp) = 53 \/ Zpos (digits2_pos qp) = 54).
{ destruct (Z.ltb_spec (Zpos qp) (2 ^ 53)).
  - left. apply digits2_pos_unique. lia.
  - right. apply digits2_pos_unique. lia. }
destruct (binary_round_aux_normal false qp (- t) (new_location 233280 r))
  as (m' & e' & E & Hm' & Hex & Hvl & Hv).
{ unfold prec. lia. }
{ unfold emin, prec, emax, t. lia. }
assert (Hle : (e' <=? emax - prec) = true) by (apply Z.leb_le; unfold emax, prec, t in *; lia).
rewrite Hle in E.
exists m', e'. split; [exact E|]. split; [assumption|].
assert (Hpow : 2 ^ (Zpos (digits2_pos qp) - 53) <= 2).
{ destruct Hdq as [-> | ->]; simpl; lia. }
replace (e' - - t) with (e' + t) in Hv, Hvl by lia.
assert (He0 : 0 <= e' + t) by lia.
assert (P2e : 0 < 2 ^ (e' + t)) by (apply Z.pow_pos_nonneg; lia).
(* the rounded quotient stays below 1 - 2^-18 *)
assert (Hb : Zpos m' * 2 ^ (e' + t) * 2 ^ 18 <= (2 ^ 18 - 1) * 2 ^ t).
{ assert (2 ^ 53 <= 2 ^ t) by (apply Z.pow_le_mono_r; unfold t; lia).
  assert (Zpos m' * 2 ^ (e' + t) * 233280 <= 233279 * 2 ^ t + 2 * 233280) by nia.
  lia. }
assert (Hneg : e' <= -53).
{ destruct (Z.leb_spec e' (-53)); [assumption|]. exfalso.
  assert (2 ^ (t - 52) <= 2 ^ (e' + t)) by (apply Z.pow_le_mono_r; lia).
  assert (2 ^ t = 2 ^ 52 * 2 ^ (t - 52)).
  { rewrite <- Z.pow_add_r by (unfold t; lia). f_equal. lia. }
  assert (0 < 2 ^ (t - 52)) by (apply Z.pow_pos_nonneg; unfold t; lia).
  nia. }
split; [unfold t in *; lia|].
split.
- assert (Hsplit : 2 ^ t = 2 ^ (e' + t) * 2 ^ (- e')).
  { rewrite <- Z.pow_add_r by lia. f_equal. lia. }
  rewrite Hsplit in Hb.
  assert (P2n : 0 < 2 ^ (- e')) by (apply Z.pow_pos_nonneg; lia).
  nia.
- (* the rounded quotient is within 3 * 2^-53 of the exact one *)
  set (W := 2 ^ (70 - t)).
  assert (HW : 0 < W <= 2 ^ 17).
  { unfold W. split; [apply Z.pow_pos_nonneg | apply Z.pow_le_mono_r]; unfold t; lia. }
  assert (EY : Zpos m' * 2 ^ (e' + 70) = Zpos m' * 2 ^ (e' + t) * W).
  { unfold W. rewrite <- Z.mul_assoc, <- Z.pow_add_r by (unfold t; lia).
    do 2 f_equal. lia. }
  assert (Es : Zpos p * 2 ^ 70 = Zpos p * 2 ^ t * W).
  { unfold W. rewrite <- Z.mul_assoc, <- Z.pow_add_r by (unfold t; lia).
    do 2 f_equal. lia. }
  rewrite EY, Es.
  set (D := Zpos m' * 2 ^ (e' + t) * 233280 - Zpos p * 2 ^ t).
  assert (HD : - (3 * 233280) < D <= 2 * 233280) by (unfold D; lia).
  replace (Zpos m' * 2 ^ (e' + t) * W * 233280 - Zpos p * 2 ^ t * W) with (D * W)
    by (unfold D; ring).
  clearbody D W. clear - HD HW.
  apply Z.abs_lt. split; nia.
Qed.

Lemma scaled_product_bound (P U V X N n A B : Z) :
0 <= P -> 0 < U -> 0 < V -> 0 <= X -> 0 <= N -> 0 < n -> 0 < A -> 0 < B ->
P * U * 2 ^ 52 <= X * N * (2 ^ 52 + 1) ->
N * V * 2 ^ 52 <= n * A * (2 ^ 52 + 1) ->
X * 2 ^ 18 <= (2 ^ 18 - 1) * B ->
P * (U * V) < n * (A * B).
Proof.
intros HP HU HV HX HN Hn HA HB Ha Hb Hc.
assert (S1 : (P * U * 2 ^ 52) * (V * 2 ^ 52 * 2 ^ 18)
             <= (X * N * (2 ^ 52 + 1)) * (V * 2 ^ 52 * 2 ^ 18)).
{ apply Z.mul_le_mono_nonneg_r; [lia | exact Ha]. }
assert (S2 : (X * 2 ^ 18) * (N * V * 2 ^ 52)
             <= ((2 ^ 18 - 1) * B) * (N * V * 2 ^ 52)).
{ apply Z.mul_le_mono_nonneg_r; [|exact Hc].
  apply Z.mul_nonneg_nonneg; [|lia]. apply Z.mul_nonneg_nonneg; lia. }
assert (S3 : ((2 ^ 18 - 1) * B) * (N * V * 2 ^ 52)
             <= ((2 ^ 18 - 1) * B) * (n * A * (2 ^ 52 + 1))).
{ apply Z.mul_le_mono_nonneg_l; [lia | exact Hb]. }
set (W := n * (A * B)) in *.
assert (HW : 0 < W) by (unfold W; apply Z.mul_pos_pos; [lia | apply Z.mul_pos_pos; lia]).
assert (S4 : P * (U * V) * 2 ^ 122 <= (2 ^ 18 - 1) * ((2 ^ 52 + 1) * (2 ^ 52 + 1)) * W).
{ unfold W.
  replace (P * (U * V) * 2 ^ 122) with ((P * U * 2 ^ 52) * (V * 2 ^ 52 * 2 ^ 18))
    by (change (2 ^ 122) with (2 ^ 52 * 2 ^ 52 * 2 ^ 18); ring).
  eapply Z.le_trans; [exact S1|].
  replace (X * N * (2 ^ 52 + 1) * (V * 2 ^ 52 * 2 ^ 18))
    with ((X * 2 ^ 18) * (N * V * 2 ^ 52) * (2 ^ 52 + 1)) by ring.
  replace ((2 ^ 18 - 1) * ((2 ^ 52 + 1) * (2 ^ 52 + 1)) * (n * (A * B)))
    with (((2 ^ 18 - 1) * B) * (n * A * (2 ^ 52 + 1)) * (2 ^ 52 + 1)) by ring.
  apply Z.mul_le_mono_nonneg_r; [lia|].
  eapply Z.le_trans; [exact S2 | exact S3]. }
assert (S5 : (2 ^ 18 - 1) * ((2 ^ 52 + 1) * (2 ^ 52 + 1)) < 2 ^ 122) by reflexivity.
destruct (Z.ltb_spec (P * (U * V)) W) as [ | Hge]; [assumption|]. exfalso.
assert (W * 2 ^ 122 <= P * (U * V) * 2 ^ 122) by (apply Z.mul_le_mono_nonneg_r; lia).
assert ((2 ^ 18 - 1) * ((2 ^ 52 + 1) * (2 ^ 52 + 1)) * W < 2 ^ 122 * W)
  by (apply Z.mul_lt_mono_pos_r; assumption).
lia.
Qed.

Lemma draw_below (s n : Z) :
0 <= s < 233280 -> 0 < n < 2 ^ 63 ->
exists j : Z,
  float_to_int (SFmul prec emax (SFdiv prec emax (exact s) (exact 233280))
               (binary_normalize prec emax n 0 false)) = Ok j /\
  Spec.floor (SFmul prec emax (SFdiv prec emax (exact s) (exact 233280))
               (binary_normalize prec emax n 0 false)) = j /\
  0 <= j < n.
Proof.
intros Hs Hn.
destruct (int_to_float_normal n Hn) as (mn & en & a & En & Hmn & [Ha Ha52] & Hea & Hen & Hvn).
rewrite En.
destruct (Z.eq_dec s 0) as [-> | Hs0].
- exists 0. cbn. repeat split; lia.
- destruct (truediv_modulus s) as (mx & ex & Ex & Hmx & Hex & Hvx & _); [lia|].
  rewrite Ex. cbn [SFmul xorb].
  pose proof (digits2_pos_bounds (mx * mn)) as [Blo Bhi].
  assert (Hprod : 2 ^ 104 <= Zpos (mx * mn) < 2 ^ 106).
  { rewrite Pos2Z.inj_mul.
    change (2 ^ 104) with (2 ^ 52 * 2 ^ 52). change (2 ^ 106) with (2 ^ 53 * 2 ^ 53).
    split; [apply Z.mul_le_mono_nonneg; lia | apply Z.mul_lt_mono_nonneg; lia]. }
  assert (Hd : 105 <= Zpos (digits2_pos (mx * mn)) <= 106).
  { set (d := Zpos (digits2_pos (mx * mn))) in *. split.
    - destruct (Z.leb_spec 105 d); [assumption|]. exfalso.
      assert (2 ^ d <= 2 ^ 104) by (apply Z.pow_le_mono_r; lia). lia.
    - destruct (Z.leb_spec d 106); [assumption|]. exfalso.
      assert (2 ^ 106 <= 2 ^ (d - 1)) by (apply Z.pow_le_mono_r; lia). lia. }
  destruct (binary_round_aux_rel false (mx * mn) (ex + en) loc_Exact)
    as (mp & ep & Ep & Hmp & Hep & Hvp).
  { unfold prec. lia. }
  { unfold emin, prec, emax. lia. }
  assert (Hle : (ep <=? emax - prec) = true) by (apply Z.leb_le; unfold emax, prec; lia).
  rewrite Hle in Ep. rewrite Ep. cbn [float_to_int Spec.floor cond_Zopp].
  exists (Z.shiftl (Zpos mp) ep). split; [reflexivity|]. split; [reflexivity|].
  split; [apply Z.shiftl_nonneg; lia|].
  (* the scaled product is below n *)
  set (b := - ex) in *.
  set (u := ep - (ex + en)) in *.
  set (v := en + a) in *.
  assert (Hu : 0 <= u) by (unfold u; lia).
  assert (Hb : 0 <= b) by (unfold b; lia).
  assert (Key0 : Zpos mp * (2 ^ u * 2 ^ v) < n * (2 ^ a * 2 ^ b)).
  { apply scaled_product_bound with (X := Zpos mx) (N := Zpos mn);
      try lia; try (apply Z.pow_pos_nonneg; lia). }
  assert (Key : Zpos mp * 2 ^ (u + v) < n * 2 ^ (a + b)).
  { rewrite !Z.pow_add_r by lia. exact Key0. }
  clear Key0.
  destruct (Z.leb_spec 0 ep) as [Hep0 | Hep0].
  + rewrite Z.shiftl_mul_pow2 by lia.
    replace (u + v) with (ep + (a + b)) in Key by (unfold u, v, b; lia).
    rewrite (Z.pow_add_r 2 ep (a + b)), Z.mul_assoc in Key by lia.
    apply (Z.mul_lt_mono_pos_r (2 ^ (a + b))); [apply Z.pow_pos_nonneg; lia|].
    exact Key.
  + rewrite Z.shiftl_div_pow2 by lia.
    apply Z.div_lt_upper_bound; [apply Z.pow_pos_nonneg; lia|].
    replace (a + b) with (- ep + (u + v)) in Key by (unfold u, v, b; lia).
    rewrite (Z.pow_add_r 2 (- ep) (u + v)), Z.mul_assoc in Key by lia.
    apply (Z.mul_lt_mono_pos_r (2 ^ (u + v))); [apply Z.pow_pos_nonneg; lia|].
    rewrite (Z.mul_comm (2 ^ (- ep)) n). exact Key.
Qed.

End Rounding.

(** ** Lists, subscripts and exchanges *)

Section ListFacts.
Context {A : Type}.
Implicit Types (l : list A) (i j k : nat).

Lemma update_length k (x : A) l : length (update k x l) = length l.
Proof.
  revert k. induction l as [ | h t IH ]; intros [ | k ]; simpl; auto.
Qed.

Lemma update_perm k (h b : A) l :
  nth_error l k = Some b -> Permutation (b :: update k h l) (h :: l).
Proof.
  revert k. induction l as [ | c t IH ]; intros [ | k ] Hk; simpl in *; try discriminate.
  - injection Hk as ->. apply perm_swap.
  - eapply perm_trans; [apply perm_swap|].
    eapply perm_trans; [apply perm_skip, IH, Hk|].
    apply perm_swap.
Qed.

Lemma update_exchange_perm i j (a b : A) l :
  nth_error l i = Some a -> nth_error l j = Some b ->
  Permutation (update j a (update i b l)) l.
Proof.
  revert i j. induction l as [ | h t IH ]; intros [ | i ] [ | j ] Hi Hj;
    simpl in *; try discriminate.
  - injection Hi as ->. reflexivity.
  - injection Hi as ->. apply update_perm. exact Hj.
  - injection Hj as ->. apply update_perm. exact Hi.
  - apply perm_skip. apply IH; assumption.
Qed.

Lemma swap_at_perm l i j : Permutation (Spec.swap_at l i j) l.
Proof.
  unfold Spec.swap_at.
  destruct (nth_error l i) as [a | ] eqn:Hi; [ | reflexivity ].
  destruct (nth_error l j) as [b | ] eqn:Hj; [ | reflexivity ].
  apply update_exchange_perm; assumption.
Qed.

Lemma swap_at_length l i j : length (Spec.swap_at l i j) = length l.
Proof. apply Permutation_length, swap_at_perm. Qed.

Lemma fisher_yates_perm i : forall state l,
  Permutation (Spec.fisher_yates i state l) l.
Proof.
  induction i as [ | i IH ]; intros state l; simpl.
  - reflexivity.
  - eapply perm_trans; [apply IH | apply swap_at_perm].
Qed.

Lemma index_in_range l (z : Z) :
  0 <= z < len l -> index l z = Ok (Z.to_nat z).
Proof.
  intros Hz. unfold index.
  destruct (Z.ltb_spec z 0); [lia|].
  destruct (Z.ltb_spec z 0); [lia|].
  destruct (Z.leb_spec (len l) z); [lia|]. reflexivity.
Qed.

Lemma getitem_in_range l (z : Z) :
  0 <= z < len l ->
  exists x, nth_error l (Z.to_nat z) = Some x /\ getitem l z = Ok x.
Proof.
  intros Hz. unfold getitem. rewrite index_in_range by assumption. cbn [bind].
  destruct (nth_error l (Z.to_nat z)) as [x | ] eqn:E.
  - exists x. split; reflexivity.
  - apply nth_error_None in E. unfold len in Hz. lia.
Qed.

Lemma getitem_out_of_range l (z : Z) :
  len l <= z -> getitem l z = Raise IndexError.
Proof.
  intros Hz. unfold getitem, index. unfold len in *.
  destruct (Z.ltb_spec z 0); [lia|].
  destruct (Z.ltb_spec z 0); [lia|].
  destruct (Z.leb_spec (Z.of_nat (length l)) z); [reflexivity | lia].
Qed.

Lemma getitem_from_end l (z : Z) :
  - len l <= z < 0 ->
  exists x, nth_error l (Z.to_nat (len l + z)) = Some x /\ getitem l z = Ok x.
Proof.
  intros Hz. unfold getitem, index.
  destruct (Z.ltb_spec z 0); [|lia].
  destruct (Z.ltb_spec (z + len l) 0); [lia|].
  destruct (Z.leb_spec (len l) (z + len l)); [lia|]. cbn [orb bind].
  replace (z + len l) with (len l + z) by lia.
  destruct (nth_error l (Z.to_nat (len l + z))) as [x | ] eqn:E.
  - exists x. split; reflexivity.
  - apply nth_error_None in E. unfold len in *. lia.
Qed.

Lemma swap_in_range l (zi zj : Z) :
  0 <= zi < len l -> 0 <= zj < len l ->
  swap l zi zj = Ok (Spec.swap_at l (Z.to_nat zi) (Z.to_nat zj)).
Proof.
  intros Hi Hj. unfold swap, Spec.swap_at.
  destruct (getitem_in_range l zj Hj) as (b & Eb & ->).
  destruct (getitem_in_range l zi Hi) as (a & Ea & ->).
  cbn [bind]. rewrite Ea, Eb.
  unfold setitem. rewrite index_in_range by assumption. cbn [bind].
  rewrite index_in_range; [reflexivity|].
  unfold len in *. rewrite update_length. assumption.
Qed.
End ListFacts.

Lemma range_down_succ (i : nat) :
  range_down (Z.of_nat (S i)) 0 = Z.of_nat (S i) :: range_down (Z.of_nat i) 0.
Proof.
  unfold range_down. rewrite !Z.sub_0_r, !Nat2Z.id.
  cbn [seq map]. f_equal; try lia.
  rewrite <- seq_shift, map_map. apply map_ext. intros k. lia.
Qed.

(** ** The loop of [shuffle_with_seed] is the Fisher-Yates walk *)

Section Refinement.
Context {A : Type}.

Lemma lcg_range (state : Z) : 0 <= Spec.lcg state < 233280.
Proof. unfold Spec.lcg. apply Z.mod_pos_bound. lia. Qed.

Lemma next_spec (state : Z) :
  next {| seed := state |} =
    Ok (Spec.unit_value (Spec.lcg state), {| seed := Spec.lcg state |}).
Proof.
  unfold next. cbn [seed]. fold (Spec.lcg state).
  pose proof (lcg_range state) as Hr.
  unfold int_truediv. change (233280 =? 0) with false. cbv iota.
  fold (Spec.unit_value (Spec.lcg state)).
  destruct (Z.eq_dec (Spec.lcg state) 0) as [E | E].
  - rewrite E. reflexivity.
  - destruct (truediv_modulus (Spec.lcg state)) as (mx & ex & Ex & _); [lia|].
    unfold Spec.unit_value. rewrite Ex. reflexivity.
Qed.

Lemma shuffle_step_spec (state : Z) (l : list A) (i : nat) :
  (0 < i < length l)%nat -> len l <= PY_SSIZE_T_MAX ->
  shuffle_step ({| seed := state |}, l) (Z.of_nat i) =
    Ok ({| seed := Spec.lcg state |},
        Spec.swap_at l i (Spec.draw (Spec.lcg state) i)).
Proof.
  intros Hi Hmax. unfold shuffle_step.
  rewrite next_spec. cbn [bind].
  destruct (draw_below (Spec.lcg state) (Z.of_nat i + 1)) as (j & Ej & Fj & Hj).
  { apply lcg_range. }
  { unfold len, PY_SSIZE_T_MAX in *. lia. }
  unfold float_mul_int, int_to_float.
  destruct (int_to_float_normal (Z.of_nat i + 1)) as (mn & en & a & En & _).
  { unfold len, PY_SSIZE_T_MAX in *. lia. }
  fold (Spec.unit_value (Spec.lcg state)) in Ej, Fj.
  rewrite En in *. cbn [bind].
  rewrite Ej. cbn [bind].
  rewrite swap_in_range by (unfold len; lia). cbn [bind].
  unfold Spec.draw. rewrite En, Fj, Nat2Z.id. reflexivity.
Qed.

Lemma for_each_spec (i : nat) : forall (state : Z) (l : list A),
  (i < length l)%nat -> len l <= PY_SSIZE_T_MAX ->
  exists rng,
    for_each shuffle_step ({| seed := state |}, l) (range_down (Z.of_nat i) 0) =
      Ok (rng, Spec.fisher_yates i state l).
Proof.
  induction i as [ | i IH ]; intros state l Hi Hmax.
  - exists {| seed := state |}. reflexivity.
  - rewrite range_down_succ. cbn [for_each].
    rewrite shuffle_step_spec by (assumption || lia). cbn [bind].
    destruct (IH (Spec.lcg state)
                 (Spec.swap_at l (S i) (Spec.draw (Spec.lcg state) (S i)))) as (rng & E).
    + rewrite swap_at_length. lia.
    + unfold len in *. rewrite swap_at_length. assumption.
    + exists rng. rewrite E. reflexivity.
Qed.

Lemma shuffle_with_seed_spec (array : list A) (seed0 : Z) :
  len array <= PY_SSIZE_T_MAX ->
  shuffle_with_seed array seed0 =
    Ok (Spec.fisher_yates (length array - 1) seed0 array).
Proof.
  intros Hmax. unfold shuffle_with_seed.
  destruct array as [ | x t ].
  - reflexivity.
  - replace (len (x :: t) - 1) with (Z.of_nat (length (x :: t) - 1))
      by (unfold len; simpl length; lia).
    destruct (for_each_spec (length (x :: t) - 1) seed0 (x :: t)) as (rng & E).
    + simpl. lia.
    + assumption.
    + rewrite E. reflexivity.
Qed.
End Refinement.

(** ** The daily schedule *)

Section Schedule.
Context {A : Type}.

Lemma tripled_fold (pool acc : list A) :
  fold_left (fun acc it => extend acc [it; it; it]) pool acc =
    acc ++ Spec.working_sequence pool.
Proof.
  revert acc. induction pool as [ | x pool IH ]; intros acc; simpl.
  - rewrite app_nil_r. reflexivity.
  - rewrite IH. unfold extend. rewrite <- app_assoc. reflexivity.
Qed.

Lemma working_sequence_length (pool : list A) :
  length (Spec.working_sequence pool) = (3 * length pool)%nat.
Proof.
  induction pool as [ | x pool IH ]; simpl; [reflexivity | rewrite IH; lia].
Qed.

Lemma working_sequence_map {B : Type} (f : A -> B) (pool : list A) :
  Spec.working_sequence (map f pool) = map f (Spec.working_sequence pool).
Proof.
  induction pool as [ | x pool IH ]; simpl; [reflexivity | rewrite IH; reflexivity].
Qed.

Lemma buildSchedule_perm (pool : list A) (seed0 : Z) :
  Permutation (Spec.buildSchedule pool seed0) (Spec.working_sequence pool).
Proof. apply fisher_yates_perm. Qed.

Lemma buildSchedule_length (pool : list A) (seed0 : Z) :
  length (Spec.buildSchedule pool seed0) = (3 * length pool)%nat.
Proof.
  rewrite (Permutation_length (buildSchedule_perm pool seed0)).
  apply working_sequence_length.
Qed.
End Schedule.

Lemma update_map {A B : Type} (f : A -> B) (k : nat) (x : A) (l : list A) :
  update k (f x) (map f l) = map f (update k x l).
Proof.
  revert k. induction l as [ | h t IH ]; intros [ | k ]; simpl; try reflexivity.
  rewrite IH. reflexivity.
Qed.

Lemma swap_at_map {A B : Type} (f : A -> B) (l : list A) (i j : nat) :
  Spec.swap_at (map f l) i j = map f (Spec.swap_at l i j).
Proof.
  unfold Spec.swap_at. rewrite !nth_error_map.
  destruct (nth_error l i) as [a | ]; [ | reflexivity ].
  destruct (nth_error l j) as [b | ]; [ | reflexivity ].
  cbn [option_map]. rewrite !update_map. reflexivity.
Qed.

Lemma fisher_yates_map {A B : Type} (f : A -> B) (i : nat) :
  forall (state : Z) (l : list A),
    Spec.fisher_yates i state (map f l) = map f (Spec.fisher_yates i state l).
Proof.
  induction i as [ | i IH ]; intros state l; simpl; [reflexivity|].
  rewrite swap_at_map. apply IH.
Qed.

Lemma buildSchedule_map {A B : Type} (f : A -> B) (pool : list A) (seed0 : Z) :
  Spec.buildSchedule (map f pool) seed0 = map f (Spec.buildSchedule pool seed0).
Proof.
  unfold Spec.buildSchedule. rewrite working_sequence_map, length_map.
  apply fisher_yates_map.
Qed.

Lemma positions_enumerate {A : Type} (l : list A) :
  map (nth_error l) (seq 0 (length l)) = map Some l.
Proof.
  induction l as [ | x l IH ]; simpl; [reflexivity|].
  f_equal. rewrite <- seq_shift, map_map. exact IH.
Qed.

Lemma count_occ_working_sequence (pool : list nat) (k : nat) :
  count_occ Nat.eq_dec (Spec.working_sequence pool) k =
    (3 * count_occ Nat.eq_dec pool k)%nat.
Proof.
  induction pool as [ | x pool IH ]; simpl; [reflexivity|].
  destruct (Nat.eq_dec x k); lia.
Qed.

Lemma count_occ_positions (n k : nat) :
  (k < n)%nat -> count_occ Nat.eq_dec (seq 0 n) k = 1%nat.
Proof.
  intros Hk. apply NoDup_count_occ'; [apply seq_NoDup | apply in_seq; lia].
Qed.

Section Service.
Variable ITEMS : list item.
Variable wall_clock : nat -> datetime.

Lemma generate_daily_schedule_shuffle (w : world) :
  generate_daily_schedule ITEMS wall_clock w =
    (shuffle_with_seed (Spec.working_sequence ITEMS) (strftime_Ymd_int (wall_clock w)), S w).
Proof.
  unfold generate_daily_schedule, get_today_seed, datetime_now.
  rewrite tripled_fold. reflexivity.
Qed.

Lemma generate_daily_schedule_spec (w : world) :
  3 * len ITEMS <= PY_SSIZE_T_MAX ->
  generate_daily_schedule ITEMS wall_clock w =
    (Ok (Spec.buildSchedule ITEMS (strftime_Ymd_int (wall_clock w))), S w).
Proof.
  intros Hmax. rewrite generate_daily_schedule_shuffle.
  rewrite shuffle_with_seed_spec; [reflexivity|].
  unfold len in *. rewrite working_sequence_length. lia.
Qed.
End Service.

(** C1.  Building the daily schedule is a function of the seed and of the
    pool alone: two builds over the same pool, made from clock readings
    that give the same seed, return the same result, which is the shuffle
    of the tripled pool under that seed. *)
Theorem C1_schedule_deterministic
  (P : list item) (s : Z) (clock1 clock2 : nat -> datetime) (w1 w2 : world) :
  fst (get_today_seed clock1 w1) = s ->
  fst (get_today_seed clock2 w2) = s ->
  fst (generate_daily_schedule P clock1 w1) = fst (generate_daily_schedule P clock2 w2) /\
  fst (generate_daily_schedule P clock1 w1) = shuffle_with_seed (Spec.working_sequence P) s.
Proof.
  intros H1 H2. rewrite !generate_daily_schedule_shuffle.
  unfold get_today_seed, datetime_now in H1, H2. cbn [fst] in *.
  rewrite H1, H2. split; reflexivity.
Qed.

(** C2.  For a pool that fits in a Python list once tripled, the build
    succeeds and the schedule is a rearrangement of the pool with every
    item three times: it has [3 * len(P)] entries, and reading it as pool
    positions, every position of the pool occurs exactly three times. *)
Theorem C2_schedule_is_tripled_pool
  (P : list item) (clock : nat -> datetime) (w : world) :
  3 * len P <= PY_SSIZE_T_MAX ->
  exists (schedule : list item) (slots : list nat),
    fst (generate_daily_schedule P clock w) = Ok schedule /\
    Permutation schedule (flat_map (fun it => [it; it; it]) P) /\
    len schedule = 3 * len P /\
    map Some schedule = map (nth_error P) slots /\
    (forall k, (k < length P)%nat -> count_occ Nat.eq_dec slots k = 3%nat) /\
    (forall k, (length P <= k)%nat -> count_occ Nat.eq_dec slots k = 0%nat).
Proof.
  intros Hmax.
  set (s := strftime_Ymd_int (clock w)).
  exists (Spec.buildSchedule P s), (Spec.buildSchedule (seq 0 (length P)) s).
  split; [rewrite generate_daily_schedule_spec by assumption; reflexivity|].
  split; [apply buildSchedule_perm|].
  split; [unfold len; rewrite buildSchedule_length; lia|].
  split.
  - rewrite <- !buildSchedule_map, positions_enumerate. reflexivity.
  - split; intros k Hk;
      rewrite (proj1 (Permutation_count_occ Nat.eq_dec _ _)
                 (buildSchedule_perm (seq 0 (length P)) s) k),
        count_occ_working_sequence.
    + rewrite count_occ_positions by assumption. reflexivity.
    + replace (count_occ Nat.eq_dec (seq 0 (length P)) k) with 0%nat; [reflexivity|].
      symmetry. apply count_occ_not_In. rewrite in_seq. lia.
Qed.

(** C3.  The builder computes what the design document describes: the pool
    with every item pushed three times in a row, walked by Fisher-Yates
    from the last position down to 1 with [j = floor(next() * (i+1))]. *)
Theorem C3_builder_follows_algorithm
  (P : list item) (clock : nat -> datetime) (w : world) :
  3 * len P <= PY_SSIZE_T_MAX ->
  fst (generate_daily_schedule P clock w) =
    Ok (Spec.buildSchedule P (fst (get_today_seed clock w))).
Proof.
  intros Hmax. rewrite generate_daily_schedule_spec by assumption. reflexivity.
Qed.

(** ** The generator *)

Lemma unit_value_in_unit_interval (state : Z) :
  0 <= state < 233280 -> in_unit_interval (Spec.unit_value state).
Proof.
  intros Hs. unfold Spec.unit_value.
  destruct (Z.eq_dec state 0) as [-> | Hne]; [exact I|].
  destruct (truediv_modulus state) as (mx & ex & Ex & Hmx & Hex & Hv & _); [lia|].
  rewrite Ex. cbn [in_unit_interval]. split; [lia|].
  assert (0 < 2 ^ (- ex)) by (apply Z.pow_pos_nonneg; lia).
  lia.
Qed.

Lemma unit_value_near_quotient (state : Z) :
  0 <= state < 233280 -> near_quotient (Spec.unit_value state) state.
Proof.
  intros Hs. unfold Spec.unit_value.
  destruct (Z.eq_dec state 0) as [-> | Hne]; [reflexivity|].
  destruct (truediv_modulus state) as (mx & ex & Ex & _ & Hex & _ & Hq); [lia|].
  rewrite Ex. cbn [near_quotient]. split; [lia | exact Hq].
Qed.

Lemma outputs_total (n : nat) : forall rng : SeededRandom,
  exists l, outputs n rng = Ok l /\ length l = n /\ Forall in_unit_interval l.
Proof.
  induction n as [ | n IH ]; intros [state]; cbn [outputs].
  - exists []. repeat split. constructor.
  - rewrite next_spec. cbn [bind].
    destruct (IH {| seed := Spec.lcg state |}) as (l & E & Hl & Hall).
    rewrite E. cbn [bind].
    exists (Spec.unit_value (Spec.lcg state) :: l). repeat split.
    + simpl. lia.
    + constructor; [apply unit_value_in_unit_interval, lcg_range | assumption].
Qed.

(** C6.  A call of [next] stores [(state * 9301 + 49297) mod 233280] and
    returns that new state divided by 233280: the float that [/] gives,
    within [3 * 2^-53] of the exact quotient and in [0,1).  Generators
    holding the same seed return the same values, however many are drawn,
    and drawing never fails. *)
Theorem C6_next_contract (self : SeededRandom) :
  exists r : float,
    next self = Ok (r, {| seed := (seed self * 9301 + 49297) mod 233280 |}) /\
    int_truediv ((seed self * 9301 + 49297) mod 233280) 233280 = Ok r /\
    near_quotient r ((seed self * 9301 + 49297) mod 233280) /\
    in_unit_interval r /\
    forall (n : nat) (other : SeededRandom),
      seed other = seed self ->
      outputs n other = outputs n self /\
      exists l, outputs n self = Ok l /\ length l = n /\ Forall in_unit_interval l.
Proof.
  destruct self as [state]. cbn [seed].
  exists (Spec.unit_value (Spec.lcg state)).
  pose proof (next_spec state) as Hnext.
  split; [exact Hnext|].
  split.
  - unfold next in Hnext. cbn [seed] in Hnext. fold (Spec.lcg state) in *.
    destruct (int_truediv (Spec.lcg state) 233280) as [r | e]; cbn [bind] in Hnext.
    + injection Hnext as ->. reflexivity.
    + discriminate.
  - split; [apply unit_value_near_quotient, lcg_range|].
    split; [apply unit_value_in_unit_interval, lcg_range|].
    intros n [state'] E. cbn [seed] in E. subst state'.
    split; [reflexivity | apply outputs_total].
Qed.

(** ** Strings: conversion to [int], splitting, formatting, encoding *)

Lemma Z_range_forallb (f : Z -> bool) (n : nat) :
  forallb f (map Z.of_nat (seq 0 n)) = true ->
  forall z, 0 <= z < Z.of_nat n -> f z = true.
Proof.
  intros H z Hz. rewrite forallb_forall in H. apply H.
  apply in_map_iff. exists (Z.to_nat z). split; [lia|]. apply in_seq. lia.
Qed.

Lemma skip_space_keeps (c : char) (l : pystr) :
  ascii_isspace c = false -> In c l -> In c (skip_space l).
Proof.
  intros Hc. induction l as [ | d t IH ]; intros Hin; [exact Hin|].
  cbn [skip_space]. destruct (ascii_isspace d) eqn:Ed.
  - destruct Hin as [-> | Hin]; [congruence | apply IH, Hin].
  - exact Hin.
Qed.

Lemma scan_digits_keeps (c : char) (l : pystr) :
  ascii_isdigit c = false -> c <> 95%N ->
  forall prev acc count v n rest,
    scan_digits l prev acc count = Some (v, n, rest) -> In c l -> In c rest.
Proof.
  intros Hd Hu. induction l as [ | d t IH ]; intros prev acc count v n rest E Hin.
  - destruct Hin.
  - cbn [scan_digits] in E. destruct (ascii_isdigit d) eqn:Ed.
    + destruct Hin as [-> | Hin]; [congruence | eapply IH; eassumption].
    + destruct (N.eqb_spec d 95).
      * destruct prev; [discriminate|].
        destruct Hin as [<- | Hin]; [congruence | eapply IH; eassumption].
      * destruct prev; [discriminate|]. injection E as _ _ <-. exact Hin.
Qed.

Lemma int_raises (s : pystr) (e : exn) : int s = Raise e -> e = ValueError.
Proof.
  unfold int.
  destruct (strip_sign (skip_space (map to_ascii s))) as [negative l].
  destruct (starts_with [95%N] l); [congruence|].
  destruct (scan_digits l false 0 0) as [[[v count] rest] | ]; [|congruence].
  destruct (count =? 0); [congruence|].
  destruct ((str_digits_check_threshold <? count) && (0 <? max_str_digits)
            && (max_str_digits <? count)); [congruence|].
  destruct (skip_space rest); congruence.
Qed.

Lemma strip_sign_keeps (c : char) (l : pystr) :
  c <> 43%N -> c <> 45%N -> In c l -> In c (snd (strip_sign l)).
Proof.
  intros H1 H2 Hin. destruct l as [ | d t ]; [destruct Hin|].
  cbn [strip_sign].
  destruct (N.eqb_spec d 43); [destruct Hin; [congruence | assumption]|].
  destruct (N.eqb_spec d 45); [destruct Hin; [congruence | assumption]|].
  exact Hin.
Qed.

(** A character that the interpreter maps to ['?'] makes the literal
    invalid wherever it stands. *)
Lemma int_rejects (s : pystr) (c : char) :
  In c s -> to_ascii c = 63%N -> int s = Raise ValueError.
Proof.
  intros Hin Hc.
  assert (H0 : In 63%N (map to_ascii s)) by (rewrite <- Hc; apply in_map, Hin).
  apply (skip_space_keeps 63%N) in H0; [|reflexivity].
  apply (strip_sign_keeps 63%N) in H0; [|discriminate|discriminate].
  unfold int.
  destruct (strip_sign (skip_space (map to_ascii s))) as [negative l]. cbn [snd] in H0.
  destruct (starts_with [95%N] l); [reflexivity|].
  destruct (scan_digits l false 0 0) as [[[v count] rest] | ] eqn:Escan; [|reflexivity].
  destruct (count =? 0); [reflexivity|].
  destruct ((str_digits_check_threshold <? count) && (0 <? max_str_digits)
            && (max_str_digits <? count)); [reflexivity|].
  assert (Hrest : In 63%N rest).
  { eapply scan_digits_keeps; [ | | exact Escan | exact H0 ]; [reflexivity | discriminate]. }
  apply (skip_space_keeps 63%N) in Hrest; [|reflexivity].
  destruct (skip_space rest); [destruct Hrest | reflexivity].
Qed.

Lemma int_ok_chars (s : pystr) (z : Z) :
  int s = Ok z -> Forall (fun c => to_ascii c <> 63%N) s.
Proof.
  intros Hok. apply Forall_forall. intros c Hin Hc.
  rewrite (int_rejects s c Hin Hc) in Hok. discriminate.
Qed.

Section Split.
Variable sep : char.

Lemma split_In (s : pystr) (c : char) :
  In c s -> c <> sep -> exists part, In part (split sep s) /\ In c part.
Proof.
  intros Hin Hc. induction s as [ | d t IH ]; [destruct Hin|].
  cbn [split]. destruct (N.eqb_spec d sep) as [-> | Hd].
  - destruct Hin as [<- | Hin]; [congruence|].
    destruct (IH Hin) as (part & Hp & Hcp). exists part. split; [right; exact Hp | exact Hcp].
  - destruct Hin as [<- | Hin].
    + destruct (split sep t) as [ | part parts ].
      * exists [d]. split; left; reflexivity.
      * exists (d :: part). split; left; reflexivity.
    + destruct (IH Hin) as (part & Hp & Hcp).
      destruct (split sep t) as [ | part0 parts ]; [destruct Hp|].
      destruct Hp as [<- | Hp].
      * exists (d :: part0). split; [left; reflexivity | right; exact Hcp].
      * exists part. split; [right; exact Hp | exact Hcp].
Qed.

Lemma split_no_sep (s : pystr) :
  ~ In sep s -> split sep s = [s].
Proof.
  induction s as [ | d t IH ]; intros Hs; [reflexivity|].
  cbn [split]. destruct (N.eqb_spec d sep) as [-> | Hd].
  - exfalso. apply Hs. left. reflexivity.
  - rewrite IH; [reflexivity|]. intros Hin. apply Hs. right. exact Hin.
Qed.

Lemma split_app_sep (a b : pystr) :
  ~ In sep a -> split sep (a ++ sep :: b) = a :: split sep b.
Proof.
  induction a as [ | d t IH ]; intros Ha.
  - cbn [app split]. rewrite N.eqb_refl. reflexivity.
  - cbn [app split]. destruct (N.eqb_spec d sep) as [-> | Hd].
    + exfalso. apply Ha. left. reflexivity.
    + rewrite IH; [reflexivity|]. intros Hin. apply Ha. right. exact Hin.
Qed.
End Split.

Lemma unpack2_raises (parts : list pystr) (e : exn) :
  unpack2 parts = Raise e -> e = ValueError.
Proof.
  destruct parts as [ | a [ | b [ | c rest ] ] ]; cbn [unpack2].
  - congruence.
  - destruct (int a) eqn:Ea; cbn [bind]; [congruence | intros H; injection H as <-; eapply int_raises, Ea].
  - destruct (int a) eqn:Ea; cbn [bind]; [ | intros H; injection H as <-; eapply int_raises, Ea ].
    destruct (int b) eqn:Eb; cbn [bind]; [discriminate | intros H; injection H as <-; eapply int_raises, Eb].
  - destruct (int a) eqn:Ea; cbn [bind]; [ | intros H; injection H as <-; eapply int_raises, Ea ].
    destruct (int b) eqn:Eb; cbn [bind]; [ | intros H; injection H as <-; eapply int_raises, Eb ].
    destruct (int c) eqn:Ec; cbn [bind]; [congruence | intros H; injection H as <-; eapply int_raises, Ec].
Qed.

Lemma unpack2_ok (parts : list pystr) (h m : Z) :
  unpack2 parts = Ok (h, m) <->
  exists a b, parts = [a; b] /\ int a = Ok h /\ int b = Ok m.
Proof.
  split.
  - destruct parts as [ | a [ | b [ | c rest ] ] ]; cbn [unpack2].
    + discriminate.
    + destruct (int a); discriminate.
    + destruct (int a) as [h' | ] eqn:Ea; cbn [bind]; [|discriminate].
      destruct (int b) as [m' | ] eqn:Eb; cbn [bind]; [|discriminate].
      intros H. injection H as -> ->. exists a, b. repeat split; assumption.
    + destruct (int a); cbn [bind]; [|discriminate].
      destruct (int b); cbn [bind]; [|discriminate].
      destruct (int c); discriminate.
  - intros (a & b & -> & Ea & Eb). cbn [unpack2]. rewrite Ea, Eb. reflexivity.
Qed.

Lemma explicit_time_raises (time24 : pystr) (e : exn) :
  explicit_time time24 = Raise e -> e = ValueError.
Proof.
  unfold explicit_time.
  destruct (unpack2 (split 58%N time24)) as [[h m] | e'] eqn:E; cbn [bind]; [discriminate|].
  intros H. injection H as <-. eapply unpack2_raises, E.
Qed.

Lemma explicit_time_ok (time24 label : pystr) (minute : Z) :
  explicit_time time24 = Ok (label, minute) <->
  label = time24 /\
  exists a b H M, split 58%N time24 = [a; b] /\ int a = Ok H /\ int b = Ok M /\
                  minute = H * 60 + M.
Proof.
  unfold explicit_time. split.
  - destruct (unpack2 (split 58%N time24)) as [[h m] | e'] eqn:E; cbn [bind]; [|discriminate].
    intros H. injection H as <- <-. split; [reflexivity|].
    apply unpack2_ok in E. destruct E as (a & b & Es & Ea & Eb).
    exists a, b, h, m. repeat split; assumption.
  - intros (-> & a & b & H & M & Es & Ea & Eb & ->).
    rewrite (proj2 (unpack2_ok _ H M)); [reflexivity|].
    exists a, b. repeat split; assumption.
Qed.

Section ResolveExplicit.
Variable wall_clock : nat -> datetime.
Variable fromisoformat : pystr -> result datetime.

Lemma resolve_time_explicit (body : json) (time24 : pystr) (w : world) :
  py_in (str "time24") body = Ok true ->
  subscript body (str "time24") = Ok (JStr time24) ->
  resolve_time wall_clock fromisoformat body w =
    ('(label, minute) <- explicit_time time24 ;; Ok (label, minute, w)).
Proof.
  intros Hin Hsub. unfold resolve_time. rewrite Hin. cbn [bind].
  rewrite Hsub. reflexivity.
Qed.
End ResolveExplicit.

(** C4, as the code has it.  An explicit time string is refused, with a
    [ValueError] and never with a substitute value, whenever it does not
    split at [':'] into exactly two parts that [int] accepts; a resolution
    that succeeds returns the string itself as the label, as it was given,
    with [minute = H*60+M]; for [H] in 0..23 and [M] in 0..59 it succeeds and
    the minute lies in 0..1439; ["bogus"] is refused. *)
Theorem C4_explicit_time_resolution (time24 : pystr) :
  (forall e, explicit_time time24 = Raise e -> e = ValueError) /\
  (~ (exists a b H M, split 58%N time24 = [a; b] /\ int a = Ok H /\ int b = Ok M) ->
   explicit_time time24 = Raise ValueError) /\
  (forall label minute,
     explicit_time time24 = Ok (label, minute) ->
     label = time24 /\
     exists a b H M, split 58%N time24 = [a; b] /\ int a = Ok H /\ int b = Ok M /\
                     minute = H * 60 + M) /\
  (forall a b H M,
     split 58%N time24 = [a; b] -> int a = Ok H -> int b = Ok M ->
     0 <= H <= 23 -> 0 <= M <= 59 ->
     explicit_time time24 = Ok (time24, H * 60 + M) /\ 0 <= H * 60 + M <= 1439) /\
  (forall clock iso body w,
     py_in (str "time24") body = Ok true ->
     subscript body (str "time24") = Ok (JStr time24) ->
     explicit_time time24 = Raise ValueError ->
     resolve_time clock iso body w = Raise ValueError) /\
  explicit_time (str "bogus") = Raise ValueError.
Proof.
  split; [apply explicit_time_raises|].
  split.
  { intros Hnot. destruct (explicit_time time24) as [[label minute] | e] eqn:E.
    - exfalso. apply Hnot. apply explicit_time_ok in E.
      destruct E as (_ & a & b & H & M & Es & Ea & Eb & _). exists a, b, H, M. auto.
    - f_equal. eapply explicit_time_raises, E. }
  split; [intros label minute E; apply explicit_time_ok, E|].
  split.
  { intros a b H M Es Ea Eb HH HM. split; [|lia].
    apply explicit_time_ok. split; [reflexivity|]. exists a, b, H, M. auto. }
  split; [|reflexivity].
  intros clock iso body w Hin Hsub E.
  rewrite (resolve_time_explicit clock iso body time24 w Hin Hsub), E. reflexivity.
Qed.

(** C4 as first worded does not hold: ["25:00"] is resolved, to minute
    1500, and ["5:7"] is resolved with the label ["5:7"], not ["05:07"]. *)
Lemma C4_counterexample :
  explicit_time (str "25:00") = Ok (str "25:00", 1500) /\
  ~ (0 <= 1500 <= 1439) /\
  explicit_time (str "5:7") = Ok (str "5:7", 307) /\
  str "5:7" <> format_02d 5 ++ str ":" ++ format_02d 7.
Proof.
  split; [reflexivity|]. split; [lia|]. split; [reflexivity | discriminate].
Qed.

(** ** Zero-padded labels *)

Lemma format_02d_reads_back (h : Z) :
  0 <= h < 60 ->
  int (format_02d h) = Ok h /\ ~ In 58%N (format_02d h) /\ length (format_02d h) = 2%nat.
Proof.
  intros Hh.
  assert (Hall : forallb label_reads_back (map Z.of_nat (seq 0 60)) = true)
    by (vm_compute; reflexivity).
  pose proof (Z_range_forallb _ _ Hall h ltac:(lia)) as Hb.
  unfold label_reads_back in Hb.
  destruct (int (format_02d h)) as [v | ]; [|discriminate].
  apply andb_prop in Hb. destruct Hb as [Hb Hlen].
  apply andb_prop in Hb. destruct Hb as [Hv Hsep].
  apply Z.eqb_eq in Hv. subst v. split; [reflexivity|]. split.
  - intros Hin. apply negb_true_iff in Hsep.
    assert (existsb (N.eqb 58) (format_02d h) = true)
      by (apply existsb_exists; exists 58%N; split; [exact Hin | apply N.eqb_refl]).
    congruence.
  - apply Nat.eqb_eq. exact Hlen.
Qed.

Lemma explicit_time_of_label (H M : Z) :
  0 <= H < 60 -> 0 <= M < 60 ->
  explicit_time (format_02d H ++ str ":" ++ format_02d M) =
    Ok (format_02d H ++ str ":" ++ format_02d M, H * 60 + M).
Proof.
  intros HH HM.
  destruct (format_02d_reads_back H HH) as (EH & SH & _).
  destruct (format_02d_reads_back M HM) as (EM & SM & _).
  apply explicit_time_ok. split; [reflexivity|].
  exists (format_02d H), (format_02d M), H, M.
  split; [|repeat split; assumption].
  change (str ":" ++ format_02d M) with (58%N :: format_02d M).
  rewrite split_app_sep by assumption.
  rewrite split_no_sep by assumption. reflexivity.
Qed.

(** C5.  A valid label "HH:MM", [H] in 0..23 and [M] in 0..59, resolves to
    [minute = H*60+M]; so do the three labels of the design document. *)
Theorem C5_valid_label_minute (H M : Z) :
  0 <= H <= 23 -> 0 <= M <= 59 ->
  explicit_time (format_02d H ++ str ":" ++ format_02d M) =
    Ok (format_02d H ++ str ":" ++ format_02d M, H * 60 + M) /\
  (forall clock iso body w,
     py_in (str "time24") body = Ok true ->
     subscript body (str "time24") = Ok (JStr (format_02d H ++ str ":" ++ format_02d M)) ->
     resolve_time clock iso body w =
       Ok (format_02d H ++ str ":" ++ format_02d M, H * 60 + M, w)) /\
  explicit_time (str "00:00") = Ok (str "00:00", 0) /\
  explicit_time (str "23:59") = Ok (str "23:59", 1439) /\
  explicit_time (str "12:34") = Ok (str "12:34", 754).
Proof.
  intros HH HM.
  pose proof (explicit_time_of_label H M ltac:(lia) ltac:(lia)) as E.
  split; [exact E|].
  split; [|repeat split; reflexivity].
  intros clock iso body w Hin Hsub.
  rewrite (resolve_time_explicit clock iso body _ w Hin Hsub), E. reflexivity.
Qed.

(** ** Characters of labels and poems *)

Lemma encode_char_scalar (c : char) : is_ok (encode_char c) = scalar c.
Proof.
  unfold encode_char, scalar.
  destruct (N.ltb_spec c 0xD800) as [H1 | H1];
    destruct (N.ltb_spec 0xDFFF c) as [H2 | H2];
    destruct (N.ltb_spec c 0x110000) as [H3 | H3]; cbn [orb andb];
    repeat match goal with
           | |- context [Z.ltb ?a ?b] => destruct (Z.ltb_spec a b); try lia
           | |- context [Z.leb ?a ?b] => destruct (Z.leb_spec a b); try lia
           end; cbn [andb is_ok]; try reflexivity; lia.
Qed.

Lemma encode_ok (s : pystr) :
  is_ok (encode s) = true <-> Forall (fun c => scalar c = true) s.
Proof.
  induction s as [ | c t IH ]; cbn [encode].
  - split; [constructor | reflexivity].
  - rewrite Forall_cons_iff, <- IH, <- encode_char_scalar.
    destruct (encode_char c); destruct (encode t); cbn; intuition congruence.
Qed.

Lemma unicode_isspace_scalar (c : char) : unicode_isspace c = true -> scalar c = true.
Proof.
  unfold unicode_isspace. intros H. apply existsb_exists in H.
  destruct H as (x & Hin & Hx). apply N.eqb_eq in Hx. subst x.
  cbn [In] in Hin.
  repeat (destruct Hin as [<- | Hin]; [reflexivity|]). destruct Hin.
Qed.

Lemma unicode_todecimal_scalar (c : char) (d : N) :
  unicode_todecimal c = Some d -> scalar c = true /\ (d < 10)%N.
Proof.
  unfold unicode_todecimal.
  destruct (find (fun z => (z <=? c)%N && (c <? z + 10)%N) unicode_decimal_zeros)
    as [z | ] eqn:E; [|discriminate].
  intros H. injection H as <-.
  apply find_some in E. destruct E as [Hin Hz].
  apply andb_prop in Hz. destruct Hz as [Hlo Hhi].
  apply N.leb_le in Hlo. apply N.ltb_lt in Hhi.
  assert (Hall : forallb decimal_run_scalar unicode_decimal_zeros = true) by reflexivity.
  rewrite forallb_forall in Hall. specialize (Hall z Hin).
  unfold decimal_run_scalar in Hall.
  apply andb_prop in Hall. destruct Hall as [Hs Htop].
  apply N.leb_le in Htop. split; [|lia].
  unfold scalar. apply orb_prop in Hs. destruct Hs as [Hs | Hs].
  - apply N.leb_le in Hs. apply orb_true_iff. left. apply N.ltb_lt. lia.
  - apply N.ltb_lt in Hs. apply orb_true_iff. right.
    apply andb_true_iff. split; apply N.ltb_lt; lia.
Qed.

(** The characters [int] can read are encodable and are not the en-dash. *)
Lemma to_ascii_valid (c : char) :
  to_ascii c <> 63%N -> scalar c = true /\ c <> en_dash.
Proof.
  unfold to_ascii. destruct (N.ltb_spec c 127) as [Hlt | Hge].
  - intros _. split.
    + unfold scalar. apply orb_true_iff. left. apply N.ltb_lt. lia.
    + unfold en_dash. lia.
  - destruct (unicode_isspace c) eqn:Es.
    + intros _. split; [apply unicode_isspace_scalar, Es|].
      intros ->. discriminate Es.
    + destruct (unicode_todecimal c) as [d | ] eqn:Ed; [|congruence].
      intros _. split; [eapply unicode_todecimal_scalar, Ed|].
      intros ->. discriminate Ed.
Qed.

Lemma explicit_time_plain (time24 label : pystr) (minute : Z) :
  explicit_time time24 = Ok (label, minute) -> Forall plain label.
Proof.
  intros E. apply explicit_time_ok in E.
  destruct E as (-> & a & b & H & M & Es & Ea & Eb & _).
  apply Forall_forall. intros c Hin.
  destruct (N.eq_dec c 58) as [-> | Hc]; [split; [reflexivity | discriminate]|].
  destruct (split_In 58%N time24 c Hin Hc) as (part & Hp & Hcp).
  rewrite Es in Hp. apply to_ascii_valid.
  destruct Hp as [<- | [<- | []]].
  - pose proof (int_ok_chars a H Ea) as Ha. rewrite Forall_forall in Ha. apply Ha, Hcp.
  - pose proof (int_ok_chars b M Eb) as Hb. rewrite Forall_forall in Hb. apply Hb, Hcp.
Qed.





Lemma replace_en_dash (s : pystr) :
  replace en_dash (str "-") s = map (fun c => if N.eqb c en_dash then 45%N else c) s.
Proof.
  unfold replace. induction s as [ | c t IH ]; [reflexivity|].
  cbn [flat_map map]. rewrite IH. destruct (N.eqb c en_dash); reflexivity.
Qed.

Lemma replace_en_dash_plain (s : pystr) :
  Forall (fun c => scalar c = true) s ->
  Forall plain (replace en_dash (str "-") s).
Proof.
  intros Hs. rewrite replace_en_dash. apply Forall_map.
  eapply Forall_impl; [|exact Hs]. cbv beta. intros c Hc.
  destruct (N.eqb_spec c en_dash) as [-> | Hne]; split; try reflexivity; try assumption.
  discriminate.
Qed.


Section ResolveLabel.
Variable wall_clock : nat -> datetime.
Variable fromisoformat : pystr -> result datetime.

End ResolveLabel.

(** ** The poem and its identifier *)

Lemma Forall_firstn {A : Type} (P : A -> Prop) (n : nat) (l : list A) :
  Forall P l -> Forall P (firstn n l).
Proof.
  revert l. induction n as [ | n IH ]; intros l Hl; [constructor|].
  destruct Hl as [ | x l Hx Hl ]; [constructor|].
  cbn [firstn]. constructor; [exact Hx | apply IH, Hl].
Qed.

Lemma le_bytes_length (n : nat) (z : Z) : length (le_bytes n z) = n.
Proof. unfold le_bytes. rewrite length_map, length_seq. reflexivity. Qed.

Lemma le_bytes_range (n : nat) (z : Z) : Forall (fun b => 0 <= b < 256) (le_bytes n z).
Proof.
  unfold le_bytes. apply Forall_map, Forall_forall. intros k _.
  apply Z.mod_pos_bound. lia.
Qed.

Lemma md5_digest_length (msg : list byte) : length (md5_digest msg) = 16%nat.
Proof.
  unfold md5_digest. cbv zeta. rewrite !length_app, !le_bytes_length. reflexivity.
Qed.

Lemma md5_digest_range (msg : list byte) : Forall (fun b => 0 <= b < 256) (md5_digest msg).
Proof.
  unfold md5_digest. cbv zeta. repeat (apply Forall_app; split); apply le_bytes_range.
Qed.

Lemma hex_digit_is_hex (z : Z) : 0 <= z < 16 -> is_hex (hex_digit z).
Proof.
  intros Hz. unfold hex_digit, is_hex. destruct (Z.ltb_spec z 10); [left | right]; lia.
Qed.

Lemma md5_hexdigest_shape (msg : list byte) :
  length (md5_hexdigest msg) = 32%nat /\ Forall is_hex (md5_hexdigest msg).
Proof.
  unfold md5_hexdigest. split.
  - rewrite (flat_map_constant_length (c := 2)); [rewrite md5_digest_length; reflexivity|].
    intros; reflexivity.
  - pose proof (md5_digest_range msg) as Hr.
    induction Hr as [ | b l Hb Hl IH ]; cbn [flat_map]; [constructor|].
    constructor; [apply hex_digit_is_hex, Z.mod_pos_bound; lia|].
    constructor; [apply hex_digit_is_hex, Z.mod_pos_bound; lia|].
    exact IH.
Qed.

Lemma generate_poem_id_shape (time24 content id : pystr) :
  generate_poem_id time24 content = Ok id ->
  length id = 8%nat /\ Forall is_hex id.
Proof.
  unfold generate_poem_id.
  destruct (encode (time24 ++ str "-" ++ content)) as [bs | ]; cbn [bind]; [|discriminate].
  destruct (md5_hexdigest_shape bs) as [Hlen Hhex].
  set (digest := md5_hexdigest bs) in *. clearbody digest.
  intros H. assert (E : id = firstn 8 digest) by congruence. subst id. split.
  - apply firstn_length_le. rewrite Hlen. lia.
  - apply Forall_firstn, Hhex.
Qed.

Lemma format_poem_ok (label : pystr) (it : item) (resp : compose_response) :
  format_poem label it = Ok resp ->
  time24 resp = label /\
  poem resp = label ++ str " " ++ [em_dash] ++ str " " ++ replace en_dash (str "-") (content it) /\
  generate_poem_id label (poem resp) = Ok (poemId resp) /\
  preferredFont resp = str "INTER" /\ screensaver resp = false.
Proof.
  unfold format_poem.
  set (text := label ++ str " " ++ [em_dash] ++ str " " ++ replace en_dash (str "-") (content it)).
  destruct (generate_poem_id label text) as [id | ] eqn:E; cbn [bind]; [|discriminate].
  intros H.
  assert (Er : resp = {| poemId := id; time24 := label; poem := text;
                         preferredFont := str "INTER"; screensaver := false |})
    by congruence.
  subst resp. cbn [time24 poem poemId preferredFont screensaver].
  repeat split. exact E.
Qed.

Lemma format_poem_total (label : pystr) (it : item) :
  Forall plain label -> encodable (content it) ->
  exists resp, format_poem label it = Ok resp.
Proof.
  intros Hl Hc. unfold format_poem, generate_poem_id.
  assert (Hs : Forall (fun c => scalar c = true) label)
    by (eapply Forall_impl; [|exact Hl]; intros c [H _]; exact H).
  assert (He : is_ok (encode (label ++ str "-" ++ label ++ str " " ++ [em_dash] ++ str " "
                                ++ replace en_dash (str "-") (content it))) = true).
  { apply encode_ok. unfold encodable in Hc. apply encode_ok in Hc.
    repeat (apply Forall_app; split); try assumption;
      try (repeat constructor).
    eapply Forall_impl; [|apply replace_en_dash_plain, Hc]. intros c [H _]; exact H. }
  destruct (encode _) as [bs | ]; [|discriminate He].
  cbn [bind]. eexists. reflexivity.
Qed.

Section Compose.
Variable ITEMS : list item.
Variable wall_clock : nat -> datetime.
Variable fromisoformat : pystr -> result datetime.

Lemma compose_steps (req : request) (w : world) :
  compose ITEMS wall_clock fromisoformat req w =
    ('(label, minute, w') <- resolve_time wall_clock fromisoformat (request_body req) w ;;
     schedule <- fst (generate_daily_schedule ITEMS wall_clock w') ;;
     current_item <- getitem schedule minute ;;
     response <- format_poem label current_item ;;
     Ok (Status200 response)).
Proof.
  unfold compose. cbn [REQUIRE_AUTH andb].
  destruct (resolve_time wall_clock fromisoformat (request_body req) w)
    as [[[label minute] w'] | ]; cbn [bind]; [|reflexivity].
  destruct (generate_daily_schedule ITEMS wall_clock w') as [generated w'']. reflexivity.
Qed.

Lemma compose_ok (req : request) (w : world) (resp : compose_response) :
  compose ITEMS wall_clock fromisoformat req w = Ok (Status200 resp) ->
  exists (body : json) (minute : Z) (w' : world) (schedule : list item) (it : item),
    body = request_body req /\
    resolve_time wall_clock fromisoformat body w = Ok (time24 resp, minute, w') /\
    fst (generate_daily_schedule ITEMS wall_clock w') = Ok schedule /\
    getitem schedule minute = Ok it /\
    format_poem (time24 resp) it = Ok resp.
Proof.
  unfold compose. cbn [REQUIRE_AUTH andb].
  set (body := request_body req).
  destruct (resolve_time wall_clock fromisoformat body w) as [[[label minute] w'] | ] eqn:Er;
    cbn [bind]; [|discriminate].
  destruct (generate_daily_schedule ITEMS wall_clock w') as [generated w''] eqn:Eg.
  destruct generated as [schedule | ]; cbn [bind]; [|discriminate].
  destruct (getitem schedule minute) as [it | ] eqn:Ei; cbn [bind]; [|discriminate].
  destruct (format_poem label it) as [r | ] eqn:Ef; cbn [bind]; [|discriminate].
  intros H. injection H as <-.
  destruct (format_poem_ok label it r Ef) as (Et & _).
  exists body, minute, w', schedule, it. rewrite Et, Eg.
  repeat split; assumption.
Qed.
End Compose.


(** ** The bytes that are hashed *)

Lemma cons_eq {A : Type} (x y : A) (l l' : list A) : x :: l = y :: l' -> x = y /\ l = l'.
Proof. intros H. injection H. auto. Qed.

Lemma encode_char_prefix (c c' : char) (b b' r r' : list byte) :
  encode_char c = Ok b -> encode_char c' = Ok b' ->
  b ++ r = b' ++ r' -> c = c' /\ r = r'.
Proof.
  unfold encode_char. cbv zeta.
  pose proof (N2Z.is_nonneg c) as Hc. pose proof (N2Z.is_nonneg c') as Hc'.
  intros E E' H.
  assert (Hz : Z.of_N c = Z.of_N c' /\ r = r'); [|split; [apply N2Z.inj|]; tauto].
  set (z := Z.of_N c) in *. set (z' := Z.of_N c') in *. clearbody z z'.
  destruct (Z.ltb_spec z 0x80);
    [|destruct (Z.ltb_spec z 0x800);
      [|destruct ((0xD800 <=? z) && (z <=? 0xDFFF)); [discriminate|];
        destruct (Z.ltb_spec z 0x10000);
        [|destruct (Z.ltb_spec z 0x110000); [|discriminate]]]];
    (destruct (Z.ltb_spec z' 0x80);
     [|destruct (Z.ltb_spec z' 0x800);
       [|destruct ((0xD800 <=? z') && (z' <=? 0xDFFF)); [discriminate|];
         destruct (Z.ltb_spec z' 0x10000);
         [|destruct (Z.ltb_spec z' 0x110000); [|discriminate]]]]);
    apply (f_equal (fun x => match x with Ok l => l | Raise _ => [] end)) in E, E';
    subst b b'; cbn [app] in H;
    repeat match type of H with
           | _ :: _ = _ :: _ => apply cons_eq in H; destruct H as [? H]
           end;
    first [ split; [Z.div_mod_to_equations; lia | exact H]
          | exfalso; Z.div_mod_to_equations; lia ].
Qed.

Lemma encode_char_range (c : char) (b : list byte) :
  encode_char c = Ok b -> b <> [] /\ Forall (fun x => 0 <= x < 256) b.
Proof.
  unfold encode_char. cbv zeta.
  pose proof (N2Z.is_nonneg c) as Hc. set (z := Z.of_N c) in *. clearbody z.
  destruct (Z.ltb_spec z 0x80);
    [|destruct (Z.ltb_spec z 0x800);
      [|destruct ((0xD800 <=? z) && (z <=? 0xDFFF)); [discriminate|];
        destruct (Z.ltb_spec z 0x10000);
        [|destruct (Z.ltb_spec z 0x110000); [|discriminate]]]];
    intros E; apply (f_equal (fun x => match x with Ok l => l | Raise _ => [] end)) in E;
    subst b; (split; [discriminate|]);
    repeat (apply Forall_cons; [Z.div_mod_to_equations; lia|]); apply Forall_nil.
Qed.

Lemma encode_range (s : pystr) : forall bs : list byte,
  encode s = Ok bs -> Forall (fun x => 0 <= x < 256) bs.
Proof.
  induction s as [ | c t IH ]; intros bs; cbn [encode].
  - intros E. injection E as <-. constructor.
  - destruct (encode_char c) as [b | ] eqn:Ec; cbn [bind]; [|discriminate].
    destruct (encode t) as [bt | ]; cbn [bind]; [|discriminate].
    intros E. injection E as <-. apply Forall_app. split.
    + apply (encode_char_range c b Ec).
    + apply IH. reflexivity.
Qed.

(** UTF-8 is a faithful representation: the bytes determine the string. *)
Lemma encode_inj (s1 : pystr) : forall (s2 : pystr) (bs : list byte),
  encode s1 = Ok bs -> encode s2 = Ok bs -> s1 = s2.
Proof.
  induction s1 as [ | c t IH ]; intros s2 bs; cbn [encode].
  - intros E. injection E as <-. destruct s2 as [ | c' t' ]; [reflexivity|].
    cbn [encode].
    destruct (encode_char c') as [b' | ] eqn:Ec'; cbn [bind]; [|discriminate].
    destruct (encode t') as [bt' | ]; cbn [bind]; [|discriminate].
    intros E. injection E as E. exfalso.
    destruct (encode_char_range c' b' Ec') as [Hne _].
    destruct b'; [congruence | discriminate].
  - destruct (encode_char c) as [b | ] eqn:Ec; cbn [bind]; [|discriminate].
    destruct (encode t) as [bt | ] eqn:Et; cbn [bind]; [|discriminate].
    intros E. injection E as <-.
    destruct s2 as [ | c' t' ]; cbn [encode].
    + intros E. injection E as E. exfalso.
      destruct (encode_char_range c b Ec) as [Hne _].
      destruct b; [congruence | discriminate].
    + destruct (encode_char c') as [b' | ] eqn:Ec'; cbn [bind]; [|discriminate].
      destruct (encode t') as [bt' | ] eqn:Et'; cbn [bind]; [|discriminate].
      intros E. injection E as E.
      destruct (encode_char_prefix c' c b' b bt' bt Ec' Ec E) as [-> ->].
      f_equal. apply (IH t' bt); [reflexivity | exact Et'].
Qed.

Lemma firstn_flat_map_pairs {A B : Type} (f : A -> list B) (k : nat) : forall l : list A,
  (forall x, length (f x) = 2%nat) ->
  firstn (2 * k) (flat_map f l) = flat_map f (firstn k l).
Proof.
  induction k as [ | k IH ]; intros l Hf; [reflexivity|].
  destruct l as [ | x t ]; [reflexivity|].
  cbn [flat_map firstn]. specialize (Hf x) as Hx.
  destruct (f x) as [ | u [ | v [ | ? ? ] ] ]; try discriminate.
  replace (2 * S k)%nat with (S (S (2 * k))) by lia.
  cbn [app firstn]. rewrite IH by assumption. reflexivity.
Qed.

(** C9.  The identifier is the first 8 characters of the MD5 hex digest,
    that is the first four digest bytes in lower-case hex, of the UTF-8
    bytes of "{time24}-{poem}", and these bytes determine the concatenated
    text.  The digest is the one of RFC 1321 (its test suite) and the
    identifiers are those CPython computes, for labels and texts with one-
    to four-byte characters and for a message longer than one block.
    [compose] derives the identifier from the label and the poem it
    returns, so two responses with the same label and poem, on whatever day
    and from whatever pool, carry the same identifier; the identifier
    depends on the pair only through the concatenation. *)
Theorem C9_poem_identifier :
  (forall time24 content id : pystr,
     generate_poem_id time24 content = Ok id ->
     exists bs : list byte,
       encode (time24 ++ str "-" ++ content) = Ok bs /\
       Forall (fun b => 0 <= b < 256) bs /\
       (forall s : pystr, encode s = Ok bs -> s = time24 ++ str "-" ++ content) /\
       id = firstn 8 (md5_hexdigest bs) /\
       id = flat_map (fun b => [hex_digit ((b / 16) mod 16); hex_digit (b mod 16)])
                     (firstn 4 (md5_digest bs)) /\
       length id = 8%nat /\ Forall is_hex id) /\
  map (fun s => bs <- encode s ;; Ok (md5_hexdigest bs))
      [ [];
        str "a";
        str "abc";
        str "message digest";
        str "abcdefghijklmnopqrstuvwxyz";
        str "ABCDEFGHIJKLMNOPQRSTUVWXYZabcdefghijklmnopqrstuvwxyz0123456789";
        str "12345678901234567890123456789012345678901234567890123456789012345678901234567890" ]
  = map Ok
      [ str "d41d8cd98f00b204e9800998ecf8427e";
        str "0cc175b9c0f1b6a831c399e269772661";
        str "900150983cd24fb0d6963f7d28e17f72";
        str "f96b697d7cb7938d525a2f31aaf161d0";
        str "c3fcd3d76192e4007dfb496cca67e13b";
        str "d174ab98d277d9f5a5611c2c9f419d9f";
        str "57edf4a22be3c955ac49da2e2107b67a" ] /\
  map (fun tc => generate_poem_id (fst tc) (snd tc))
      [ (str "12:34", str "12:34 " ++ [em_dash] ++ str " hello");
        (str "12:35", str "12:34 " ++ [em_dash] ++ str " hello");
        (str "12:34", str "12:34 " ++ [em_dash] ++ str " hellp");
        (str "09:05", str "09:05 " ++ [em_dash] ++ str " caf" ++ [0xE9; 32; 0x1F600]%N);
        (str "23:59", str "23:59 " ++ [em_dash]
           ++ str " The quick brown fox jumps over the lazy dog, twice over and again.");
        ([], []) ]
  = map Ok
      [ str "3dbab3b4"; str "9b62ce49"; str "a8ef9082"; str "88ceb4ff";
        str "ad17b64c"; str "336d5ebc" ] /\
  compose sample_pool sample_clock no_instant (sample_request (str "00:07")) 0%nat
  = Ok (Status200 {| poemId := str "ea1d2c7f"; time24 := str "00:07";
                     poem := str "00:07 " ++ [em_dash] ++ str " line 2-end";
                     preferredFont := str "INTER"; screensaver := false |}) /\
  (forall (P : list item) (clock : nat -> datetime) (iso : pystr -> result datetime)
          (req : request) (w : world) (resp : compose_response),
     compose P clock iso req w = Ok (Status200 resp) ->
     generate_poem_id (time24 resp) (poem resp) = Ok (poemId resp)) /\
  (forall (P1 P2 : list item) (clock1 clock2 : nat -> datetime)
          (iso1 iso2 : pystr -> result datetime) (req1 req2 : request) (w1 w2 : world)
          (r1 r2 : compose_response),
     compose P1 clock1 iso1 req1 w1 = Ok (Status200 r1) ->
     compose P2 clock2 iso2 req2 w2 = Ok (Status200 r2) ->
     time24 r1 = time24 r2 -> poem r1 = poem r2 -> poemId r1 = poemId r2) /\
  (forall t1 c1 t2 c2 : pystr,
     t1 ++ str "-" ++ c1 = t2 ++ str "-" ++ c2 ->
     generate_poem_id t1 c1 = generate_poem_id t2 c2).
Proof.
  assert (Hwire : forall P clock iso req w resp,
             compose P clock iso req w = Ok (Status200 resp) ->
             generate_poem_id (time24 resp) (poem resp) = Ok (poemId resp)).
  { intros P clock iso req w resp E.
    destruct (compose_ok P clock iso req w resp E) as (_ & _ & _ & _ & it & _ & _ & _ & _ & Ef).
    destruct (format_poem_ok _ it resp Ef) as (_ & _ & Eid & _). exact Eid. }
  split; [|split; [|split; [|split; [|split; [|split]]]]].
  - intros time24 content id E.
    destruct (generate_poem_id_shape _ _ _ E) as [Hlen Hhex].
    unfold generate_poem_id in E. cbv zeta in E.
    destruct (encode (time24 ++ str "-" ++ content)) as [bs | ] eqn:Eb;
      cbn [bind] in E; [|discriminate].
    assert (Eid : id = firstn 8 (md5_hexdigest bs)) by congruence.
    exists bs. split; [reflexivity|].
    split; [exact (encode_range _ bs Eb)|].
    split; [intros s Es; exact (encode_inj s _ bs Es Eb)|].
    split; [exact Eid|]. split; [|split; assumption].
    rewrite Eid. unfold md5_hexdigest.
    change 8%nat with (2 * 4)%nat.
    apply firstn_flat_map_pairs. intros x. reflexivity.
  - vm_compute. reflexivity.
  - vm_compute. reflexivity.
  - vm_compute. reflexivity.
  - exact Hwire.
  - intros P1 P2 clock1 clock2 iso1 iso2 req1 req2 w1 w2 r1 r2 E1 E2 Et Ep.
    pose proof (Hwire _ _ _ _ _ _ E1) as H1. pose proof (Hwire _ _ _ _ _ _ E2) as H2.
    rewrite Et, Ep in H1. congruence.
  - intros t1 c1 t2 c2 E. unfold generate_poem_id. cbv zeta. rewrite E. reflexivity.
Qed.

(** ** The per-minute endpoint *)

(** C7.  For a minute in 0..1439 the guard of the per-minute endpoint lets
    the request through, and the lookup [schedule[m]] is in bounds exactly
    when [m < 3 * len(pool)]: a minute from [3 * len(pool)] on raises
    [IndexError], in the per-minute endpoint and in [compose] alike. *)
Theorem C7_minute_lookup_bounds
  (P : list item) (clock : nat -> datetime) (w : world) (m : Z) :
  3 * len P <= PY_SSIZE_T_MAX ->
  0 <= m <= 1439 ->
  exists schedule : list item,
    fst (generate_daily_schedule P clock w) = Ok schedule /\
    len schedule = 3 * len P /\
    (is_ok (getitem schedule m) = true <-> m < 3 * len P) /\
    (3 * len P <= m -> clock_at_minute P clock m w = Raise IndexError) /\
    (forall iso req label w',
       resolve_time clock iso (request_body req) w = Ok (label, m, w') ->
       3 * len P <= m -> compose P clock iso req w = Raise IndexError) /\
    (m < 3 * len P ->
     exists it : item,
       getitem schedule m = Ok it /\
       clock_at_minute P clock m w =
         Ok (Status200 {| time := format_02d (m / 60) ++ str ":" ++ format_02d (m mod 60);
                          r_content := content it; r_card := card it;
                          r_minute := m; total_minutes := 1440 |})).
Proof.
  intros Hmax Hm.
  pose proof (generate_daily_schedule_spec P clock w Hmax) as Hgen.
  set (schedule := Spec.buildSchedule P (strftime_Ymd_int (clock w))) in *.
  assert (Hlen : len schedule = 3 * len P).
  { unfold len, schedule. rewrite buildSchedule_length. lia. }
  assert (Hguard : ((m <? 0) || (m >=? 1440)) = false).
  { apply orb_false_iff. split; [apply Z.ltb_ge | rewrite Z.geb_leb; apply Z.leb_gt]; lia. }
  exists schedule. split; [rewrite Hgen; reflexivity|]. split; [exact Hlen|].
  split; [|split; [|split]].
  - split.
    + intros Hok. destruct (Z.ltb_spec m (3 * len P)) as [ | Hge]; [assumption|].
      rewrite getitem_out_of_range in Hok by lia. discriminate.
    + intros Hlt. destruct (getitem_in_range schedule m) as (it & _ & ->); [lia | reflexivity].
  - intros Hge. unfold clock_at_minute. rewrite Hguard, Hgen. cbn [bind].
    rewrite getitem_out_of_range by lia. reflexivity.
  - intros iso req label w' Er Hge. rewrite compose_steps, Er. cbn [bind].
    rewrite (generate_daily_schedule_spec P clock w' Hmax). cbn [fst bind].
    rewrite getitem_out_of_range; [reflexivity|].
    unfold len. rewrite buildSchedule_length. unfold len in Hge. lia.
  - intros Hlt. destruct (getitem_in_range schedule m) as (it & _ & Eit); [lia|].
    exists it. split; [exact Eit|].
    unfold clock_at_minute. rewrite Hguard, Hgen. cbn [bind].
    rewrite Eit. reflexivity.
Qed.

(** ** Negative minutes *)

(** C10.  When the explicit time string reads as two integers whose total
    [m = H*60+M] is negative and no larger in size than the schedule, the
    lookup does not raise: [schedule[m]] is the entry at position
    [len(schedule) + m], and [compose] answers with the poem of that entry
    (it answers 200 whenever the text of the entry can be encoded). *)
Theorem C10_negative_minute_wraps
  (P : list item) (clock : nat -> datetime) (iso : pystr -> result datetime)
  (req : request) (w : world) (label a b : pystr) (H M : Z) :
  3 * len P <= PY_SSIZE_T_MAX ->
  py_in (str "time24") (request_body req) = Ok true ->
  subscript (request_body req) (str "time24") = Ok (JStr label) ->
  split 58%N label = [a; b] -> int a = Ok H -> int b = Ok M ->
  H * 60 + M < 0 -> - (H * 60 + M) <= 3 * len P ->
  exists (schedule : list item) (it : item),
    fst (generate_daily_schedule P clock w) = Ok schedule /\
    nth_error schedule (Z.to_nat (len schedule + (H * 60 + M))) = Some it /\
    getitem schedule (H * 60 + M) = Ok it /\
    compose P clock iso req w = (resp <- format_poem label it ;; Ok (Status200 resp)) /\
    (encodable (content it) ->
     exists resp : compose_response,
       format_poem label it = Ok resp /\
       compose P clock iso req w = Ok (Status200 resp)).
Proof.
  intros Hmax Hin Hsub Hsplit Ha Hb Hneg Hsize.
  pose proof (generate_daily_schedule_spec P clock w Hmax) as Hgen.
  set (schedule := Spec.buildSchedule P (strftime_Ymd_int (clock w))) in *.
  assert (Hlen : len schedule = 3 * len P).
  { unfold len, schedule. rewrite buildSchedule_length. lia. }
  assert (Et : explicit_time label = Ok (label, H * 60 + M)).
  { apply explicit_time_ok. split; [reflexivity|]. exists a, b, H, M. auto. }
  destruct (getitem_from_end schedule (H * 60 + M)) as (it & Hnth & Hget); [lia|].
  assert (Hcompose : compose P clock iso req w =
                       (resp <- format_poem label it ;; Ok (Status200 resp))).
  { rewrite compose_steps.
    rewrite (resolve_time_explicit clock iso _ label w Hin Hsub), Et. cbn [bind].
    rewrite Hgen. cbn [fst bind]. rewrite Hget. reflexivity. }
  exists schedule, it.
  split; [rewrite Hgen; reflexivity|]. split; [exact Hnth|]. split; [exact Hget|].
  split; [exact Hcompose|].
  intros Henc. destruct (format_poem_total label it) as (resp & Ef).
  { eapply explicit_time_plain, Et. }
  { exact Henc. }
  exists resp. split; [exact Ef|]. rewrite Hcompose, Ef. reflexivity.
Qed.

(** ** Worked instances *)

Lemma C1_witness :
  fst (get_today_seed sample_clock 0%nat) = 20240101 /\
  fst (get_today_seed sample_clock 5%nat) = 20240101 /\
  fst (generate_daily_schedule sample_pool sample_clock 0%nat) =
    fst (generate_daily_schedule sample_pool sample_clock 5%nat).
Proof.
  split; [reflexivity|]. split; [reflexivity|].
  apply (C1_schedule_deterministic sample_pool 20240101 sample_clock sample_clock 0%nat 5%nat);
    reflexivity.
Defined.

Lemma C2_witness :
  3 * len sample_pool <= PY_SSIZE_T_MAX /\
  exists (schedule : list item) (slots : list nat),
    fst (generate_daily_schedule sample_pool sample_clock 0%nat) = Ok schedule /\
    Permutation schedule (flat_map (fun it => [it; it; it]) sample_pool) /\
    len schedule = 3 * len sample_pool /\
    map Some schedule = map (nth_error sample_pool) slots /\
    (forall k, (k < length sample_pool)%nat -> count_occ Nat.eq_dec slots k = 3%nat) /\
    (forall k, (length sample_pool <= k)%nat -> count_occ Nat.eq_dec slots k = 0%nat).
Proof.
  assert (Hmax : 3 * len sample_pool <= PY_SSIZE_T_MAX) by (vm_compute; discriminate).
  split; [exact Hmax|].
  apply (C2_schedule_is_tripled_pool sample_pool sample_clock 0%nat Hmax).
Defined.

Lemma C3_witness :
  3 * len sample_pool <= PY_SSIZE_T_MAX /\
  fst (generate_daily_schedule sample_pool sample_clock 0%nat) =
    Ok (Spec.buildSchedule sample_pool (fst (get_today_seed sample_clock 0%nat))).
Proof.
  assert (Hmax : 3 * len sample_pool <= PY_SSIZE_T_MAX) by (vm_compute; discriminate).
  split; [exact Hmax|].
  apply (C3_builder_follows_algorithm sample_pool sample_clock 0%nat Hmax).
Defined.

Lemma C5_witness :
  0 <= 12 <= 23 /\ 0 <= 34 <= 59 /\
  explicit_time (format_02d 12 ++ str ":" ++ format_02d 34) =
    Ok (format_02d 12 ++ str ":" ++ format_02d 34, 12 * 60 + 34).
Proof.
  assert (HH : 0 <= 12 <= 23) by lia.
  assert (HM : 0 <= 34 <= 59) by lia.
  split; [exact HH|]. split; [exact HM|].
  apply (C5_valid_label_minute 12 34 HH HM).
Defined.

Lemma C7_witness :
  3 * len sample_pool <= PY_SSIZE_T_MAX /\ 0 <= 720 <= 1439 /\
  clock_at_minute sample_pool sample_clock 720 0%nat = Raise IndexError.
Proof.
  assert (Hmax : 3 * len sample_pool <= PY_SSIZE_T_MAX) by (vm_compute; discriminate).
  assert (Hm : 0 <= 720 <= 1439) by lia.
  split; [exact Hmax|]. split; [exact Hm|].
  destruct (C7_minute_lookup_bounds sample_pool sample_clock 0%nat 720 Hmax Hm)
    as (schedule & _ & _ & _ & Hout & _).
  apply Hout. vm_compute. discriminate.
Defined.

Lemma C10_witness :
  3 * len sample_pool <= PY_SSIZE_T_MAX /\
  py_in (str "time24") (request_body (sample_request (str "-1:30"))) = Ok true /\
  subscript (request_body (sample_request (str "-1:30"))) (str "time24") = Ok (JStr (str "-1:30")) /\
  split 58%N (str "-1:30") = [str "-1"; str "30"] /\
  int (str "-1") = Ok (-1) /\ int (str "30") = Ok 30 /\
  -1 * 60 + 30 < 0 /\ - (-1 * 60 + 30) <= 3 * len sample_pool /\
  exists (schedule : list item) (it : item),
    fst (generate_daily_schedule sample_pool sample_clock 0%nat) = Ok schedule /\
    nth_error schedule (Z.to_nat (len schedule + (-1 * 60 + 30))) = Some it /\
    getitem schedule (-1 * 60 + 30) = Ok it /\
    compose sample_pool sample_clock no_instant (sample_request (str "-1:30")) 0%nat =
      (resp <- format_poem (str "-1:30") it ;; Ok (Status200 resp)) /\
    (encodable (content it) ->
     exists resp : compose_response,
       format_poem (str "-1:30") it = Ok resp /\
       compose sample_pool sample_clock no_instant (sample_request (str "-1:30")) 0%nat =
         Ok (Status200 resp)).
Proof.
  assert (Hmax : 3 * len sample_pool <= PY_SSIZE_T_MAX) by (vm_compute; discriminate).
  assert (Hneg : -1 * 60 + 30 < 0) by lia.
  assert (Hsize : - (-1 * 60 + 30) <= 3 * len sample_pool) by (vm_compute; discriminate).
  split; [exact Hmax|].
  split; [reflexivity|]. split; [reflexivity|].
  split; [reflexivity|]. split; [reflexivity|]. split; [reflexivity|].
  split; [exact Hneg|]. split; [exact Hsize|].
  apply (C10_negative_minute_wraps sample_pool sample_clock no_instant
           (sample_request (str "-1:30")) 0%nat
           (str "-1:30") (str "-1") (str "30") (-1) 30
           Hmax eq_refl eq_refl eq_refl eq_refl eq_refl Hneg Hsize).
Defined.

(** ** Numbers in decimal and the seed of the day *)

Lemma digits_value_app (a b : pystr) (acc : Z) :
  digits_value (a ++ b) acc = digits_value b (digits_value a acc).
Proof. unfold digits_value. apply fold_left_app. Qed.

Lemma ascii_isdigit_range (c : char) :
  ascii_isdigit c = true <-> (48 <= c <= 57)%N.
Proof.
  unfold ascii_isdigit. rewrite andb_true_iff, !N.leb_le. tauto.
Qed.

Lemma digit_to_ascii (ds : pystr) :
  Forall (fun c => ascii_isdigit c = true) ds -> map to_ascii ds = ds.
Proof.
  induction 1 as [ | c t Hc Ht IH ]; [reflexivity|].
  cbn [map]. rewrite IH. f_equal.
  apply ascii_isdigit_range in Hc. unfold to_ascii.
  destruct (N.ltb_spec c 127); [reflexivity | lia].
Qed.

Lemma scan_digits_all (ds : pystr) : forall (prev : bool) (acc count : Z),
  Forall (fun c => ascii_isdigit c = true) ds -> ds <> [] ->
  scan_digits ds prev acc count = Some (digits_value ds acc, count + len ds, []).
Proof.
  induction ds as [ | c t IH ]; intros prev acc count Hall Hne; [congruence|].
  inversion Hall as [ | ? ? Hc Ht ]; subst.
  cbn [scan_digits]. rewrite Hc.
  destruct t as [ | c' t' ].
  - replace (count + len [c]) with (count + 1) by (unfold len; simpl; lia).
    reflexivity.
  - rewrite IH by (assumption || discriminate).
    replace (count + len (c :: c' :: t')) with (count + 1 + len (c' :: t'))
      by (unfold len; cbn [length]; lia).
    reflexivity.
Qed.

(** [int] of a string of at most 640 ASCII digits is the number they
    denote. *)
Lemma int_of_digits (ds : pystr) :
  Forall (fun c => ascii_isdigit c = true) ds -> ds <> [] ->
  len ds <= str_digits_check_threshold ->
  int ds = Ok (digits_value ds 0).
Proof.
  intros Hall Hne Hlen. unfold int. rewrite digit_to_ascii by assumption.
  destruct ds as [ | c t ]; [congruence|].
  inversion Hall as [ | ? ? Hc Ht ]; subst.
  pose proof (proj1 (ascii_isdigit_range c) Hc) as Hr.
  assert (Hsp : ascii_isspace c = false).
  { unfold ascii_isspace. apply orb_false_iff. split.
    - apply andb_false_iff. right. apply N.leb_gt. lia.
    - apply N.eqb_neq. lia. }
  cbn [skip_space]. rewrite Hsp. cbn [strip_sign].
  destruct (N.eqb_spec c 43); [lia|]. destruct (N.eqb_spec c 45); [lia|].
  cbn [starts_with]. destruct (N.eqb_spec 95 c); [lia|]. cbn [andb].
  rewrite scan_digits_all by (assumption || discriminate).
  assert (Hpos : 0 < len (c :: t)) by (unfold len; cbn [length]; lia).
  destruct (Z.eqb_spec (0 + len (c :: t)) 0); [lia|].
  destruct (Z.ltb_spec str_digits_check_threshold (0 + len (c :: t))); [lia|].
  reflexivity.
Qed.

Lemma dec_digits_value (fuel : nat) : forall (z : Z) (acc : pystr),
  (1 <= fuel)%nat -> 0 <= z < 10 ^ Z.of_nat fuel ->
  exists ds : pystr,
    dec_digits fuel z acc = ds ++ acc /\ ds <> [] /\
    Forall (fun c => ascii_isdigit c = true) ds /\
    digits_value ds 0 = z /\ (length ds <= fuel)%nat.
Proof.
  induction fuel as [ | fuel IH ]; intros z acc Hfuel Hz; [lia|].
  cbn [dec_digits].
  pose proof (Z.mod_pos_bound z 10 ltac:(lia)) as Hm.
  assert (Hd : ascii_isdigit (Z.to_N (48 + z mod 10)) = true)
    by (apply ascii_isdigit_range; lia).
  assert (Hv : Z.of_N (Z.to_N (48 + z mod 10)) - 48 = z mod 10) by lia.
  destruct (Z.eqb_spec (z / 10) 0) as [Hq | Hq].
  - exists [Z.to_N (48 + z mod 10)]. split; [reflexivity|]. split; [discriminate|].
    split; [repeat constructor; exact Hd|]. split; [|simpl; lia].
    unfold digits_value. cbn [fold_left]. rewrite Hv.
    pose proof (Z.div_mod z 10 ltac:(lia)). lia.
  - assert (Hq' : 0 <= z / 10 < 10 ^ Z.of_nat fuel).
    { split; [apply Z.div_pos; lia|].
      apply Z.div_lt_upper_bound; [lia|].
      rewrite Nat2Z.inj_succ, Z.pow_succ_r in Hz by lia. lia. }
    assert (Hf : (1 <= fuel)%nat).
    { destruct fuel; [|lia]. simpl in Hq'. lia. }
    destruct (IH (z / 10) (Z.to_N (48 + z mod 10) :: acc) Hf Hq')
      as (ds & E & Hne & Hall & Hval & Hlen).
    exists (ds ++ [Z.to_N (48 + z mod 10)]).
    split; [rewrite E, <- app_assoc; reflexivity|].
    split; [destruct ds; discriminate|].
    split; [apply Forall_app; split; [assumption | repeat constructor; exact Hd]|].
    split.
    + rewrite digits_value_app, Hval. unfold digits_value. cbn [fold_left].
      rewrite Hv. pose proof (Z.div_mod z 10 ltac:(lia)). lia.
    + rewrite length_app. simpl. lia.
Qed.

Lemma decimal_value (z : Z) :
  0 <= z ->
  decimal z <> [] /\ Forall (fun c => ascii_isdigit c = true) (decimal z) /\
  digits_value (decimal z) 0 = z /\
  (length (decimal z) <= S (Z.to_nat (Z.log2 z)))%nat.
Proof.
  intros Hz. unfold decimal.
  destruct (dec_digits_value (S (Z.to_nat (Z.log2 z))) z []) as (ds & E & Hne & Hall & Hv & Hl).
  - lia.
  - split; [assumption|].
    destruct (Z.eq_dec z 0) as [-> | Hnz]; [simpl; lia|].
    pose proof (Z.log2_spec z ltac:(lia)) as [_ Hlog].
    pose proof (Z.log2_nonneg z).
    rewrite Nat2Z.inj_succ, Z2Nat.id by assumption.
    eapply Z.lt_le_trans; [exact Hlog|].
    apply Z.pow_le_mono_l. lia.
  - rewrite E, app_nil_r. auto.
Qed.

Lemma format_02d_two_digits (h : Z) :
  0 <= h < 100 ->
  exists a b : char,
    format_02d h = [a; b] /\ ascii_isdigit a = true /\ ascii_isdigit b = true /\
    10 * (Z.of_N a - 48) + (Z.of_N b - 48) = h.
Proof.
  intros Hh.
  assert (Hall : forallb two_digits (map Z.of_nat (seq 0 100)) = true)
    by (vm_compute; reflexivity).
  pose proof (Z_range_forallb _ _ Hall h ltac:(lia)) as Hb.
  unfold two_digits in Hb.
  destruct (format_02d h) as [ | a [ | b [ | c t ] ] ]; try discriminate.
  apply andb_prop in Hb. destruct Hb as [Hb Hv].
  apply andb_prop in Hb. destruct Hb as [Ha Hb].
  apply Z.eqb_eq in Hv. exists a, b. auto.
Qed.

Lemma strftime_Ymd_value (now : datetime) :
  calendar_date now -> int (strftime_Ymd now) = Ok (strftime_Ymd_int now).
Proof.
  intros (Hy & Hm & Hd). unfold strftime_Ymd, strftime_Ymd_int.
  destruct (decimal_value (year now) ltac:(lia)) as (Hne & Hall & Hv & Hl).
  destruct (format_02d_two_digits (month now) ltac:(lia)) as (a & b & -> & Ha & Hb & Hmv).
  destruct (format_02d_two_digits (day now) ltac:(lia)) as (c & d & -> & Hc & Hdd & Hdv).
  rewrite int_of_digits.
  - f_equal. rewrite !digits_value_app, Hv. unfold digits_value. cbn [fold_left]. lia.
  - apply Forall_app. split; [exact Hall|]. repeat constructor; assumption.
  - destruct (decimal (year now)); [congruence | discriminate].
  - unfold len. rewrite !length_app. cbn [length].
    assert (Z.log2 (year now) <= Z.log2 9999) by (apply Z.log2_le_mono; lia).
    change (Z.log2 9999) with 13 in *.
    pose proof (Z.log2_nonneg (year now)).
    unfold str_digits_check_threshold. lia.
Qed.

(** X1.  On a calendar date the seed read from the text of
    [strftime('%Y%m%d')] is [year*10000 + month*100 + day], and two dates
    share a seed only when they are the same date. *)
Theorem X1_seed_is_date_number (clock : nat -> datetime) (w : world) :
  calendar_date (clock w) ->
  get_today_seed_text (clock w) = Ok (fst (get_today_seed clock w)) /\
  fst (get_today_seed clock w) =
    year (clock w) * 10000 + month (clock w) * 100 + day (clock w) /\
  forall (clock' : nat -> datetime) (w' : world),
    calendar_date (clock' w') ->
    fst (get_today_seed clock' w') = fst (get_today_seed clock w) ->
    year (clock' w') = year (clock w) /\ month (clock' w') = month (clock w) /\
    day (clock' w') = day (clock w).
Proof.
  intros Hd. unfold get_today_seed_text, get_today_seed, datetime_now. cbn [fst].
  split; [apply strftime_Ymd_value, Hd|]. split; [reflexivity|].
  intros clock' w' Hd' E. unfold strftime_Ymd_int in E.
  destruct Hd as (? & ? & ?), Hd' as (? & ? & ?). lia.
Qed.

Lemma X1_witness :
  calendar_date (sample_clock 0%nat) /\
  get_today_seed_text (sample_clock 0%nat) = Ok (fst (get_today_seed sample_clock 0%nat)).
Proof.
  assert (Hd : calendar_date (sample_clock 0%nat)) by (unfold calendar_date; simpl; lia).
  split; [exact Hd|].
  apply (X1_seed_is_date_number sample_clock 0%nat Hd).
Defined.

(** ** Seeds that differ by a multiple of the modulus *)

Lemma next_congruent (s1 s2 : Z) :
  s1 mod 233280 = s2 mod 233280 ->
  next {| seed := s1 |} = next {| seed := s2 |}.
Proof.
  intros E. unfold next. cbn [seed].
  replace ((s1 * 9301 + 49297) mod 233280) with ((s2 * 9301 + 49297) mod 233280);
    [reflexivity|].
  rewrite (Z.add_mod (s2 * 9301)), (Z.add_mod (s1 * 9301)) by lia.
  rewrite (Z.mul_mod s2), (Z.mul_mod s1) by lia.
  rewrite E. reflexivity.
Qed.

(** X2.  The shuffle depends on the seed only through its remainder modulo
    233280: two seeds with the same remainder give the same result. *)
Theorem X2_seed_matters_modulo_233280 {A : Type} (array : list A) (s1 s2 : Z) :
  s1 mod 233280 = s2 mod 233280 ->
  shuffle_with_seed array s1 = shuffle_with_seed array s2.
Proof.
  intros E. unfold shuffle_with_seed.
  destruct (range_down (len array - 1) 0) as [ | i rest ]; [reflexivity|].
  cbn [for_each]. unfold shuffle_step at 1 3.
  rewrite (next_congruent s1 s2 E). reflexivity.
Qed.

Lemma X2_witness :
  20240101 mod 233280 = (20240101 + 233280) mod 233280 /\
  shuffle_with_seed sample_pool 20240101 = shuffle_with_seed sample_pool (20240101 + 233280).
Proof.
  assert (E : 20240101 mod 233280 = (20240101 + 233280) mod 233280) by reflexivity.
  split; [exact E|].
  apply (X2_seed_matters_modulo_233280 sample_pool 20240101 (20240101 + 233280) E).
Defined.

(** ** What [compose] answers *)

Lemma getitem_In {A : Type} (l : list A) (z : Z) (x : A) :
  getitem l z = Ok x -> In x l.
Proof.
  unfold getitem. destruct (index l z) as [k | ]; cbn [bind]; [|discriminate].
  destruct (nth_error l k) as [y | ] eqn:E; [|discriminate].
  intros H. injection H as <-. eapply nth_error_In, E.
Qed.

Lemma getitem_nil {A : Type} (z : Z) : getitem (@nil A) z = Raise IndexError.
Proof.
  unfold getitem, index, len. cbn [length Z.of_nat].
  set (k := if z <? 0 then z + 0 else z).
  destruct (Z.ltb_spec k 0); [reflexivity|].
  destruct (Z.leb_spec 0 k); [reflexivity | lia].
Qed.

Lemma shuffle_with_seed_members {A : Type} (l l' : list A) (s : Z) (x : A) :
  len l <= PY_SSIZE_T_MAX -> shuffle_with_seed l s = Ok l' -> In x l' -> In x l.
Proof.
  intros Hmax E Hin. rewrite shuffle_with_seed_spec in E by assumption.
  injection E as <-. eapply Permutation_in; [apply fisher_yates_perm | exact Hin].
Qed.

Lemma working_sequence_In {A : Type} (pool : list A) (x : A) :
  In x (Spec.working_sequence pool) <-> In x pool.
Proof.
  unfold Spec.working_sequence. rewrite in_flat_map. split.
  - intros (y & Hy & Hin). cbn in Hin. destruct Hin as [<- | [<- | [<- | []]]]; exact Hy.
  - intros Hin. exists x. split; [exact Hin | left; reflexivity].
Qed.

Lemma encode_raises (s : pystr) (e : exn) : encode s = Raise e -> e = UnicodeEncodeError.
Proof.
  induction s as [ | c t IH ]; cbn [encode]; [discriminate|].
  destruct (encode_char c) as [b | e'] eqn:Ec; cbn [bind].
  - destruct (encode t) as [bs | e'']; cbn [bind]; [discriminate|].
    intros H. injection H as <-. apply IH. reflexivity.
  - intros H. injection H as <-. unfold encode_char in Ec.
    repeat match type of Ec with
           | (if ?b then _ else _) = _ => destruct b; try discriminate
           end; congruence.
Qed.

Lemma generate_poem_id_outcome (label text : pystr) :
  (Forall (fun c => scalar c = true) (label ++ text) ->
   exists id, generate_poem_id label text = Ok id) /\
  (~ Forall (fun c => scalar c = true) (label ++ text) ->
   generate_poem_id label text = Raise UnicodeEncodeError).
Proof.
  unfold generate_poem_id.
  assert (Hiff : is_ok (encode (label ++ str "-" ++ text)) = true <->
                 Forall (fun c => scalar c = true) (label ++ text)).
  { rewrite encode_ok, !Forall_app. change (str "-") with [45%N].
    rewrite Forall_cons_iff. intuition (try reflexivity; try constructor). }
  destruct (encode (label ++ str "-" ++ text)) as [bs | e] eqn:E; cbn [bind].
  - split; [intros _; eexists; reflexivity|].
    intros Hn. exfalso. apply Hn, Hiff. reflexivity.
  - split.
    + intros Hall. apply Hiff in Hall. discriminate.
    + intros _. f_equal. eapply encode_raises, E.
Qed.

(** X3.  [generate_poem_id] raises [UnicodeEncodeError] exactly when the
    label or the text holds a code point outside the Unicode scalar values
    (a lone surrogate); otherwise it returns eight hex digits, and it
    raises nothing else. *)
Theorem X3_poem_id_outcome (label text : pystr) :
  ((exists id, generate_poem_id label text = Ok id /\
               length id = 8%nat /\ Forall is_hex id) <->
   Forall (fun c => scalar c = true) label /\ Forall (fun c => scalar c = true) text) /\
  (generate_poem_id label text = Raise UnicodeEncodeError <->
   ~ (Forall (fun c => scalar c = true) label /\ Forall (fun c => scalar c = true) text)) /\
  (forall e, generate_poem_id label text = Raise e -> e = UnicodeEncodeError).
Proof.
  destruct (generate_poem_id_outcome label text) as [Hok Hbad].
  rewrite Forall_app in Hok, Hbad.
  assert (Hdec : Forall (fun c => scalar c = true) label /\
                 Forall (fun c => scalar c = true) text \/
                 ~ (Forall (fun c => scalar c = true) label /\
                    Forall (fun c => scalar c = true) text)).
  { destruct (Forall_dec (fun c => scalar c = true)
                (fun c => bool_dec (scalar c) true) label);
      destruct (Forall_dec (fun c => scalar c = true)
                  (fun c => bool_dec (scalar c) true) text); tauto. }
  split; [|split].
  - split.
    + intros (id & E & _). destruct Hdec as [H | H]; [exact H|].
      rewrite (Hbad H) in E. discriminate.
    + intros H. destruct (Hok H) as (id & E). exists id. split; [exact E|].
      eapply generate_poem_id_shape, E.
  - split.
    + intros E H. destruct (Hok H) as (id & E'). congruence.
    + exact Hbad.
  - intros e E. destruct Hdec as [H | H].
    + destruct (Hok H) as (id & E'). congruence.
    + rewrite (Hbad H) in E. congruence.
Qed.

Section ComposeAnswers.
Variable P : list item.
Variable clock : nat -> datetime.
Variable iso : pystr -> result datetime.

Lemma compose_explicit (req : request) (w : world) (label : pystr) (m : Z) :
py_in (str "time24") (request_body req) = Ok true ->
subscript (request_body req) (str "time24") = Ok (JStr label) ->
explicit_time label = Ok (label, m) ->
compose P clock iso req w =
  (schedule <- fst (generate_daily_schedule P clock w) ;;
   current_item <- getitem schedule m ;;
   response <- format_poem label current_item ;;
   Ok (Status200 response)).
Proof.
intros Hin Hsub Et. rewrite compose_steps.
rewrite (resolve_time_explicit clock iso _ label w Hin Hsub), Et. reflexivity.
Qed.
End ComposeAnswers.

(** X4.  With an explicit label that resolves to a minute [m] inside the
    schedule, [compose] answers for the entry at position [m] of today's
    schedule, an item of the pool: status 200 with the label echoed, the
    poem "label — text", font INTER and no screensaver when the text can be
    encoded, and [UnicodeEncodeError] when it cannot. *)
Theorem X4_compose_serves_minute
  (P : list item) (clock : nat -> datetime) (iso : pystr -> result datetime)
  (req : request) (w : world) (label : pystr) (m : Z) :
  3 * len P <= PY_SSIZE_T_MAX ->
  py_in (str "time24") (request_body req) = Ok true ->
  subscript (request_body req) (str "time24") = Ok (JStr label) ->
  explicit_time label = Ok (label, m) ->
  0 <= m < 3 * len P ->
  exists (schedule : list item) (it : item),
    fst (generate_daily_schedule P clock w) = Ok schedule /\
    nth_error schedule (Z.to_nat m) = Some it /\ In it P /\
    (encodable (content it) ->
     exists id : pystr,
       length id = 8%nat /\ Forall is_hex id /\
       compose P clock iso req w =
         Ok (Status200
               {| poemId := id; time24 := label;
                  poem := label ++ str " " ++ [em_dash] ++ str " "
                                ++ replace en_dash (str "-") (content it);
                  preferredFont := str "INTER"; screensaver := false |})) /\
    (~ encodable (content it) -> compose P clock iso req w = Raise UnicodeEncodeError).
Proof.
  intros Hmax Hin Hsub Et Hm.
  pose proof (generate_daily_schedule_spec P clock w Hmax) as Hgen.
  set (schedule := Spec.buildSchedule P (strftime_Ymd_int (clock w))) in *.
  assert (Hlen : len schedule = 3 * len P).
  { unfold len, schedule. rewrite buildSchedule_length. lia. }
  destruct (getitem_in_range schedule m) as (it & Hnth & Hget); [lia|].
  assert (HinP : In it P).
  { apply working_sequence_In.
    eapply Permutation_in; [apply buildSchedule_perm | eapply nth_error_In, Hnth]. }
  pose proof (compose_explicit P clock iso req w label m Hin Hsub Et) as Hc.
  rewrite Hgen in Hc. cbn [fst bind] in Hc. rewrite Hget in Hc. cbn [bind] in Hc.
  exists schedule, it.
  split; [rewrite Hgen; reflexivity|]. split; [exact Hnth|]. split; [exact HinP|].
  split.
  - intros Henc. destruct (format_poem_total label it) as (resp & Ef);
      [eapply explicit_time_plain, Et | exact Henc |].
    destruct (format_poem_ok label it resp Ef) as (Et24 & Ep & Eid & Efont & Escr).
    destruct (generate_poem_id_shape _ _ _ Eid) as [Hl Hh].
    exists (poemId resp). split; [exact Hl|]. split; [exact Hh|].
    rewrite Hc, Ef. cbn [bind]. do 2 f_equal.
    destruct resp as [id t p f s]. cbn in *. subst. reflexivity.
  - intros Hnenc. rewrite Hc. unfold format_poem. cbn zeta.
    set (text := label ++ str " " ++ [em_dash] ++ str " "
                       ++ replace en_dash (str "-") (content it)).
    destruct (generate_poem_id_outcome label text) as [_ Hbad].
    rewrite Hbad; [reflexivity|].
    intros Hall. apply Hnenc. unfold encodable. apply encode_ok.
    unfold text in Hall. rewrite !Forall_app in Hall.
    destruct Hall as (_ & _ & _ & _ & _ & Hrep).
    rewrite replace_en_dash in Hrep. rewrite Forall_map in Hrep.
    eapply Forall_impl; [|exact Hrep]. cbv beta. intros c.
    destruct (N.eqb_spec c en_dash) as [-> | _]; [intros _; reflexivity | auto].
Qed.

(** ** The two lookups agree *)

Lemma minute_label (m : Z) :
  0 <= m <= 1439 ->
  explicit_time (format_02d (m / 60) ++ str ":" ++ format_02d (m mod 60)) =
    Ok (format_02d (m / 60) ++ str ":" ++ format_02d (m mod 60), m).
Proof.
  intros Hm.
  pose proof (Z.mod_pos_bound m 60 ltac:(lia)).
  assert (0 <= m / 60 < 60).
  { split; [apply Z.div_pos; lia | apply Z.div_lt_upper_bound; lia]. }
  rewrite explicit_time_of_label by lia.
  do 2 f_equal. pose proof (Z.div_mod m 60 ltac:(lia)). lia.
Qed.

(** X5.  What the per-minute endpoint answers for minute [m] and what
    [compose] answers for the label of that answer are the same entry: the
    label "HH:MM" of [clock_at_minute] resolves back to [m], and [compose]
    formats the very content and card the per-minute endpoint returned. *)
Theorem X5_minute_endpoint_agrees_with_compose
  (P : list item) (clock : nat -> datetime) (iso : pystr -> result datetime)
  (req : request) (w : world) (m : Z) (r : minute_response) :
  clock_at_minute P clock m w = Ok (Status200 r) ->
  py_in (str "time24") (request_body req) = Ok true ->
  subscript (request_body req) (str "time24") = Ok (JStr (time r)) ->
  0 <= m <= 1439 /\ r_minute r = m /\ total_minutes r = 1440 /\
  explicit_time (time r) = Ok (time r, m) /\
  compose P clock iso req w =
    (resp <- format_poem (time r) {| content := r_content r; card := r_card r |} ;;
     Ok (Status200 resp)).
Proof.
  unfold clock_at_minute.
  destruct ((m <? 0) || (m >=? 1440)) eqn:Hguard; [discriminate|].
  apply orb_false_iff in Hguard. destruct Hguard as [Hlo Hhi].
  apply Z.ltb_ge in Hlo. rewrite Z.geb_leb in Hhi. apply Z.leb_gt in Hhi.
  destruct (generate_daily_schedule P clock w) as [generated w'] eqn:Hgen.
  destruct generated as [schedule | ]; cbn [bind]; [|discriminate].
  destruct (getitem schedule m) as [it | ] eqn:Hget; cbn [bind]; [|discriminate].
  intros Hr Hin Hsub.
  assert (Er : r = {| time := format_02d (m / 60) ++ str ":" ++ format_02d (m mod 60);
                      r_content := content it; r_card := card it;
                      r_minute := m; total_minutes := 1440 |}) by congruence.
  subst r. cbn [time r_content r_card r_minute total_minutes] in *.
  pose proof (minute_label m ltac:(lia)) as Et.
  split; [lia|]. split; [reflexivity|]. split; [reflexivity|]. split; [exact Et|].
  rewrite (compose_explicit P clock iso req w _ m Hin Hsub Et), Hgen.
  cbn [fst bind]. rewrite Hget. cbn [bind]. destruct it; reflexivity.
Qed.

Lemma X5_witness :
  clock_at_minute sample_pool sample_clock 7 0%nat =
    Ok (Status200 {| time := str "00:07";
                     r_content := str "line 2" ++ [en_dash] ++ str "end";
                     r_card := JInt 2; r_minute := 7; total_minutes := 1440 |}) /\
  explicit_time (str "00:07") = Ok (str "00:07", 7).
Proof.
  assert (E : clock_at_minute sample_pool sample_clock 7 0%nat =
    Ok (Status200 {| time := str "00:07";
                     r_content := str "line 2" ++ [en_dash] ++ str "end";
                     r_card := JInt 2; r_minute := 7; total_minutes := 1440 |}))
    by (vm_compute; reflexivity).
  split; [exact E|].
  apply (X5_minute_endpoint_agrees_with_compose sample_pool sample_clock no_instant
           (sample_request (str "00:07")) 0%nat 7 _ E eq_refl eq_refl).
Defined.

(** ** Where the time comes from *)


(** X7.  A ['geolocate'] instant is used with its own hour and minute, as
    parsed: the label is "HH:MM" of the instant, the minute is
    [hour*60+minute], within 0..1439, and the label, sent back as an
    explicit ['time24'], resolves to the same label and minute. *)
Theorem X7_instant_label_round_trip
  (clock : nat -> datetime) (iso : pystr -> result datetime) (body : json) (w : world)
  (g : pystr) (dt : datetime) :
  py_in (str "time24") body = Ok false ->
  py_in (str "geolocate") body = Ok true ->
  subscript body (str "geolocate") = Ok (JStr g) ->
  iso (replace 90%N (str "+00:00") g) = Ok dt ->
  time_of_day dt ->
  resolve_time clock iso body w = Ok (strftime_HM dt, hour dt * 60 + minute dt, w) /\
  0 <= hour dt * 60 + minute dt <= 1439 /\
  explicit_time (strftime_HM dt) = Ok (strftime_HM dt, hour dt * 60 + minute dt).
Proof.
  intros Hno Hgeo Hsub Hiso (Hh & Hm).
  split; [|split; [lia|]].
  - unfold resolve_time. rewrite Hno, Hgeo. cbn [bind]. rewrite Hsub. cbn [bind].
    rewrite Hiso. reflexivity.
  - unfold strftime_HM. apply explicit_time_of_label; lia.
Qed.

(** X8.  With neither key in the body the clock is read twice: the label
    comes from the first reading and the minute from the second.  When the
    two readings show the same valid time of day the label names the minute
    that is looked up, and it resolves back to it. *)
Theorem X8_default_time_reads_clock_twice
  (clock : nat -> datetime) (iso : pystr -> result datetime) (body : json) (w : world) :
  py_in (str "time24") body = Ok false ->
  py_in (str "geolocate") body = Ok false ->
  resolve_time clock iso body w =
    Ok (strftime_HM (clock w),
        hour (clock (S w)) * 60 + minute (clock (S w)), S (S w)) /\
  (time_of_day (clock w) ->
   hour (clock (S w)) = hour (clock w) -> minute (clock (S w)) = minute (clock w) ->
   explicit_time (strftime_HM (clock w)) =
     Ok (strftime_HM (clock w), hour (clock (S w)) * 60 + minute (clock (S w))) /\
   0 <= hour (clock (S w)) * 60 + minute (clock (S w)) <= 1439).
Proof.
  intros Hno Hnogeo. split.
  - unfold resolve_time. rewrite Hno, Hnogeo. reflexivity.
  - intros (Hh & Hm) Eh Em. rewrite Eh, Em. split; [|lia].
    unfold strftime_HM. apply explicit_time_of_label; lia.
Qed.

(** ** Bodies that are not what [compose] expects *)

Lemma compose_of_body (P : list item) (clock : nat -> datetime)
      (iso : pystr -> result datetime) (req1 req2 : request) (w : world) :
  request_body req1 = request_body req2 ->
  compose P clock iso req1 w = compose P clock iso req2 w.
Proof. intros E. rewrite !compose_steps, E. reflexivity. Qed.

Lemma compose_resolve_raises (P : list item) (clock : nat -> datetime)
      (iso : pystr -> result datetime) (req : request) (w : world) (e : exn) :
  resolve_time clock iso (request_body req) w = Raise e ->
  compose P clock iso req w = Raise e.
Proof. intros E. rewrite compose_steps, E. reflexivity. Qed.

(** X9.  A body that cannot be parsed, or is empty or otherwise falsy, is
    taken as [{}]; a non-zero number or [true] as body makes [compose] raise
    [TypeError], and so does a list or a string in which ["time24"] is
    found; a ['time24'] whose value is not a string raises
    [AttributeError]; a string value that is not two integers raises
    [ValueError].  None of these is answered with a default. *)
Theorem X9_compose_on_unexpected_bodies
  (P : list item) (clock : nat -> datetime) (iso : pystr -> result datetime)
  (auth : pystr) (w : world) :
  (forall j, truthy j = false ->
     compose P clock iso {| authorization := auth; get_json := Some j |} w =
     compose P clock iso {| authorization := auth; get_json := None |} w) /\
  (forall j, truthy j = true ->
     match j with JBool _ | JInt _ | JFloat _ => True | _ => False end ->
     compose P clock iso {| authorization := auth; get_json := Some j |} w = Raise TypeError) /\
  (forall j, truthy j = true ->
     match j with JList _ | JStr _ => True | _ => False end ->
     py_in (str "time24") j = Ok true ->
     compose P clock iso {| authorization := auth; get_json := Some j |} w = Raise TypeError) /\
  (forall d v, truthy (JDict d) = true ->
     py_in (str "time24") (JDict d) = Ok true ->
     subscript (JDict d) (str "time24") = Ok v ->
     (forall s, v <> JStr s) ->
     compose P clock iso {| authorization := auth; get_json := Some (JDict d) |} w =
       Raise AttributeError) /\
  (forall d s, truthy (JDict d) = true ->
     py_in (str "time24") (JDict d) = Ok true ->
     subscript (JDict d) (str "time24") = Ok (JStr s) ->
     (forall r, explicit_time s <> Ok r) ->
     compose P clock iso {| authorization := auth; get_json := Some (JDict d) |} w =
       Raise ValueError).
Proof.
  split; [|split; [|split; [|split]]].
  - intros j Hj. apply compose_of_body. unfold request_body. cbn [get_json].
    rewrite Hj. reflexivity.
  - intros j Hj Hkind. apply compose_resolve_raises.
    unfold request_body. cbn [get_json]. rewrite Hj.
    destruct j; try contradiction; reflexivity.
  - intros j Hj Hkind Hin. apply compose_resolve_raises.
    unfold request_body. cbn [get_json]. rewrite Hj.
    unfold resolve_time. rewrite Hin. cbn [bind].
    destruct j; try contradiction; reflexivity.
  - intros d v Hj Hin Hsub Hv. apply compose_resolve_raises.
    unfold request_body. cbn [get_json]. rewrite Hj.
    unfold resolve_time. rewrite Hin. cbn [bind]. rewrite Hsub. cbn [bind].
    destruct v; try reflexivity. exfalso. eapply Hv. reflexivity.
  - intros d s Hj Hin Hsub Hs. apply compose_resolve_raises.
    unfold request_body. cbn [get_json]. rewrite Hj.
    rewrite (resolve_time_explicit clock iso _ s w Hin Hsub).
    destruct (explicit_time s) as [r | e] eqn:E; [exfalso; eapply Hs; reflexivity|].
    cbn [bind]. f_equal. eapply explicit_time_raises, E.
Qed.

(** ** The remaining handlers *)

Lemma str_eqb_eq (a b : pystr) : str_eqb a b = true <-> a = b.
Proof.
  unfold str_eqb. destruct (list_eq_dec N.eq_dec a b); split; congruence.
Qed.

Lemma dict_get_outcome (j : json) (key : pystr) (default : json) :
  match j with
  | JDict d =>
      dict_get j key default =
        Ok (match find (fun kv => str_eqb (fst kv) key) d with
            | Some kv => snd kv
            | None => default
            end)
  | _ => dict_get j key default = Raise AttributeError
  end.
Proof.
  destruct j; try reflexivity. cbn [dict_get].
  destruct (find (fun kv => str_eqb (fst kv) key) d); reflexivity.
Qed.

(** X10.  [status] answers 200 whenever the body is missing, unparsable,
    falsy or a dictionary: it echoes ['screenId'] (["unknown"] when the key
    is absent) and ['buildId'] ([null] when absent), with the same time
    text in [lastSeen] and [createdAt].  For any other body, a non-empty
    list or string, a non-zero number or [true], it raises
    [AttributeError]. *)
Theorem X10_status_outcome (utcnow_text : nat -> pystr) (req : request) (w : world) :
  (forall d, request_body req = JDict d ->
     status utcnow_text req w =
       Ok (Status200
             {| status_success := true;
                device :=
                  {| screenId := match find (fun kv => str_eqb (fst kv) (str "screenId")) d with
                                 | Some kv => snd kv
                                 | None => JStr (str "unknown")
                                 end;
                     buildId := match find (fun kv => str_eqb (fst kv) (str "buildId")) d with
                                | Some kv => snd kv
                                | None => JNull
                                end;
                     lastSeen := utcnow_text w; seen := 1;
                     createdAt := utcnow_text w; isClaimed := false |} |})) /\
  ((forall d, request_body req <> JDict d) ->
   status utcnow_text req w = Raise AttributeError) /\
  (forall j, get_json req = Some j -> truthy j = false -> request_body req = JDict []) /\
  (get_json req = None -> request_body req = JDict []) /\
  (forall j, get_json req = Some j -> truthy j = true -> request_body req = j).
Proof.
  split; [|split; [|split; [|split]]].
  - intros d E. unfold status. rewrite E. cbn [dict_get].
    destruct (find (fun kv => str_eqb (fst kv) (str "screenId")) d);
      destruct (find (fun kv => str_eqb (fst kv) (str "buildId")) d); reflexivity.
  - intros Hnd. unfold status.
    destruct (request_body req) as [ | | | | | | d ]; try reflexivity.
    exfalso. eapply Hnd. reflexivity.
  - intros j E Hj. unfold request_body. rewrite E, Hj. reflexivity.
  - intros E. unfold request_body. rewrite E. reflexivity.
  - intros j E Hj. unfold request_body. rewrite E, Hj. reflexivity.
Qed.

(** X11.  [mark_note_seen], [like_poem] and [unlike_poem] answer
    [{"success": true}] exactly when [request.get_json()] returned a
    dictionary, the empty one included; when it returned [None] or any
    other JSON value they raise [AttributeError].  The identifier in the URL
    and the content of the dictionary make no difference, and the three
    handlers answer alike. *)
Theorem X11_acknowledgements (note_id poem_id : pystr) (req : request)
        (returned : option json) :
  (like_poem poem_id req returned = Ok (Status200 {| success := true |}) <->
   exists d, returned = Some (JDict d)) /\
  ((forall d, returned <> Some (JDict d)) ->
   like_poem poem_id req returned = Raise AttributeError) /\
  mark_note_seen note_id req returned = like_poem poem_id req returned /\
  unlike_poem poem_id req returned = like_poem poem_id req returned /\
  (forall (other_id : pystr) (req' : request),
     like_poem other_id req' returned = like_poem poem_id req returned).
Proof.
  unfold mark_note_seen, like_poem, unlike_poem, acknowledge.
  cbn [REQUIRE_AUTH andb].
  split; [|split; [|repeat split]].
  - split.
    + destruct returned as [[ | | | | | | d] | ]; cbn; try discriminate.
      intros _. exists d. reflexivity.
    + intros (d & ->). cbn [dict_get].
      destruct (find _ d); reflexivity.
  - intros Hnd. destruct returned as [[ | | | | | | d] | ]; try reflexivity.
    exfalso. eapply Hnd. reflexivity.
Qed.

(** X12.  [check_auth] with authorization required accepts exactly the
    header ["Bearer "] followed by the key, so a request without the header
    is refused; with the setting of the module (not required) it accepts
    every request, and [compose] never answers 401. *)
Theorem X12_check_auth (api_key : pystr) :
  (forall header, check_auth_with true api_key header = true <->
                  header = str "Bearer " ++ api_key) /\
  check_auth_with true api_key [] = false /\
  (forall header, check_auth_with false api_key header = true) /\
  (forall req, check_auth req = check_auth_with REQUIRE_AUTH API_KEY (authorization req)) /\
  (forall req, check_auth req = true) /\
  (forall P clock iso req w, compose P clock iso req w <> Ok Status401).
Proof.
  split; [|split; [|split; [|split; [|split]]]].
  - intros header. unfold check_auth_with. cbn [negb]. apply str_eqb_eq.
  - reflexivity.
  - reflexivity.
  - reflexivity.
  - reflexivity.
  - intros P clock iso req w. rewrite compose_steps.
    destruct (resolve_time clock iso (request_body req) w) as [[[l m] w'] | ];
      cbn [bind]; [|discriminate].
    destruct (fst (generate_daily_schedule P clock w')); cbn [bind]; [|discriminate].
    destruct (getitem a m); cbn [bind]; [|discriminate].
    destruct (format_poem l a0); cbn [bind]; discriminate.
Qed.

(** X13.  When the clock shows the same valid time of day at the two
    readings [clock_get] makes for the minute and for the label, it answers
    what the per-minute endpoint answers for the current minute: the same
    time label, content, card and minute, or the same exception. *)
Theorem X13_clock_get_is_current_minute
  (P : list item) (clock : nat -> datetime) (isoformat : nat -> pystr) (w : world) :
  time_of_day (clock (S w)) ->
  hour (clock (S (S w))) = hour (clock (S w)) ->
  minute (clock (S (S w))) = minute (clock (S w)) ->
  0 <= hour (clock (S w)) * 60 + minute (clock (S w)) <= 1439 /\
  (forall e,
     clock_at_minute P clock (hour (clock (S w)) * 60 + minute (clock (S w))) w = Raise e ->
     clock_get P clock isoformat w = Raise e) /\
  (forall r,
     clock_at_minute P clock (hour (clock (S w)) * 60 + minute (clock (S w))) w =
       Ok (Status200 r) ->
     clock_get P clock isoformat w =
       Ok (Status200 {| c_time := time r; c_content := r_content r; c_card := r_card r;
                        c_minute := r_minute r; c_total_minutes := total_minutes r;
                        c_timestamp := isoformat (S (S w)) |})).
Proof.
  intros (Hh & Hm) Eh Em.
  set (m := hour (clock (S w)) * 60 + minute (clock (S w))).
  assert (Hrange : 0 <= m <= 1439) by (unfold m; lia).
  assert (Hq : m / 60 = hour (clock (S w))).
  { symmetry. apply (Z.div_unique m 60 _ (minute (clock (S w)))); unfold m; lia. }
  assert (Hr : m mod 60 = minute (clock (S w))).
  { symmetry. apply (Z.mod_unique m 60 (hour (clock (S w)))); unfold m; lia. }
  assert (Hguard : ((m <? 0) || (m >=? 1440)) = false).
  { apply orb_false_iff. split; [apply Z.ltb_ge | rewrite Z.geb_leb; apply Z.leb_gt]; lia. }
  split; [exact Hrange|].
  unfold clock_at_minute, clock_get. rewrite Hguard.
  rewrite generate_daily_schedule_shuffle.
  destruct (shuffle_with_seed (Spec.working_sequence P) (strftime_Ymd_int (clock w)))
    as [schedule | e0]; cbn [bind].
  - unfold get_current_minute, datetime_now. fold m.
    destruct (getitem schedule m) as [it | e1]; cbn [bind].
    + split; [discriminate|]. intros r H.
      assert (Er : r = {| time := format_02d (m / 60) ++ str ":" ++ format_02d (m mod 60);
                          r_content := content it; r_card := card it;
                          r_minute := m; total_minutes := 1440 |}) by congruence.
      subst r. cbn [time r_content r_card r_minute total_minutes].
      unfold strftime_HM. rewrite Eh, Em, Hq, Hr. reflexivity.
    + split; [intros e H; injection H as ->; reflexivity | discriminate].
  - split; [intros e H; injection H as ->; reflexivity | discriminate].
Qed.

(** X14.  With an empty content database the schedule is empty and no
    lookup succeeds: [compose] never answers 200 and raises [IndexError]
    whenever the time is resolved, the per-minute endpoint raises
    [IndexError] for every minute of the day, and so does [clock_get]. *)
Theorem X14_empty_pool
  (clock : nat -> datetime) (iso : pystr -> result datetime) (isoformat : nat -> pystr)
  (req : request) (w : world) :
  fst (generate_daily_schedule [] clock w) = Ok [] /\
  (forall resp, compose [] clock iso req w <> Ok (Status200 resp)) /\
  (forall label m w',
     resolve_time clock iso (request_body req) w = Ok (label, m, w') ->
     compose [] clock iso req w = Raise IndexError) /\
  (forall m, 0 <= m <= 1439 -> clock_at_minute [] clock m w = Raise IndexError) /\
  clock_get [] clock isoformat w = Raise IndexError.
Proof.
  assert (Hgen : forall w0, generate_daily_schedule [] clock w0 = (Ok [], S w0))
    by reflexivity.
  split; [reflexivity|]. split; [|split; [|split]].
  - intros resp. rewrite compose_steps.
    destruct (resolve_time clock iso (request_body req) w) as [[[l m] w'] | ];
      cbn [bind]; [|discriminate].
    rewrite Hgen. cbn [fst bind]. rewrite getitem_nil. discriminate.
  - intros label m w' Er. rewrite compose_steps, Er. cbn [bind].
    rewrite Hgen. cbn [fst bind]. rewrite getitem_nil. reflexivity.
  - intros m Hm. unfold clock_at_minute.
    assert (Hguard : ((m <? 0) || (m >=? 1440)) = false).
    { apply orb_false_iff. split; [apply Z.ltb_ge | rewrite Z.geb_leb; apply Z.leb_gt]; lia. }
    rewrite Hguard, Hgen. cbn [bind]. rewrite getitem_nil. reflexivity.
  - unfold clock_get. rewrite Hgen. cbn [bind].
    unfold get_current_minute, datetime_now. rewrite getitem_nil. reflexivity.
Qed.

(** ** Instances on the sample pool *)

Lemma X4_witness :
  3 * len sample_pool <= PY_SSIZE_T_MAX /\
  explicit_time (str "00:07") = Ok (str "00:07", 7) /\
  exists (schedule : list item) (it : item),
    fst (generate_daily_schedule sample_pool sample_clock 0%nat) = Ok schedule /\
    nth_error schedule (Z.to_nat 7) = Some it /\ In it sample_pool /\
    (encodable (content it) ->
     exists id : pystr,
       length id = 8%nat /\ Forall is_hex id /\
       compose sample_pool sample_clock no_instant (sample_request (str "00:07")) 0%nat =
         Ok (Status200
               {| poemId := id; time24 := str "00:07";
                  poem := str "00:07" ++ str " " ++ [em_dash] ++ str " "
                                ++ replace en_dash (str "-") (content it);
                  preferredFont := str "INTER"; screensaver := false |})) /\
    (~ encodable (content it) ->
     compose sample_pool sample_clock no_instant (sample_request (str "00:07")) 0%nat =
       Raise UnicodeEncodeError).
Proof.
  assert (Hmax : 3 * len sample_pool <= PY_SSIZE_T_MAX) by (vm_compute; discriminate).
  assert (Et : explicit_time (str "00:07") = Ok (str "00:07", 7)) by (vm_compute; reflexivity).
  assert (Hm : 0 <= 7 < 3 * len sample_pool) by (vm_compute; split; [discriminate | reflexivity]).
  split; [exact Hmax|]. split; [exact Et|].
  apply (X4_compose_serves_minute sample_pool sample_clock no_instant
           (sample_request (str "00:07")) 0%nat (str "00:07") 7 Hmax eq_refl eq_refl Et Hm).
Defined.

Lemma X7_witness :
  time_of_day (sample_clock 0%nat) /\
  resolve_time sample_clock (fun _ => Ok (sample_clock 0%nat))
               (JDict [(str "geolocate", JStr (str "2024-01-01T12:34:00Z"))]) 0%nat =
    Ok (str "12:34", 754, 0%nat) /\
  explicit_time (str "12:34") = Ok (str "12:34", 754).
Proof.
  assert (Ht : time_of_day (sample_clock 0%nat)) by (unfold time_of_day; simpl; lia).
  split; [exact Ht|].
  destruct (X7_instant_label_round_trip sample_clock (fun _ => Ok (sample_clock 0%nat))
              (JDict [(str "geolocate", JStr (str "2024-01-01T12:34:00Z"))]) 0%nat
              (str "2024-01-01T12:34:00Z") (sample_clock 0%nat)
              eq_refl eq_refl eq_refl eq_refl Ht) as (Hr & _ & He).
  split; [exact Hr | exact He].
Defined.

Lemma X8_witness :
  resolve_time sample_clock no_instant (JDict []) 0%nat = Ok (str "12:34", 754, 2%nat) /\
  explicit_time (str "12:34") = Ok (str "12:34", 754).
Proof.
  destruct (X8_default_time_reads_clock_twice sample_clock no_instant (JDict []) 0%nat
              eq_refl eq_refl) as (Hr & Hsame).
  split; [exact Hr|].
  apply Hsame; [unfold time_of_day; simpl; lia | reflexivity | reflexivity].
Defined.

Lemma X13_witness :
  clock_get sample_pool
            (fun _ => {| year := 2024; month := 1; day := 1; hour := 0; minute := 7 |})
            (fun _ => str "2024-01-01T00:07:00") 0%nat =
    Ok (Status200 {| c_time := str "00:07";
                     c_content := str "line 2" ++ [en_dash] ++ str "end";
                     c_card := JInt 2; c_minute := 7; c_total_minutes := 1440;
                     c_timestamp := str "2024-01-01T00:07:00" |}).
Proof.
  assert (Ht : time_of_day {| year := 2024; month := 1; day := 1; hour := 0; minute := 7 |})
    by (unfold time_of_day; simpl; lia).
  destruct (X13_clock_get_is_current_minute sample_pool
              (fun _ => {| year := 2024; month := 1; day := 1; hour := 0; minute := 7 |})
              (fun _ => str "2024-01-01T00:07:00") 0%nat Ht eq_refl eq_refl)
    as (_ & _ & Hok).
  apply (Hok {| time := str "00:07";
                r_content := str "line 2" ++ [en_dash] ++ str "end";
                r_card := JInt 2; r_minute := 7; total_minutes := 1440 |}).
  vm_compute. reflexivity.
Defined.

(** ** The statistics of the content database *)

Lemma truediv_minutes (a : Z) :
  2 ^ 10 <= a < 2 ^ 64 ->
  exists (mx : positive) (ex t : Z),
    SFdiv prec emax (exact a) (exact 1440) = S754_finite false mx ex /\
    2 ^ 52 <= Zpos mx < 2 ^ 53 /\
    0 <= t <= 53 /\ - t <= ex <= - t + 2 /\
    2 ^ 63 <= a * 2 ^ t /\
    a * 2 ^ t - 3 * 1440 < Zpos mx * 2 ^ (ex + t) * 1440.
Proof.
  intros [Hlo Hlt]. destruct a as [ | p | p ]; try lia.
  pose proof (digits2_pos_bounds p) as [Blo Bhi].
  set (d := Zpos (digits2_pos p)) in *.
  assert (Hd11 : 11 <= d).
  { destruct (Z.leb_spec 11 d); [assumption|]. exfalso.
    assert (2 ^ d <= 2 ^ 10) by (apply Z.pow_le_mono_r; lia). lia. }
  assert (Hd64 : d <= 64).
  { destruct (Z.leb_spec d 64); [assumption|]. exfalso.
    assert (2 ^ 64 <= 2 ^ (d - 1)) by (apply Z.pow_le_mono_r; lia). lia. }
  set (t := 64 - d).
  assert (P2t : 0 < 2 ^ t) by (apply Z.pow_pos_nonneg; unfold t; lia).
  assert (Ht : 2 ^ 63 <= Zpos p * 2 ^ t < 2 ^ 64).
  { split.
    - replace 63 with ((d - 1) + t) by (unfold t; lia).
      rewrite Z.pow_add_r by (unfold t; lia). nia.
    - replace 64 with (d + t) by (unfold t; lia).
      rewrite Z.pow_add_r by (unfold t; lia). nia. }
  cbn [exact SFdiv xorb]. unfold SFdiv_core_binary.
  cbn [Zdigits2]. fold d.
  change (Zpos (digits2_pos 1440)) with 11.
  assert (He' : Z.min (fexp prec emax (d + 0 - (11 + 0))) (0 - 0) = - t).
  { unfold fexp, emin, prec, emax, t. lia. }
  rewrite He'.
  replace (0 - 0 - - t) with t by lia.
  assert (Hsh : match t with
                | 0 => Zpos p
                | Zpos _ => Z.shiftl (Zpos p) t
                | Zneg _ => 0
                end = Zpos p * 2 ^ t).
  { destruct t as [ | tp | tp ] eqn:Et; try (unfold t in *; lia).
    apply Z.shiftl_mul_pow2. lia. }
  rewrite Hsh. clear Hsh.
  destruct (Z.div_eucl (Zpos p * 2 ^ t) 1440) as [q r] eqn:Ediv.
  assert (Hq : q = Zpos p * 2 ^ t / 1440) by (unfold Z.div; rewrite Ediv; reflexivity).
  assert (Hq1 : 2 ^ 52 <= q) by (rewrite Hq; apply Z.div_le_lower_bound; lia).
  assert (Hq2 : q < 2 ^ 54) by (rewrite Hq; apply Z.div_lt_upper_bound; lia).
  assert (Hq3 : q * 1440 <= Zpos p * 2 ^ t < (q + 1) * 1440).
  { rewrite Hq. pose proof (Z.mul_div_le (Zpos p * 2 ^ t) 1440).
    pose proof (Z.mul_succ_div_gt (Zpos p * 2 ^ t) 1440). lia. }
  destruct q as [ | qp | qp ]; try lia.
  assert (Hdq : Zpos (digits2_pos qp) = 53 \/ Zpos (digits2_pos qp) = 54).
  { destruct (Z.ltb_spec (Zpos qp) (2 ^ 53)).
    - left. apply digits2_pos_unique. lia.
    - right. apply digits2_pos_unique. lia. }
  destruct (binary_round_aux_normal false qp (- t) (new_location 1440 r))
    as (m' & e' & E & Hm' & Hex & Hvl & Hv).
  { unfold prec. lia. }
  { unfold emin, prec, emax, t. lia. }
  assert (Hle : (e' <=? emax - prec) = true) by (apply Z.leb_le; unfold emax, prec, t in *; lia).
  rewrite Hle in E.
  exists m', e', t. split; [exact E|]. split; [assumption|].
  split; [unfold t; lia|]. split; [lia|]. split; [lia|].
  assert (Hpow : 2 ^ (Zpos (digits2_pos qp) - 53) <= 2).
  { destruct Hdq as [-> | ->]; simpl; lia. }
  replace (e' - - t) with (e' + t) in Hvl by lia.
  lia.
Qed.

(** Above 100% the product is printed with at least 100.1. *)
Lemma percent_above (a : Z) :
  1443 <= a < 2 ^ 64 ->
  exists (x p : float),
    int_truediv a 1440 = Ok x /\ float_mul_int x 100 = Ok p /\
    exists (mp : positive) (ep : Z),
      p = S754_finite false mp ep /\ 2 ^ 52 <= Zpos mp /\
      (0 <= ep \/ (ep < 0 /\ 1001 * 2 ^ (- ep) <= Zpos mp * 10)).
Proof.
  intros [Hlo Hhi].
  destruct (truediv_minutes a) as (mx & ex & t & Ex & Hmx & Ht & Hex & Hat & Hv); [lia|].
  unfold int_truediv. change (1440 =? 0) with false. cbv iota. rewrite Ex.
  exists (S754_finite false mx ex).
  unfold float_mul_int, int_to_float.
  change (binary_normalize prec emax 100 0 false)
    with (S754_finite false 7036874417766400 (-46)).
  cbn [bind SFmul xorb].
  pose proof (digits2_pos_bounds (mx * 7036874417766400)) as [Blo Bhi].
  assert (Hprod : 2 ^ 104 <= Zpos (mx * 7036874417766400) < 2 ^ 106).
  { rewrite Pos2Z.inj_mul. lia. }
  set (dp := Zpos (digits2_pos (mx * 7036874417766400))) in *.
  assert (Hd : 105 <= dp <= 106).
  { split.
    - destruct (Z.leb_spec 105 dp); [assumption|]. exfalso.
      assert (2 ^ dp <= 2 ^ 104) by (apply Z.pow_le_mono_r; lia). lia.
    - destruct (Z.leb_spec dp 106); [assumption|]. exfalso.
      assert (2 ^ 106 <= 2 ^ (dp - 1)) by (apply Z.pow_le_mono_r; lia). lia. }
  destruct (binary_round_aux_normal false (mx * 7036874417766400) (ex + -46) loc_Exact)
    as (mp & ep & Ep & Hmp & Hep & Hvl & _).
  { fold dp. unfold prec. lia. }
  { fold dp. unfold emin, prec, emax. lia. }
  fold dp in Hep, Hvl.
  assert (Hle : (ep <=? emax - prec) = true) by (apply Z.leb_le; unfold emax, prec; lia).
  rewrite Hle in Ep. rewrite Ep.
  eexists. split; [reflexivity|]. split; [reflexivity|].
  exists mp, ep. split; [reflexivity|]. split; [lia|].
  destruct (Z.leb_spec 0 ep) as [Hep0 | Hep0]; [left; exact Hep0 | right].
  split; [exact Hep0|].
  (* the rounding errors of the quotient and of the product *)
  set (k := dp - 53) in *.
  set (u := ep - (ex + -46)) in *.
  assert (Hu : 52 <= u <= 54) by (unfold u, k in *; lia).
  assert (Hk : 2 ^ k * 2 ^ 52 <= Zpos (mx * 7036874417766400)).
  { rewrite <- Z.pow_add_r by (unfold k; lia).
    replace (k + 52) with (dp - 1) by (unfold k; lia). exact Blo. }
  rewrite Pos2Z.inj_mul in Hvl, Hk.
  set (X := Zpos mx) in *. set (M := Zpos mp) in *.
  set (s := ex + t) in *.
  assert (Hs : 0 <= s <= 2) by (unfold s; lia).
  set (E := - ep) in *.
  assert (HE : 0 < E) by (unfold E; lia).
  assert (P2E : 0 < 2 ^ E) by (apply Z.pow_pos_nonneg; lia).
  assert (P2s : 0 < 2 ^ s) by (apply Z.pow_pos_nonneg; lia).
  assert (P2u : 0 < 2 ^ u) by (apply Z.pow_pos_nonneg; lia).
  assert (P2k : 0 < 2 ^ k) by (apply Z.pow_pos_nonneg; unfold k; lia).
  (* 2^u * 2^s * 2^E = 2^(46 + t) *)
  assert (Hsplit : 2 ^ u * 2 ^ s * 2 ^ E = 2 ^ 46 * 2 ^ t).
  { rewrite <- !Z.pow_add_r by lia. f_equal. unfold u, s, E. lia. }
  destruct (Z.leb_spec (1001 * 2 ^ E) (M * 10)) as [ | Hlt]; [assumption|]. exfalso.
  set (T := 2 ^ t) in *. set (U := 2 ^ u) in *. set (S := 2 ^ s) in *.
  set (K := 2 ^ k) in *. set (F := 2 ^ E) in *.
  assert (P2T : 0 < T) by (apply Z.pow_pos_nonneg; lia).
  clearbody T U S K F X M.
  clear - Hlo Hat Hv Hvl Hk Hsplit Hlt P2E P2s P2u P2k P2T Hmx Hmp.
  (* M*U > X*Y - K, K*2^52 <= X*Y, X*S*1440 > a*T - 4320, a*T >= 2^63 *)
  assert (A1 : M * U * 2 ^ 52 > X * 7036874417766400 * (2 ^ 52 - 1)) by lia.
  assert (A2 : X * S * 1440 * 2 ^ 50 > a * T * (2 ^ 50 - 1)) by lia.
  assert (A3 : M * U * S * 1440 * 2 ^ 102
               > 7036874417766400 * (2 ^ 52 - 1) * (a * T * (2 ^ 50 - 1))).
  { assert (B1 : (M * U * 2 ^ 52) * (S * 1440 * 2 ^ 50)
                 > (X * 7036874417766400 * (2 ^ 52 - 1)) * (S * 1440 * 2 ^ 50)).
    { apply Z.lt_gt. apply Z.mul_lt_mono_pos_r; lia. }
    assert (B2 : (X * S * 1440 * 2 ^ 50) * (7036874417766400 * (2 ^ 52 - 1))
                 > (a * T * (2 ^ 50 - 1)) * (7036874417766400 * (2 ^ 52 - 1))).
    { apply Z.lt_gt. apply Z.mul_lt_mono_pos_r; lia. }
    change (2 ^ 102) with (2 ^ 52 * 2 ^ 50). lia. }
  assert (A4 : (M * 10) * (U * S) < (1001 * F) * (U * S)).
  { apply Z.mul_lt_mono_pos_r; [apply Z.mul_pos_pos; lia | exact Hlt]. }
  assert (A5 : F * (U * S) = 2 ^ 46 * T) by lia.
  assert (A6 : M * U * S * 10 < 1001 * (2 ^ 46 * T)) by lia.
  assert (A7 : a * T >= 1443 * T) by nia.
  lia.
Qed.

Lemma round_half_even_floor (num den : Z) : num / den <= round_half_even num den.
Proof.
  unfold round_half_even. destruct (2 * (num mod den) ?= den); [|lia|lia].
  destruct (Z.even (num / den)); lia.
Qed.

Lemma one_decimal_reads_back (tenths : Z) :
  0 <= tenths ->
  decimal (tenths / 10) ++ str "." ++ [Z.to_N (48 + tenths mod 10)] = str "100.0" ->
  tenths = 1000.
Proof.
  intros Ht E.
  change (str ".") with [46%N] in E.
  change (str "100.0") with (([49; 48; 48] ++ [46]) ++ [48])%N in E.
  rewrite app_assoc in E.
  apply app_inj_tail in E. destruct E as [E Ed].
  apply app_inj_tail in E. destruct E as [E _].
  assert (Hq : 0 <= tenths / 10) by (apply Z.div_pos; lia).
  destruct (decimal_value (tenths / 10) Hq) as (_ & _ & Hv & _).
  rewrite E in Hv. cbn in Hv.
  pose proof (Z.mod_pos_bound tenths 10 ltac:(lia)) as Hr.
  assert (Hd : tenths mod 10 = 0).
  { assert (Z.of_N (Z.to_N (48 + tenths mod 10)) = 48) by (rewrite Ed; reflexivity).
    rewrite Z2N.id in H by lia. lia. }
  pose proof (Z.div_mod tenths 10 ltac:(lia)). lia.
Qed.

Lemma format_1f_above (mp : positive) (ep : Z) :
  2 ^ 52 <= Zpos mp ->
  0 <= ep \/ (ep < 0 /\ 1001 * 2 ^ (- ep) <= Zpos mp * 10) ->
  format_1f (S754_finite false mp ep) <> str "100.0".
Proof.
  intros Hmp Hcase E. cbn [format_1f app] in E.
  apply one_decimal_reads_back in E.
  - destruct Hcase as [Hep | [Hep Hv]].
    + assert (Hle : (0 <=? ep) = true) by (apply Z.leb_le; exact Hep).
      rewrite Hle in E.
      assert (0 < 2 ^ ep) by (apply Z.pow_pos_nonneg; lia). nia.
    + assert (Hle : (0 <=? ep) = false) by (apply Z.leb_gt; exact Hep).
      rewrite Hle in E.
      pose proof (round_half_even_floor (Zpos mp * 10) (2 ^ (- ep))) as Hf.
      assert (P2 : 0 < 2 ^ (- ep)) by (apply Z.pow_pos_nonneg; lia).
      assert (1001 <= Zpos mp * 10 / 2 ^ (- ep)).
      { apply Z.div_le_lower_bound; lia. }
      lia.
  - destruct (Z.leb_spec 0 ep) as [Hep | Hep].
    + assert (0 <= 2 ^ ep) by (apply Z.pow_nonneg; lia). nia.
    + pose proof (round_half_even_floor (Zpos mp * 10) (2 ^ (- ep))) as Hf.
      assert (0 <= Zpos mp * 10 / 2 ^ (- ep)).
      { apply Z.div_pos; [lia | apply Z.pow_pos_nonneg; lia]. }
      lia.
Qed.

Lemma percent_below :
  forallb (fun n : Z =>
             match (ratio <- int_truediv (n * 3) 1440 ;; float_mul_int ratio 100) with
             | Ok p => negb (str_eqb (format_1f p) (str "100.0"))
             | Raise _ => false
             end)
          (map Z.of_nat (seq 0 480)) = true.
Proof. vm_compute. reflexivity. Qed.

Lemma percent_outcome (n : Z) :
  0 <= n -> 3 * n < 2 ^ 64 ->
  exists p : float,
    (ratio <- int_truediv (n * 3) 1440 ;; float_mul_int ratio 100) = Ok p /\
    (format_1f p = str "100.0" <-> n = 480).
Proof.
  intros Hn Hmax.
  destruct (Z.ltb_spec n 480) as [Hlt | Hge].
  - pose proof (Z_range_forallb _ 480 percent_below n ltac:(lia)) as Ht.
    cbv beta in Ht.
    destruct (ratio <- int_truediv (n * 3) 1440 ;; float_mul_int ratio 100) as [p | ];
      [|discriminate].
    exists p. split; [reflexivity|]. split; [|lia].
    intros E. apply negb_true_iff in Ht.
    apply str_eqb_eq in E. congruence.
  - destruct (Z.eq_dec n 480) as [-> | Hne].
    + eexists. split; [vm_compute; reflexivity|]. split; [reflexivity|].
      intros _. vm_compute. reflexivity.
    + destruct (percent_above (n * 3)) as (x & p & Ex & Ep & mp & ep & -> & Hmp & Hcase);
        [lia|].
      exists (S754_finite false mp ep). rewrite Ex. cbn [bind]. split; [exact Ep|].
      split; [|lia]. intros E. exfalso. exact (format_1f_above mp ep Hmp Hcase E).
Qed.

(** X15.  [stats] answers 200 for every content database: the item count,
    a quarter of it rounded down as the card count, three appearances per
    item, which is the length of the schedule the service builds, 1440
    minutes per day, and a coverage that reads "100.0%" exactly when there
    are 480 items, one appearance for every minute of the day. *)
Theorem X15_stats_outcome (P : list item) :
  3 * len P <= PY_SSIZE_T_MAX ->
  exists r : stats_response,
    stats P = Ok (Status200 r) /\
    total_items r = len P /\
    4 * total_cards r <= len P < 4 * total_cards r + 4 /\
    appearances_per_day r = 3 * len P /\
    minutes_per_day r = 1440 /\
    (forall (clock : nat -> datetime) (w : world),
       exists schedule : list item,
         fst (generate_daily_schedule P clock w) = Ok schedule /\
         len schedule = appearances_per_day r) /\
    (coverage r = str "100.0%" <-> len P = 480).
Proof.
  intros Hmax.
  assert (Hn : 0 <= len P) by (unfold len; lia).
  destruct (percent_outcome (len P) Hn) as (p & Ep & Hp).
  { unfold PY_SSIZE_T_MAX in Hmax. lia. }
  unfold stats.
  destruct (int_truediv (len P * 3) 1440) as [x | ]; cbn [bind] in Ep |- *; [|discriminate].
  rewrite Ep. cbn [bind].
  eexists. split; [reflexivity|].
  cbn [total_items total_cards appearances_per_day minutes_per_day coverage].
  split; [reflexivity|].
  split.
  { pose proof (Z.mul_div_le (len P) 4 ltac:(lia)).
    pose proof (Z.mul_succ_div_gt (len P) 4 ltac:(lia)). lia. }
  split; [lia|]. split; [reflexivity|]. split.
  - intros clock w. rewrite (generate_daily_schedule_spec P clock w Hmax).
    eexists. split; [reflexivity|].
    unfold len. rewrite buildSchedule_length. lia.
  - rewrite <- Hp. change (str "100.0%") with (str "100.0" ++ str "%").
    split.
    + intros E. apply app_inv_tail in E. exact E.
    + intros ->. reflexivity.
Qed.

Lemma X15_witness :
  3 * len sample_pool <= PY_SSIZE_T_MAX /\
  exists r : stats_response,
    stats sample_pool = Ok (Status200 r) /\
    total_items r = 10 /\ total_cards r = 2 /\ appearances_per_day r = 30 /\
    coverage r = str "2.1%".
Proof.
  assert (Hmax : 3 * len sample_pool <= PY_SSIZE_T_MAX) by (vm_compute; discriminate).
  split; [exact Hmax|].
  destruct (X15_stats_outcome sample_pool Hmax) as (r & E & _).
  exists r. split; [exact E|].
  assert (Er : stats sample_pool =
               Ok (Status200 {| total_items := 10; total_cards := 2;
                                appearances_per_day := 30; minutes_per_day := 1440;
                                coverage := str "2.1%" |}))
    by (vm_compute; reflexivity).
  rewrite Er in E. injection E as <-. repeat split.
Defined.

(** ** The period of the generator *)

Section Cycle.
Variable f : Z -> Z.
Variable M : nat.
Hypothesis f_range : forall x, 0 <= f x < Z.of_nat M.
Hypothesis returns : Nat.iter M f 0 = 0.
Hypothesis first : forall k, (0 < k < M)%nat -> Nat.iter k f 0 <> 0.

Lemma cycle_pos : (0 < M)%nat.
Proof. pose proof (f_range 0). lia. Qed.

Lemma orbit_distinct (i j : nat) :
(i < j < M)%nat -> Nat.iter i f 0 <> Nat.iter j f 0.
Proof.
intros [Hij HjM] E. apply (first (M - j + i)); [lia|].
rewrite Nat.iter_add, E, <- Nat.iter_add.
replace (M - j + j)%nat with M by lia. exact returns.
Qed.

Lemma orbit_turns (c : nat) : Nat.iter (c * M) f 0 = 0.
Proof.
induction c as [ | c IH ]; [reflexivity|].
cbn [Nat.mul]. rewrite Nat.add_comm, Nat.iter_add, returns. exact IH.
Qed.

Lemma orbit_mod (p : nat) : Nat.iter p f 0 = Nat.iter (p mod M) f 0.
Proof.
pose proof cycle_pos as HM.
assert (E : p = (p mod M + p / M * M)%nat)
  by (pose proof (Nat.div_mod_eq p M); lia).
transitivity (Nat.iter (p mod M + p / M * M) f 0); [congruence|].
rewrite Nat.iter_add, orbit_turns. reflexivity.
Qed.

Lemma orbit_eq (p q : nat) :
Nat.iter p f 0 = Nat.iter q f 0 <-> (p mod M = q mod M)%nat.
Proof.
pose proof cycle_pos as HM.
rewrite (orbit_mod p), (orbit_mod q).
pose proof (Nat.mod_upper_bound p M ltac:(lia)) as Hp.
pose proof (Nat.mod_upper_bound q M ltac:(lia)) as Hq.
split; [|intros ->; reflexivity].
intros E.
destruct (Nat.lt_trichotomy (p mod M) (q mod M)) as [Hlt | [Heq | Hgt]].
- exfalso. exact (orbit_distinct _ _ (conj Hlt Hq) E).
- exact Heq.
- exfalso. exact (orbit_distinct _ _ (conj Hgt Hp) (eq_sym E)).
Qed.

Lemma orbit_range (i : nat) : 0 <= Nat.iter i f 0 < Z.of_nat M.
Proof.
destruct i as [ | i ]; [cbn; pose proof cycle_pos; lia|].
cbn [Nat.iter nat_rect]. apply f_range.
Qed.

Lemma orbit_covers (x : Z) :
0 <= x < Z.of_nat M -> exists i : nat, (i < M)%nat /\ Nat.iter i f 0 = x.
Proof.
intros Hx.
set (orbit := map (fun i => Nat.iter i f 0) (seq 0 M)).
set (states := map Z.of_nat (seq 0 M)).
assert (Hnd : NoDup orbit).
{ unfold orbit. apply NoDup_nth_error. intros i j Hi E.
  rewrite length_map, length_seq in Hi.
  rewrite nth_error_map, nth_error_seq in E.
  destruct (Nat.ltb_spec i M) as [_ | ]; [|lia]. cbn [option_map] in E.
  rewrite nth_error_map, nth_error_seq in E.
  destruct (Nat.ltb_spec j M) as [Hj | ]; [|discriminate]. cbn [option_map] in E.
  injection E as E. cbn [Nat.add] in E.
  destruct (Nat.lt_trichotomy i j) as [Hlt | [Heq | Hgt]].
  - exfalso. exact (orbit_distinct i j (conj Hlt Hj) E).
  - exact Heq.
  - exfalso. exact (orbit_distinct j i (conj Hgt Hi) (eq_sym E)). }
assert (Hincl : incl orbit states).
{ intros y Hy. unfold orbit in Hy. apply in_map_iff in Hy.
  destruct Hy as (i & <- & _). pose proof (orbit_range i) as Hr.
  unfold states. apply in_map_iff. exists (Z.to_nat (Nat.iter i f 0)).
  split; [lia|]. apply in_seq. lia. }
assert (Hlen : (length states <= length orbit)%nat).
{ unfold states, orbit. rewrite !length_map. apply Nat.le_refl. }
pose proof (NoDup_length_incl Hnd Hlen Hincl) as Hback.
assert (Hin : In x states).
{ unfold states. apply in_map_iff. exists (Z.to_nat x). split; [lia|].
  apply in_seq. lia. }
apply Hback in Hin. unfold orbit in Hin. apply in_map_iff in Hin.
destruct Hin as (i & E & Hi). apply in_seq in Hi. exists i. split; [lia | exact E].
Qed.

Lemma cycle_eq (x : Z) (p q : nat) :
0 <= x < Z.of_nat M ->
Nat.iter p f x = Nat.iter q f x <-> (p mod M = q mod M)%nat.
Proof.
intros Hx. pose proof cycle_pos as HM.
destruct (orbit_covers x Hx) as (a & Ha & <-).
rewrite <- !Nat.iter_add, orbit_eq.
split; intros E.
- assert (E' : (((p + a) mod M + (M - a)) mod M = ((q + a) mod M + (M - a)) mod M)%nat)
    by (rewrite E; reflexivity).
  rewrite !Nat.Div0.add_mod_idemp_l in E'.
  replace (p + a + (M - a))%nat with (p + 1 * M)%nat in E' by lia.
  replace (q + a + (M - a))%nat with (q + 1 * M)%nat in E' by lia.
  rewrite !Nat.Div0.mod_add in E'. exact E'.
- rewrite <- (Nat.Div0.add_mod_idemp_l p), <- (Nat.Div0.add_mod_idemp_l q), E.
  reflexivity.
Qed.

End Cycle.

Lemma calls_until_zero_spec (fuel : nat) : forall (state calls r : Z),
  calls_until_zero fuel state calls = Some r ->
  exists k : nat,
    r = calls + Z.of_nat k /\ (0 < k <= fuel)%nat /\
    Nat.iter k Spec.lcg state = 0 /\
    forall j : nat, (0 < j < k)%nat -> Nat.iter j Spec.lcg state <> 0.
Proof.
  induction fuel as [ | fuel IH ]; intros state calls r H; [discriminate|].
  cbn [calls_until_zero] in H. cbv zeta in H.
  destruct (Z.eqb_spec (Spec.lcg state) 0) as [E0 | E0].
  - injection H as <-. exists 1%nat. split; [lia|]. split; [lia|].
    split; [exact E0|]. intros j Hj. lia.
  - destruct (IH _ _ _ H) as (k & Er & Hk & Hz & Hfirst).
    exists (S k). split; [lia|]. split; [lia|].
    split; [rewrite Nat.iter_succ_r; exact Hz|].
    intros j Hj. destruct j as [ | j ]; [lia|].
    rewrite Nat.iter_succ_r.
    destruct j as [ | j ]; [exact E0|]. apply Hfirst. lia.
Qed.

Lemma generator_returns_to_zero :
  calls_until_zero (Z.to_nat 233280) 0 0 = Some 233280.
Proof. vm_compute. reflexivity. Qed.

Lemma lcg_cycle (x : Z) (p q : nat) :
  0 <= x < 233280 ->
  Nat.iter p Spec.lcg x = Nat.iter q Spec.lcg x <->
  Z.of_nat p mod 233280 = Z.of_nat q mod 233280.
Proof.
  intros Hx.
  destruct (calls_until_zero_spec _ _ _ _ generator_returns_to_zero)
    as (M & HM & _ & Hret & Hfirst).
  assert (EM : Z.of_nat M = 233280) by lia.
  assert (HM0 : M <> 0%nat) by lia.
  rewrite <- EM, <- !Nat2Z.inj_mod, Nat2Z.inj_iff.
  apply cycle_eq.
  - intros y. rewrite EM. apply lcg_range.
  - exact Hret.
  - exact Hfirst.
  - lia.
Qed.

Lemma nth_draw_spec (k : nat) : forall state : Z,
  nth_draw k {| seed := state |} =
    Ok (Spec.unit_value (Nat.iter k Spec.lcg (Spec.lcg state))).
Proof.
  induction k as [ | k IH ]; intros state; cbn [nth_draw]; rewrite next_spec; cbn [bind].
  - reflexivity.
  - rewrite IH, <- Nat.iter_succ_r. reflexivity.
Qed.

Lemma unit_value_inj (s1 s2 : Z) :
  0 <= s1 < 233280 -> 0 <= s2 < 233280 ->
  Spec.unit_value s1 = Spec.unit_value s2 -> s1 = s2.
Proof.
  intros H1 H2 E. unfold Spec.unit_value in E.
  destruct (Z.eq_dec s1 0) as [-> | N1]; destruct (Z.eq_dec s2 0) as [-> | N2].
  - reflexivity.
  - destruct (truediv_modulus s2) as (m2 & e2 & E2 & _); [lia|].
    rewrite E2 in E. discriminate.
  - destruct (truediv_modulus s1) as (m1 & e1 & E1 & _); [lia|].
    rewrite E1 in E. discriminate.
  - destruct (truediv_modulus s1) as (m1 & e1 & E1 & _ & _ & _ & B1); [lia|].
    destruct (truediv_modulus s2) as (m2 & e2 & E2 & _ & _ & _ & B2); [lia|].
    rewrite E1, E2 in E. injection E as -> ->.
    set (Y := Zpos m2 * 2 ^ (e2 + 70) * 233280) in *. clearbody Y.
    apply Z.abs_lt in B1. apply Z.abs_lt in B2. lia.
Qed.

(** X16.  The generator has full period: from any seed, the values
    returned by two calls of [next] are equal exactly when the numbers of
    the calls differ by a multiple of 233280.  In particular no value
    repeats within 233280 consecutive calls. *)
Theorem X16_draws_repeat_every_233280 (rng : SeededRandom) (i j : nat) :
  exists xi xj : float,
    nth_draw i rng = Ok xi /\ nth_draw j rng = Ok xj /\
    (xi = xj <-> Z.of_nat i mod 233280 = Z.of_nat j mod 233280).
Proof.
  destruct rng as [state]. rewrite !nth_draw_spec.
  eexists. eexists. split; [reflexivity|]. split; [reflexivity|].
  pose proof (lcg_range state) as Hx.
  rewrite <- (lcg_cycle (Spec.lcg state) i j Hx).
  split; [|intros ->; reflexivity].
  apply unit_value_inj.
  - destruct i as [ | i ]; [exact Hx | cbn [Nat.iter nat_rect]; apply lcg_range].
  - destruct j as [ | j ]; [exact Hx | cbn [Nat.iter nat_rect]; apply lcg_range].
Qed.

(** ** The shuffle on any list *)

(** X17.  [shuffle_with_seed] never raises, whatever the seed, negative
    ones included: it returns a rearrangement of its argument, of the same
    length, and returns a list of at most one element unchanged. *)
Theorem X17_shuffle_is_a_rearrangement {A : Type} (array : list A) (seed0 : Z) :
  len array <= PY_SSIZE_T_MAX ->
  exists shuffled : list A,
    shuffle_with_seed array seed0 = Ok shuffled /\
    Permutation array shuffled /\
    len shuffled = len array /\
    (len array <= 1 -> shuffled = array).
Proof.
  intros Hmax. rewrite (shuffle_with_seed_spec array seed0 Hmax).
  eexists. split; [reflexivity|].
  pose proof (fisher_yates_perm (length array - 1) seed0 array) as Hp.
  split; [symmetry; exact Hp|].
  split; [unfold len; rewrite (Permutation_length Hp); reflexivity|].
  intros Hshort.
  assert (E : (length array - 1 = 0)%nat) by (unfold len in Hshort; lia).
  rewrite E. reflexivity.
Qed.

Lemma X17_witness :
  len sample_pool <= PY_SSIZE_T_MAX /\
  exists shuffled : list item,
    shuffle_with_seed sample_pool (-5) = Ok shuffled /\
    Permutation sample_pool shuffled /\
    len shuffled = len sample_pool /\
    (len sample_pool <= 1 -> shuffled = sample_pool).
Proof.
  assert (Hmax : len sample_pool <= PY_SSIZE_T_MAX) by (vm_compute; discriminate).
  split; [exact Hmax|].
  apply (X17_shuffle_is_a_rearrangement sample_pool (-5) Hmax).
Defined.
